(** * KPI builder seeding scripts: a shallow embedding and its properties

    The repository ships three CSV ingestion scripts:
    - [src/backend/data/seed_sqlite.py]  (module [SeedSqlite] below),
    - [src/seed_sqlite.py]               (module [SeedSqliteMin]),
    - [src/frontend/seed_postgres.py]    (module [SeedPostgres]).

    Python exceptions are modelled by the [result] type, the messages of
    [process_dataframe] by a list of structured log entries returned with
    the frame, the SQLite file and the PostgreSQL connection by explicit
    state passing.  The text conversions of pandas, of Python and of the
    PostgreSQL server are library code: the embedding takes them as
    parameters (classes [PandasText], [PyBuiltins] and [PgServer]). *)

From Stdlib Require Import Ascii String ZArith QArith Qround Lia.
From stdpp Require Import base option list strings gmap pretty.

Set Warnings "-clear-no-such-hyp".

Local Open Scope string_scope.
Local Open Scope list_scope.

(** ** Python values and exceptions *)

Module Py.

Inductive exn :=
| KeyError
| ValueError
| TypeError
| OutOfBoundsDatetime
| OperationalError
| DatabaseError
| FileNotFoundError.

Inductive result (A : Type) :=
| Ok (a : A)
| Raise (e : exn).
Global Arguments Ok {A} a.
Global Arguments Raise {A} e.

Global Instance result_ret : MRet result := @Ok.
Global Instance result_bind : MBind result := fun A B k r =>
  match r with
  | Ok a => k a
  | Raise e => Raise e
  end.
Global Instance result_fmap : FMap result := fun A B f r =>
  match r with
  | Ok a => Ok (f a)
  | Raise e => Raise e
  end.

(** [str.lower()] on the ASCII range; bytes of non-ASCII characters are
    left as they are.  None of the literals the scripts compare against
    contains a letter that is the lower-case form of a non-ASCII
    character, so membership tests after [lower] agree with Python's. *)
Definition lower_ascii (c : ascii) : ascii :=
  let n := nat_of_ascii c in
  if (65 <=? n)%nat && (n <=? 90)%nat then ascii_of_nat (n + 32) else c.

Fixpoint lower (s : string) : string :=
  match s with
  | EmptyString => EmptyString
  | String c s' => String (lower_ascii c) (lower s')
  end.

(** Truthiness of a value that is either [None] or a [str]. *)
Definition truthy (v : option string) : bool :=
  match v with
  | Some s => negb (String.eqb s "")
  | None => false
  end.

(** A binary64 value; a finite one is the rational it denotes. *)
Inductive float64 :=
| Finite (q : Q)
| Infinity (negative : bool)
| NaN.

Global Instance Q_eq_dec : EqDecision Q.
Proof. solve_decision. Defined.
Global Instance float64_eq_dec : EqDecision float64.
Proof. solve_decision. Defined.

(** SQL [MIN] and [MAX] over the non-null instants of a column. *)
Definition min_instant (l : list Q) : option Q :=
  foldr (fun q acc => match acc with
                      | Some m => Some (if Qle_bool q m then q else m)
                      | None => Some q
                      end) None l.

Definition max_instant (l : list Q) : option Q :=
  foldr (fun q acc => match acc with
                      | Some m => Some (if Qle_bool m q then q else m)
                      | None => Some q
                      end) None l.

End Py.
Export Py.

(** Python's [float(s)] and [int(s)] on a [str]: [None] stands for the
    [ValueError] of an unparsable literal. *)
Class PyBuiltins := {
  py_float : string -> option float64;
  py_int : string -> option Z
}.

(** ** The part of pandas the scripts use *)

Module Pandas.

(** A number read from text: an integer literal or a float literal. *)
Inductive number :=
| NInt (n : Z)
| NFloat (f : float64).

(** A [Series] with its dtype, as [read_csv] and the conversions below
    produce them.  A missing entry is [NaN] in a float column, [None] in
    an object column and [NaT] (here [None]) in a datetime column; an
    instant is a count of nanoseconds since the Unix epoch. *)
Inductive column :=
| Int64Col (vs : list Z)
| Float64Col (vs : list float64)
| ObjectCol (vs : list (option string))
| DatetimeCol (vs : list (option Q)).

Inductive value :=
| VInt (n : Z)
| VFloat (f : float64)
| VStr (s : string)
| VNone
| VTime (ns : Q)
| VNaT.

Global Instance value_eq_dec : EqDecision value.
Proof. solve_decision. Defined.

Definition of_float (f : float64) : value := VFloat f.
Definition of_object (o : option string) : value :=
  match o with Some s => VStr s | None => VNone end.
Definition of_datetime (o : option Q) : value :=
  match o with Some q => VTime q | None => VNaT end.

Definition values (c : column) : list value :=
  match c with
  | Int64Col vs => VInt <$> vs
  | Float64Col vs => of_float <$> vs
  | ObjectCol vs => of_object <$> vs
  | DatetimeCol vs => of_datetime <$> vs
  end.

(** [pd.isna] *)
Definition isna (v : value) : bool :=
  match v with
  | VFloat NaN | VNone | VNaT => true
  | _ => false
  end.

Definition DataFrame : Type := list (string * column).

(** [df.columns] *)
Definition columns (df : DataFrame) : list string := df.*1.

(** [len(df)] *)
Definition len (df : DataFrame) : nat :=
  match df with
  | [] => 0
  | (_, c) :: _ => length (values c)
  end.

(** [df[c]] for a label [c]; the labels of a frame read by [read_csv]
    are distinct. *)
Fixpoint getitem (df : DataFrame) (c : string) : result column :=
  match df with
  | [] => Raise KeyError
  | (n, col) :: df' => if bool_decide (n = c) then Ok col else getitem df' c
  end.

(** [df[c] = col]: replaces the column in place, or appends it. *)
Definition setitem (df : DataFrame) (c : string) (col : column) : DataFrame :=
  if bool_decide (c ∈ columns df)
  then (fun p : string * column => if bool_decide (p.1 = c) then (p.1, col) else p) <$> df
  else df ++ [(c, col)].

(** [df[[c1, ..., cn]]]: every column carrying one of the labels. *)
Fixpoint select (df : DataFrame) (labels : list string) : result DataFrame :=
  match labels with
  | [] => Ok []
  | c :: labels' =>
      match filter (fun p : string * column => p.1 = c) df with
      | [] => Raise KeyError
      | cols => rest ← select df labels'; Ok (cols ++ rest)
      end
  end.

(** [df.rename(columns=mapper)] *)
Definition rename (df : DataFrame) (mapper : gmap string string) : DataFrame :=
  (fun p : string * column => (default p.1 (mapper !! p.1), p.2)) <$> df.

(** The label a column ends with when the labels whose lower-case form is
    one of [aliases] are renamed to [class] (the resolver's contract). *)
Definition alias_renamed (aliases : list string) (c : string) : string :=
  if bool_decide (lower c ∈ aliases) then "class" else c.

(** [pd.api.types.is_integer_dtype], [is_float_dtype] *)
Definition is_integer_dtype (c : column) : bool :=
  match c with Int64Col _ => true | _ => false end.
Definition is_float_dtype (c : column) : bool :=
  match c with Float64Col _ => true | _ => false end.

(** Truncation toward zero of a finite float. *)
Definition trunc (q : Q) : Z := Z.quot (Qnum q) (Z.pos (Qden q)).

Definition float_to_int64 (f : float64) : result Z :=
  match f with
  | Finite q => Ok (trunc q)
  | _ => Raise ValueError
  end.

Fixpoint traverse {A B} (f : A -> result B) (l : list A) : result (list B) :=
  match l with
  | [] => Ok []
  | a :: l' => b ← f a; bs ← traverse f l'; Ok (b :: bs)
  end.

(** [series.astype('int64')] on a numeric column: a float column with a
    [NaN] or an infinity raises; a finite float is truncated toward zero
    (a float beyond the 64-bit range has no defined result in the
    library; the model keeps the truncation). *)
Definition astype_int64 (c : column) : result (list Z) :=
  match c with
  | Int64Col vs => Ok vs
  | Float64Col vs => traverse float_to_int64 vs
  | ObjectCol _ | DatetimeCol _ => Raise TypeError
  end.

(** The entries of a numeric column without [NaN] and infinities, as the
    rationals they denote; [None] for any other column. *)
Definition numeric_entries (c : column) : option (list Q) :=
  match c with
  | Int64Col vs => Some (inject_Z <$> vs)
  | Float64Col vs =>
      mapM (fun f => match f with Finite q => Some q | _ => None end) vs
  | ObjectCol _ | DatetimeCol _ => None
  end.

(** [series.max()] of integers; [None] is the [NaN] of an empty series. *)
Definition series_max (l : list Z) : option Z :=
  match l with
  | [] => None
  | v :: l' => Some (foldl Z.max v l')
  end.

(** [max > bound], false when the maximum is [NaN]. *)
Definition gt (m : option Z) (bound : Z) : bool :=
  match m with
  | Some v => (bound <? v)%Z
  | None => false
  end.

Inductive time_unit := Milliseconds | Seconds.

Definition ns_per (u : time_unit) : Z :=
  match u with
  | Milliseconds => 1000000
  | Seconds => 1000000000
  end.

(** The range of a nanosecond [Timestamp]. *)
Definition in_bounds (ns : Q) : bool :=
  Qle_bool (inject_Z (-9223372036854775807)) ns
  && Qle_bool ns (inject_Z 9223372036854775807).

Definition instant_of (u : time_unit) (v : Q) : result (option Q) :=
  let ns := (v * inject_Z (ns_per u))%Q in
  if in_bounds ns then Ok (Some ns) else Raise OutOfBoundsDatetime.

Definition float_instant (u : time_unit) (f : float64) : result (option Q) :=
  match f with
  | Finite q => instant_of u q
  | Infinity _ => Raise OutOfBoundsDatetime
  | NaN => Ok None
  end.

(** [pd.to_datetime(series, unit=u, utc=True)] on a numeric column:
    every entry is scaled by the same unit; an instant outside the
    nanosecond range raises. *)
Definition to_datetime_unit (u : time_unit) (c : column) : result column :=
  match c with
  | Int64Col vs => DatetimeCol <$> traverse (fun v => instant_of u (inject_Z v)) vs
  | Float64Col vs => DatetimeCol <$> traverse (float_instant u) vs
  | ObjectCol _ | DatetimeCol _ => Raise TypeError
  end.

(** [df.dropna(subset=...)] keeps the rows whose mask entry is true. *)
Fixpoint filter_mask {A} (mask : list bool) (l : list A) : list A :=
  match mask, l with
  | b :: mask', x :: l' =>
      if b then x :: filter_mask mask' l' else filter_mask mask' l'
  | _, _ => []
  end.

Definition take_rows (mask : list bool) (c : column) : column :=
  match c with
  | Int64Col vs => Int64Col (filter_mask mask vs)
  | Float64Col vs => Float64Col (filter_mask mask vs)
  | ObjectCol vs => ObjectCol (filter_mask mask vs)
  | DatetimeCol vs => DatetimeCol (filter_mask mask vs)
  end.

(** A change of every column that keeps the labels. *)
Definition on_columns (h : column -> column) (df : DataFrame) : DataFrame :=
  (fun p : string * column => (p.1, h p.2)) <$> df.

Definition notna (c : column) : list bool :=
  (fun v => negb (isna v)) <$> values c.

Definition dropna (df : DataFrame) (subset : list string) : result DataFrame :=
  masks ← traverse (fun c => notna <$> getitem df c) subset;
  let keep := foldr (zip_with andb) (replicate (len df) true) masks in
  Ok (on_columns (take_rows keep) df).

(** Every column of the frame has [n] entries, one per row. *)
Definition well_formed (n : nat) (df : DataFrame) : Prop :=
  Forall (fun p : string * column => length (values p.2) = n) df.

(** The number of rows a mask drops. *)
Definition count_false (mask : list bool) : nat :=
  length (filter (fun b : bool => b = false) mask).

(** Row by row: [x], [y] and [t] are all present. *)
Definition valid_mask (cx cy ct : column) : list bool :=
  zip_with andb (zip_with andb (notna cx) (notna cy)) (notna ct).

(** The rows of a list of equally long columns, as [to_sql] inserts
    them. *)
Fixpoint rows_of (cols : list (list value)) : list (list value) :=
  match cols with
  | [] => []
  | [c] => (fun v => [v]) <$> c
  | c :: cs => zip_with cons c (rows_of cs)
  end.

End Pandas.
Export Pandas.

(** The text conversions of pandas. *)
Class PandasText := {
  (** [pd.to_numeric] on one text cell; [None]: not a number. *)
  parse_number : string -> option number;
  (** [pd.to_datetime(..., utc=True, errors='coerce')] on one text cell of
      a column (the column fixes the inferred format); [None]: not a date. *)
  parse_datetime : list (option string) -> string -> option Q;
  (** [str(v)], as [astype(str)] applies it. *)
  str_of : value -> string
}.

Module PandasTextOps.
Section WithText.
Context `{PandasText}.

Definition as_int (o : option number) : option Z :=
  match o with
  | Some (NInt n) => Some n
  | _ => None
  end.

Definition as_float (o : option number) : float64 :=
  match o with
  | Some (NInt n) => Finite (inject_Z n)
  | Some (NFloat f) => f
  | None => NaN
  end.

(** [pd.to_numeric(series, errors='coerce')]: a numeric column is
    returned as it is; in an object column a cell that is missing or not
    a number becomes [NaN], and the result is an integer column only when
    every cell is an integer. *)
Definition to_numeric (c : column) : column :=
  match c with
  | Int64Col _ | Float64Col _ => c
  | ObjectCol vs =>
      let ns := (fun o : option string => o ≫= parse_number) <$> vs in
      match mapM as_int ns with
      | Some ints => Int64Col ints
      | None => Float64Col (as_float <$> ns)
      end
  | DatetimeCol vs =>
      Int64Col ((fun o : option Q =>
                   match o with
                   | Some ns => Qfloor ns
                   | None => (-9223372036854775808)%Z
                   end) <$> vs)
  end.

(** [pd.to_datetime(series, utc=True, errors='coerce')]: in an object
    column a cell that is missing or not a date becomes [NaT]; nothing
    raises.  Without a unit a number counts nanoseconds. *)
Definition to_datetime_coerce (c : column) : column :=
  match c with
  | ObjectCol vs => DatetimeCol ((fun o : option string => o ≫= parse_datetime vs) <$> vs)
  | DatetimeCol _ => c
  | Int64Col vs => DatetimeCol ((fun v => Some (inject_Z v)) <$> vs)
  | Float64Col vs =>
      DatetimeCol ((fun f => match f with Finite q => Some q | _ => None end) <$> vs)
  end.

(** [series.astype(str).replace('nan', None)] *)
Definition astype_str_replace_nan (c : column) : column :=
  ObjectCol ((fun v => let s := str_of v in
                       if bool_decide (s = "nan") then None else Some s)
               <$> values c).

End WithText.
End PandasTextOps.
Export PandasTextOps.

(** ** The SQLite file *)

Module Sqlite.

Record table := {
  tbl_columns : list string;
  tbl_primary_key : list string;
  tbl_not_null : list string;
  tbl_rows : list (list value)
}.

(** The database file: the [detections] table, if it exists, and the
    indexes on it by name, each with the column it covers. *)
Record database := {
  detections : option table;
  indexes : gmap string string
}.

(** [CREATE INDEX IF NOT EXISTS name ON detections(col)] *)
Definition create_index (name col : string) (db : database) : result database :=
  match indexes db !! name with
  | Some _ => Ok db
  | None =>
      match detections db with
      | Some tbl =>
          if bool_decide (col ∈ tbl_columns tbl)
          then Ok {| detections := detections db;
                     indexes := <[name := col]> (indexes db) |}
          else Raise OperationalError
      | None => Raise OperationalError
      end
  end.

(** [DROP TABLE IF EXISTS detections]; its indexes go with it. *)
Definition drop_table (db : database) : database :=
  {| detections := None; indexes := ∅ |}.

(** [frame.to_sql('detections', con, if_exists='replace', index=False)]:
    the table is dropped, created again from the frame's labels with no
    constraint, and filled with the frame's rows. *)
Definition to_sql_replace (frame : DataFrame) (db : database)
  : database * result unit :=
  let db := drop_table db in
  if bool_decide (NoDup (columns frame)) then
    ({| detections :=
          Some {| tbl_columns := columns frame;
                  tbl_primary_key := [];
                  tbl_not_null := [];
                  tbl_rows := rows_of (values <$> frame.*2) |};
        indexes := indexes db |}, Ok ())
  else (db, Raise OperationalError).

(** The cell of a row under a column label. *)
Definition cell (tbl : table) (label : string) (row : list value) : value :=
  match list_find (fun c => c = label) (tbl_columns tbl) with
  | Some (i, _) => default VNone (row !! i)
  | None => VNone
  end.

Definition instants (tbl : table) : list Q :=
  omap (fun row => match cell tbl "t" row with VTime ns => Some ns | _ => None end)
       (tbl_rows tbl).

Definition classes (tbl : table) : list value :=
  filter (fun v => isna v = false) (cell tbl "class" <$> tbl_rows tbl).

(** The run summary: [SELECT COUNT( * )], [COUNT(DISTINCT class)],
    [MIN(t)] and [MAX(t)] over [detections]; [None] when there is no such
    table. *)
Definition statistics (db : database) : option (nat * nat * option Q * option Q) :=
  tbl ← detections db;
  Some (length (tbl_rows tbl), length (remove_dups (classes tbl)),
        min_instant (instants tbl), max_instant (instants tbl)).

End Sqlite.

(** ** src/backend/data/seed_sqlite.py *)

Module SeedSqlite.
Import Sqlite.
Section WithPandas.
Context `{PandasText}.

(** The lines [log_info] prints from [process_dataframe]. *)
Inductive log_entry :=
| Processing (rows : nat)
| UsingTimestampColumn (c : string)
| RenamedColumns (rename_map : gmap string string)
| RemovedInvalidCoordinates (rows : nat)
| RemovedInvalidTimestamps (rows : nat).

(** The [for cand in ...] scan of [infer_timestamp_col]. *)
Fixpoint first_candidate (cands : list string) (df : DataFrame) : result string :=
  match cands with
  | [] => Raise KeyError
  | cand :: cands' =>
      if bool_decide (cand ∈ columns df) then Ok cand
      else first_candidate cands' df
  end.

(** [infer_timestamp_col], lines 28-33 *)
Definition infer_timestamp_col (df : DataFrame) : result string :=
  first_candidate ["t"; "timestamp"; "time"] df.

(** [create_schema], lines 50-67 *)
Definition create_schema (db : database) : database :=
  match detections db with
  | Some _ => db
  | None =>
      {| detections :=
           Some {| tbl_columns := ["id"; "class"; "t"; "x"; "y"; "heading";
                                   "vest"; "speed"; "area"];
                   tbl_primary_key := ["id"; "t"];
                   tbl_not_null := ["id"; "class"; "t"; "x"; "y"];
                   tbl_rows := [] |};
         indexes := indexes db |}
  end.

(** [create_indexes], lines 69-82; a statement that raises leaves the
    indexes created before it. *)
Fixpoint create_each (ixs : list (string * string)) (db : database)
  : database * result unit :=
  match ixs with
  | [] => (db, Ok ())
  | (name, col) :: ixs' =>
      match create_index name col db with
      | Ok db' => create_each ixs' db'
      | Raise e => (db, Raise e)
      end
  end.

Definition create_indexes (db : database) : database * result unit :=
  create_each [("idx_detections_t", "t"); ("idx_detections_class", "class");
               ("idx_detections_area", "area"); ("idx_detections_vest", "vest");
               ("idx_detections_speed", "speed")] db.

(** Lines 93-98: the column [t]. *)
Definition normalize_timestamp (df : DataFrame) (ts_col : string) : result DataFrame :=
  col ← getitem df ts_col;
  t ← (if is_integer_dtype col || is_float_dtype col then
         ints ← astype_int64 col;
         let factor := if gt (series_max ints) 10000000000 then 1000%Z else 1%Z in
         to_datetime_unit (if (factor =? 1000)%Z then Milliseconds else Seconds) col
       else Ok (to_datetime_coerce col));
  Ok (setitem df "t" t).

(** Lines 101-104: the dictionary [rename_map]. *)
Definition build_rename_map (df : DataFrame) : gmap string string :=
  foldl (fun (m : gmap string string) c =>
           if bool_decide (lower c ∈ ["class_name"; "label"; "type"])
           then <[c := "class"]> m else m)
        ∅ (columns df).

(** Lines 117-120 *)
Fixpoint numeric_casts (numeric_cols : list string) (df : DataFrame) : result DataFrame :=
  match numeric_cols with
  | [] => Ok df
  | col :: numeric_cols' =>
      if bool_decide (col ∈ columns df) then
        c ← getitem df col;
        numeric_casts numeric_cols' (setitem df col (to_numeric c))
      else numeric_casts numeric_cols' df
  end.

(** Lines 123-126 *)
Definition handle_area (df : DataFrame) : result DataFrame :=
  if bool_decide ("area" ∈ columns df) then
    c ← getitem df "area";
    Ok (setitem df "area" (astype_str_replace_nan c))
  else Ok (setitem df "area" (ObjectCol (replicate (len df) None))).

(** Lines 100-108: the renaming, done when the dictionary is not empty. *)
Definition standardize_columns (df : DataFrame) (log : list log_entry)
  : DataFrame * list log_entry :=
  let rename_map := build_rename_map df in
  if bool_decide (rename_map = ∅) then (df, log)
  else (rename df rename_map, log ++ [RenamedColumns rename_map]).

(** Lines 100-126: renaming, required columns, casts, [area]. *)
Definition clean_columns (df : DataFrame) (log : list log_entry)
  : result (DataFrame * list log_entry) :=
  let '(df, log) := standardize_columns df log in
  let required := ["id"; "class"; "x"; "y"; "t"] in
  let missing_cols := filter (fun col => col ∉ columns df) required in
  if bool_decide (missing_cols = []) then
    df ← numeric_casts ["x"; "y"; "heading"; "speed"; "vest"] df;
    df ← handle_area df;
    Ok (df, log)
  else Raise KeyError.

(** Lines 128-141: the two [dropna] steps and their messages. *)
Definition drop_invalid (df : DataFrame) (log : list log_entry)
  : result (DataFrame * list log_entry) :=
  let initial_count := len df in
  df ← dropna df ["x"; "y"];
  let final_count := len df in
  let log :=
    if bool_decide (initial_count ≠ final_count)
    then log ++ [RemovedInvalidCoordinates (initial_count - final_count)]
    else log in
  let initial_count := len df in
  df ← dropna df ["t"];
  let final_count := len df in
  let log :=
    if bool_decide (initial_count ≠ final_count)
    then log ++ [RemovedInvalidTimestamps (initial_count - final_count)]
    else log in
  Ok (df, log).

(** [process_dataframe], lines 84-142; the result carries the messages
    printed on the way. *)
Definition process_dataframe (df : DataFrame) : result (DataFrame * list log_entry) :=
  let log := [Processing (len df)] in
  ts_col ← infer_timestamp_col df;
  let log := log ++ [UsingTimestampColumn ts_col] in
  df ← normalize_timestamp df ts_col;
  '(df, log) ← clean_columns df log;
  drop_invalid df log.

(** The labels of the frame [process_dataframe] returns, from the labels
    it is given: [t] is appended unless present, the class aliases are
    renamed, and [area] is appended unless present. *)
Definition processed_labels (labels : list string) : list string :=
  let with_t := if bool_decide ("t" ∈ labels) then labels else labels ++ ["t"] in
  let renamed := alias_renamed ["class_name"; "label"; "type"] <$> with_t in
  if bool_decide ("area" ∈ renamed) then renamed else renamed ++ ["area"].

(** The number of rows the messages of a run report as removed. *)
Definition removed_rows (log : list log_entry) : nat :=
  foldr (fun entry total =>
           match entry with
           | RemovedInvalidCoordinates k | RemovedInvalidTimestamps k => (k + total)%nat
           | _ => total
           end) 0%nat log.

(** [main], lines 144-202.  [csv] is the frame [read_csv] returns, [None]
    when the file is missing or cannot be read; the result is the database
    file afterwards and the exit status. *)
Definition main (csv : option DataFrame) (db : database) : database * Z :=
  match csv with
  | None => (db, 1%Z)
  | Some df =>
      match process_dataframe df with
      | Raise _ => (db, 1%Z)
      | Ok (df, _) =>
          let db := create_schema db in
          match create_indexes db with
          | (db, Raise _) => (db, 1%Z)
          | (db, Ok _) =>
              match select df ["id"; "class"; "t"; "x"; "y"; "heading";
                               "vest"; "speed"; "area"] with
              | Raise _ => (db, 1%Z)
              | Ok frame =>
                  match to_sql_replace frame db with
                  | (db, Raise _) => (db, 1%Z)
                  | (db, Ok _) => (db, 0%Z)
                  end
              end
          end
      end
  end.

End WithPandas.
End SeedSqlite.

(** ** src/seed_sqlite.py *)

Module SeedSqliteMin.
Import Sqlite.
Section WithPandas.
Context `{PandasText}.

Fixpoint first_candidate (cands : list string) (df : DataFrame) : result string :=
  match cands with
  | [] => Raise KeyError
  | cand :: cands' =>
      if bool_decide (cand ∈ columns df) then Ok cand
      else first_candidate cands' df
  end.

(** [infer_timestamp_col], lines 9-13 *)
Definition infer_timestamp_col (df : DataFrame) : result string :=
  first_candidate ["t"; "timestamp"; "time"] df.

(** Lines 19-24 *)
Definition normalize_timestamp (df : DataFrame) (ts_col : string) : result DataFrame :=
  col ← getitem df ts_col;
  t ← (if is_integer_dtype col || is_float_dtype col then
         ints ← astype_int64 col;
         let factor := if gt (series_max ints) 10000000000 then 1000%Z else 1%Z in
         to_datetime_unit (if (factor =? 1000)%Z then Milliseconds else Seconds) col
       else Ok (to_datetime_coerce col));
  Ok (setitem df "t" t).

(** Lines 26-29 *)
Definition build_rename_map (df : DataFrame) : gmap string string :=
  foldl (fun (m : gmap string string) c =>
           if bool_decide (lower c ∈ ["class_name"; "label"])
           then <[c := "class"]> m else m)
        ∅ (columns df).

(** Lines 32-35: the first missing required column raises. *)
Fixpoint check_required (required : list string) (df : DataFrame) : result unit :=
  match required with
  | [] => Ok ()
  | col :: required' =>
      if bool_decide (col ∉ columns df) then Raise KeyError
      else check_required required' df
  end.

(** Lines 37-39 *)
Fixpoint numeric_casts (numeric_cols : list string) (df : DataFrame) : result DataFrame :=
  match numeric_cols with
  | [] => Ok df
  | col :: numeric_cols' =>
      if bool_decide (col ∈ columns df) then
        c ← getitem df col;
        numeric_casts numeric_cols' (setitem df col (to_numeric c))
      else numeric_casts numeric_cols' df
  end.

(** Lines 17-39: what [main] does to the frame before it opens the
    database. *)
Definition prepare (df : DataFrame) : result DataFrame :=
  ts_col ← infer_timestamp_col df;
  df ← normalize_timestamp df ts_col;
  let rename_map := build_rename_map df in
  let df := rename df rename_map in
  _ ← check_required ["id"; "class"; "x"; "y"; "t"] df;
  numeric_casts ["x"; "y"; "heading"; "speed"; "vest"] df.

(** [main], lines 15-49; an exception is not caught and ends the script.
    [csv] is the frame [read_csv] returns, [None] when it raises. *)
Definition main (csv : option DataFrame) (db : database) : database * result unit :=
  match csv with
  | None => (db, Raise FileNotFoundError)
  | Some df =>
      match prepare df with
      | Raise e => (db, Raise e)
      | Ok df =>
          match select df ["id"; "class"; "t"; "x"; "y"; "heading"; "vest"; "speed"] with
          | Raise e => (db, Raise e)
          | Ok frame =>
              match to_sql_replace frame db with
              | (db, Raise e) => (db, Raise e)
              | (db, Ok _) =>
                  match create_index "idx_detections_t" "t" db with
                  | Raise e => (db, Raise e)
                  | Ok db =>
                      match create_index "idx_detections_class" "class" db with
                      | Raise e => (db, Raise e)
                      | Ok db => (db, Ok ())
                      end
                  end
              end
          end
      end
  end.

End WithPandas.
End SeedSqliteMin.

(** The PostgreSQL server's input routine for [TIMESTAMP WITH TIME ZONE]:
    the instant a text denotes, [None] when the server rejects the text. *)
Class PgServer := {
  timestamptz_in : string -> option Q
}.

(** ** src/frontend/seed_postgres.py *)

Module SeedPostgres.
Section WithLibraries.
Context `{PyBuiltins} `{PgServer}.

(** A row yielded by [csv.DictReader]: header name to cell text; a cell
    is [None] when the line is shorter than the header. *)
Definition row : Type := gmap string (option string).

(** The 10-tuple [data] built for one row, in column order
    [id, class, t, x, y, heading, area, vest, speed, with_object]. *)
Record data := {
  d_id : option string;
  d_class : option string;
  d_t : option string;
  d_x : float64;
  d_y : float64;
  d_heading : option float64;
  d_area : option string;
  d_vest : option Z;
  d_speed : option float64;
  d_with_object : option bool
}.

Record pgstate := {
  detections : option (list data);   (* [None]: the table does not exist *)
  indexes : list string
}.

(** A psycopg2 connection: the committed state, the state seen inside
    the open transaction, the rows inserted since the last commit, and
    for every commit so far the rows it made durable. *)
Record connection := {
  durable : pgstate;
  current : pgstate;
  tx_rows : list data;
  commit_log : list (list data)
}.

Definition commit (conn : connection) : connection :=
  {| durable := current conn;
     current := current conn;
     tx_rows := [];
     commit_log := commit_log conn ++ [tx_rows conn] |}.

(** Constraints of the table of [create_table], lines 29-40: the five
    [NOT NULL] columns, a well-formed timestamp and a 4-byte [vest]. *)
Definition accepts (d : data) : bool :=
  match d_id d, d_class d, d_t d with
  | Some _, Some _, Some t =>
      match timestamptz_in t with
      | Some _ =>
          match d_vest d with
          | Some v => (-2147483648 <=? v)%Z && (v <=? 2147483647)%Z
          | None => true
          end
      | None => false
      end
  | _, _, _ => false
  end.

(** [execute_batch(cur, "INSERT INTO detections ...", batch)] *)
Definition execute_batch (conn : connection) (batch : list data)
  : result connection :=
  match detections (current conn) with
  | None => Raise DatabaseError
  | Some rows =>
      if forallb accepts batch then
        Ok {| durable := durable conn;
              current := {| detections := Some (rows ++ batch);
                            indexes := indexes (current conn) |};
              tx_rows := tx_rows conn ++ batch;
              commit_log := commit_log conn |}
      else Raise DatabaseError
  end.

(** [create_table], lines 25-51 *)
Definition create_table (conn : connection) : connection :=
  let add_index ixs name :=
    if bool_decide (name ∈ ixs) then ixs else ixs ++ [name] in
  let st := current conn in
  let tbl := match detections st with Some rows => Some rows | None => Some [] end in
  let ixs := foldl add_index (indexes st)
               ["idx_detections_t"; "idx_detections_class";
                "idx_detections_id_t"; "idx_detections_area"] in
  commit {| durable := durable conn;
            current := {| detections := tbl; indexes := ixs |};
            tx_rows := tx_rows conn;
            commit_log := commit_log conn |}.

(** [convert_boolean], lines 53-59; Python's [None] result is [None]. *)
Definition convert_boolean (value : string) : option bool :=
  if bool_decide (lower value ∈ ["true"; "t"; "1"; "yes"]) then Some true
  else if bool_decide (lower value ∈ ["false"; "f"; "0"; "no"; ""]) then Some false
  else None.

(** [row[k]] *)
Definition getitem (r : row) (k : string) : result (option string) :=
  match r !! k with
  | Some v => Ok v
  | None => Raise KeyError
  end.

Definition float_ (v : option string) : result float64 :=
  match v with
  | None => Raise TypeError
  | Some s => match py_float s with Some f => Ok f | None => Raise ValueError end
  end.

Definition int_ (v : option string) : result Z :=
  match v with
  | None => Raise TypeError
  | Some s => match py_int s with Some n => Ok n | None => Raise ValueError end
  end.

(** [f(row[k]) if row[k] else None] *)
Definition if_present {A} (f : option string -> result A) (r : row) (k : string)
  : result (option A) :=
  c ← getitem r k;
  if truthy c then (v ← getitem r k; a ← f v; Ok (Some a)) else Ok None.

(** The tuple [data] of lines 74-85, fields evaluated left to right. *)
Definition row_data (r : row) : result data :=
  id ← getitem r "id";
  ty ← getitem r "type";
  ts ← getitem r "timestamp";
  x ← (v ← getitem r "x"; float_ v);
  y ← (v ← getitem r "y"; float_ v);
  heading ← if_present float_ r "heading";
  area ← if_present (fun v => Ok v) r "area";
  vest ← if_present int_ r "vest";
  speed ← if_present float_ r "speed";
  with_object ← if_present (fun v => Ok (convert_boolean (default "" v))) r "with_object";
  Ok {| d_id := id; d_class := ty; d_t := ts; d_x := x; d_y := y;
        d_heading := heading; d_area := mjoin area; d_vest := vest;
        d_speed := speed; d_with_object := mjoin with_object |}.

(** The [for row in reader] loop of lines 69-97.  On an exception the
    connection is as the last commit left it. *)
Fixpoint load_rows (batch_size : nat) (rows : list row)
    (batch : list data) (total_rows : nat) (conn : connection)
  : connection * result (list data * nat) :=
  match rows with
  | [] => (conn, Ok (batch, total_rows))
  | r :: rows' =>
      match row_data r with
      | Raise e => (conn, Raise e)
      | Ok d =>
          let batch := batch ++ [d] in
          if (batch_size <=? length batch)%nat then
            match execute_batch conn batch with
            | Raise e => (conn, Raise e)
            | Ok c => load_rows batch_size rows' [] (total_rows + length batch) (commit c)
            end
          else load_rows batch_size rows' batch total_rows conn
      end
  end.

(** [load_csv_data], lines 61-110; [rows] is what the reader yields. *)
Definition load_csv_data (conn : connection) (rows : list row)
  : connection * result nat :=
  let batch_size := 1000%nat in
  match load_rows batch_size rows [] 0 conn with
  | (conn, Raise e) => (conn, Raise e)
  | (conn, Ok (batch, total_rows)) =>
      match batch with
      | [] => (conn, Ok total_rows)
      | _ :: _ =>
          match execute_batch conn batch with
          | Raise e => (conn, Raise e)
          | Ok c => (commit c, Ok (total_rows + length batch)%nat)
          end
      end
  end.

(** What [main] reads from its surroundings. *)
Record world := {
  environ_DATABASE_URL : option string;  (* [os.environ.get('DATABASE_URL')] *)
  argv : list string;                    (* [sys.argv] *)
  csv_file : option (list row);          (* [None]: the path does not exist *)
  server : string -> option connection;  (* [None]: connecting raises *)
  stdin_line : string                    (* the answer given to [input] *)
}.

Record outcome := {
  exit_status : Z;
  connected_to : option string;    (* argument of [get_db_connection], if called *)
  final : option connection        (* the connection when the process ends *)
}.

(** The verification queries of lines 160-166. *)
Definition statistics (rows : list data) : nat * nat * option Q * option Q :=
  let ts := omap (fun d => d_t d ≫= timestamptz_in) rows in
  (length rows, length (remove_dups (d_class <$> rows)),
   min_instant ts, max_instant ts).

(** The [try] block of [main], lines 133-180; any exception in it ends
    the script with status 1. *)
Definition import_data (w : world) (url : string) (rows : list row) : outcome :=
  match server w url with
  | None => {| exit_status := 1; connected_to := Some url; final := None |}
  | Some conn =>
      let load conn :=
        let conn := create_table conn in
        match load_csv_data conn rows with
        | (conn, Raise _) =>
            {| exit_status := 1; connected_to := Some url; final := Some conn |}
        | (conn, Ok _) =>
            {| exit_status := 0; connected_to := Some url; final := Some conn |}
        end in
      match detections (current conn) with
      | None =>
          {| exit_status := 1; connected_to := Some url; final := Some conn |}
      | Some existing =>
          if (0 <? length existing)%nat then
            if bool_decide (lower (stdin_line w) ∈ ["yes"; "y"]) then
              load (commit {| durable := durable conn;
                              current := {| detections := Some [];
                                            indexes := indexes (current conn) |};
                              tx_rows := tx_rows conn;
                              commit_log := commit_log conn |})
            else
              {| exit_status := 0; connected_to := Some url; final := Some conn |}
          else load conn
      end
  end.

(** [main], lines 112-180 *)
Definition main (w : world) : outcome :=
  let database_url := environ_DATABASE_URL w in
  let database_url :=
    if negb (truthy database_url) && (1 <? length (argv w))%nat
    then argv w !! 1%nat
    else database_url in
  if negb (truthy database_url) then
    {| exit_status := 1; connected_to := None; final := None |}
  else
    match csv_file w with
    | None => {| exit_status := 1; connected_to := None; final := None |}
    | Some rows => import_data w (default "" database_url) rows
    end.

End WithLibraries.
End SeedPostgres.

(** ** A small text interface

    Decimal literals and ISO dates, enough to run the scripts on concrete
    files. *)

Module Sample.

Definition digit_of (c : ascii) : option Z :=
  let n := nat_of_ascii c in
  if (48 <=? n)%nat && (n <=? 57)%nat then Some (Z.of_nat (n - 48)) else None.

(** Digits with at most one point: the digits read as one integer, and the
    power of ten the fraction scales it by ([None]: no point). *)
Fixpoint scan (s : string) (mant : Z) (scale : option positive) (seen : bool)
  : option (Z * option positive) :=
  match s with
  | EmptyString => if seen then Some (mant, scale) else None
  | String c s' =>
      if bool_decide (c = "."%char) then
        match scale with
        | None => scan s' mant (Some 1%positive) seen
        | Some _ => None
        end
      else
        d ← digit_of c;
        scan s' (10 * mant + d)%Z ((fun p => (10 * p)%positive) <$> scale) true
  end.

Definition decimal (s : string) : option number :=
  let '(sign, body) :=
    match s with
    | String "-"%char s' => ((-1)%Z, s')
    | _ => (1%Z, s)
    end in
  '(mant, scale) ← scan body 0 None false;
  Some match scale with
       | None => NInt (sign * mant)
       | Some p => NFloat (Finite (Qmake (sign * mant) p))
       end.

Definition float_of_text (s : string) : option float64 :=
  match decimal s with
  | Some (NInt n) => Some (Finite (inject_Z n))
  | Some (NFloat f) => Some f
  | None => if bool_decide (lower s = "nan") then Some NaN else None
  end.

Definition int_of_text (s : string) : option Z :=
  match decimal s with
  | Some (NInt n) => Some n
  | _ => None
  end.

Fixpoint number_of (digits : list ascii) (acc : Z) : option Z :=
  match digits with
  | [] => Some acc
  | c :: digits' => d ← digit_of c; number_of digits' (10 * acc + d)%Z
  end.

(** Days from 1970-01-01 to a date of the proleptic Gregorian calendar. *)
Definition days_from_civil (y m d : Z) : Z :=
  let y := (if m <=? 2 then y - 1 else y)%Z in
  let era := (y / 400)%Z in
  let yoe := (y - era * 400)%Z in
  let mp := ((m + 9) mod 12)%Z in
  let doy := ((153 * mp + 2) / 5 + d - 1)%Z in
  let doe := (yoe * 365 + yoe / 4 - yoe / 100 + doy)%Z in
  (era * 146097 + doe - 719468)%Z.

(** [YYYY-MM-DD] as nanoseconds since the epoch, at midnight UTC. *)
Definition iso_date (s : string) : option Q :=
  match list_ascii_of_string s with
  | [y1; y2; y3; y4; "-"%char; m1; m2; "-"%char; d1; d2] =>
      y ← number_of [y1; y2; y3; y4] 0;
      m ← number_of [m1; m2] 0;
      d ← number_of [d1; d2] 0;
      if (1 <=? m)%Z && (m <=? 12)%Z && (1 <=? d)%Z && (d <=? 31)%Z
      then Some (inject_Z (days_from_civil y m d * 86400 * 1000000000))
      else None
  | _ => None
  end.

Definition text_of (v : value) : string :=
  match v with
  | VStr s => s
  | VInt n => pretty n
  | VFloat (Finite q) => pretty (trunc q) +:+ "." +:+ pretty (Z.abs (trunc (q * 10)) mod 10)%Z
  | VFloat (Infinity negative) => if negative then "-inf" else "inf"
  | VFloat NaN | VNone => "nan"
  | VTime ns => pretty (Qfloor ns)
  | VNaT => "NaT"
  end.

#[export] Instance pandas_text : PandasText :=
  {| parse_number := decimal;
     parse_datetime := fun _ => iso_date;
     str_of := text_of |}.

#[export] Instance py_builtins : PyBuiltins :=
  {| py_float := float_of_text; py_int := int_of_text |}.

#[export] Instance pg_server : PgServer :=
  {| timestamptz_in := iso_date |}.

(** Three detections: the second has a malformed [x], the third a
    malformed timestamp. *)
Definition frame_three : DataFrame :=
  [("id", ObjectCol [Some "a1"; Some "a2"; Some "a3"]);
   ("type", ObjectCol [Some "ped"; Some "veh"; Some "ped"]);
   ("timestamp", ObjectCol [Some "2024-01-01"; Some "2024-01-02"; Some "not-a-date"]);
   ("x", ObjectCol [Some "1.0"; Some "bad"; Some "4.0"]);
   ("y", Float64Col [Finite 2; Finite 3; Finite 5]);
   ("heading", Float64Col [Finite 90; NaN; NaN]);
   ("vest", Int64Col [0; 1; 0]%Z);
   ("speed", Float64Col [Finite (3 # 2); Finite 0; NaN]);
   ("area", ObjectCol [Some "dock"; None; Some "yard"])].

(** The same detection recorded twice, with an epoch timestamp. *)
Definition frame_twice : DataFrame :=
  [("id", ObjectCol [Some "a1"; Some "a1"]);
   ("class", ObjectCol [Some "ped"; Some "ped"]);
   ("t", Int64Col [1700000000; 1700000000]%Z);
   ("x", Float64Col [Finite 1; Finite 1]);
   ("y", Float64Col [Finite 2; Finite 2]);
   ("heading", Float64Col [NaN; NaN]);
   ("vest", Int64Col [0; 0]%Z);
   ("speed", Float64Col [NaN; NaN]);
   ("area", ObjectCol [None; None])].

(** One detection without an [x]. *)
Definition frame_no_x : DataFrame :=
  [("id", ObjectCol [Some "a1"]);
   ("class", ObjectCol [Some "ped"]);
   ("t", Int64Col [1700000000]%Z);
   ("x", Float64Col [NaN]);
   ("y", Float64Col [Finite 2]);
   ("heading", Float64Col [NaN]);
   ("vest", Int64Col [0]%Z);
   ("speed", Float64Col [NaN])].

(** A frame whose class column is labelled [type]. *)
Definition frame_type : DataFrame :=
  [("id", ObjectCol [Some "a1"]);
   ("type", ObjectCol [Some "ped"]);
   ("t", Int64Col [1700000000]%Z);
   ("x", Float64Col [Finite 1]);
   ("y", Float64Col [Finite 2])].

(** A float timestamp column whose greatest entry is 10^10 + 1/2. *)
Definition frame_half_second : DataFrame :=
  [("t", Float64Col [Finite 1700000000; Finite (20000000001 # 2)])].

Definition empty_db : Sqlite.database :=
  {| Sqlite.detections := None; Sqlite.indexes := ∅ |}.

Definition csv_row (id type timestamp x y with_object : string) : SeedPostgres.row :=
  list_to_map
    [("id", Some id); ("type", Some type); ("timestamp", Some timestamp);
     ("x", Some x); ("y", Some y); ("heading", Some ""); ("area", Some "");
     ("vest", Some ""); ("speed", Some ""); ("with_object", Some with_object)].

(** A numeric timestamp column with one empty cell. *)
Definition frame_gap : DataFrame :=
  [("id", ObjectCol [Some "a1"; Some "a2"]);
   ("class", ObjectCol [Some "ped"; Some "veh"]);
   ("t", Float64Col [Finite 1700000000; NaN]);
   ("x", Float64Col [Finite 1; Finite 2]);
   ("y", Float64Col [Finite 2; Finite 3]);
   ("heading", Float64Col [NaN; NaN]);
   ("vest", Int64Col [0; 1]%Z);
   ("speed", Float64Col [NaN; NaN])].

(** Integer timestamps in milliseconds. *)
Definition frame_millis : DataFrame :=
  [("t", Int64Col [1700000000000; 1700000001000]%Z)].

(** A frame without a timestamp column. *)
Definition frame_no_time : DataFrame :=
  [("id", ObjectCol [Some "a1"]); ("x", Float64Col [Finite 1])].

Definition fresh_connection : SeedPostgres.connection :=
  let st := {| SeedPostgres.detections := Some []; SeedPostgres.indexes := [] |} in
  {| SeedPostgres.durable := st; SeedPostgres.current := st;
     SeedPostgres.tx_rows := []; SeedPostgres.commit_log := [] |}.

(** Both the environment variable and the argument are given. *)
Definition world_both : SeedPostgres.world :=
  {| SeedPostgres.environ_DATABASE_URL := Some "postgresql://env/kpi";
     SeedPostgres.argv := ["seed_postgres.py"; "postgresql://arg/kpi"];
     SeedPostgres.csv_file := Some [csv_row "a1" "ped" "2024-01-01" "1.0" "2.0" ""];
     SeedPostgres.server := fun _ => Some fresh_connection;
     SeedPostgres.stdin_line := "" |}.

(** The second line of the file has a malformed [x]. *)
Definition world_bad_x : SeedPostgres.world :=
  {| SeedPostgres.environ_DATABASE_URL := None;
     SeedPostgres.argv := ["seed_postgres.py"; "postgresql://arg/kpi"];
     SeedPostgres.csv_file :=
       Some [csv_row "a1" "ped" "2024-01-01" "1.0" "2.0" "";
             csv_row "a2" "veh" "2024-01-02" "bad" "3.0" ""];
     SeedPostgres.server := fun _ => Some fresh_connection;
     SeedPostgres.stdin_line := "" |}.

(** Two columns that both resolve to [class]. *)
Definition frame_two_aliases : DataFrame :=
  [("id", ObjectCol [Some "a1"]);
   ("class_name", ObjectCol [Some "ped"]);
   ("label", ObjectCol [Some "person"]);
   ("t", Int64Col [1700000000]%Z);
   ("x", Float64Col [Finite 1]);
   ("y", Float64Col [Finite 2]);
   ("heading", Float64Col [NaN]);
   ("vest", Int64Col [0]%Z);
   ("speed", Float64Col [NaN])].

(** A PostgreSQL database without the table [detections]. *)
Definition blank_connection : SeedPostgres.connection :=
  let st := {| SeedPostgres.detections := None; SeedPostgres.indexes := [] |} in
  {| SeedPostgres.durable := st; SeedPostgres.current := st;
     SeedPostgres.tx_rows := []; SeedPostgres.commit_log := [] |}.

Definition world_blank : SeedPostgres.world :=
  {| SeedPostgres.environ_DATABASE_URL := Some "postgresql://env/kpi";
     SeedPostgres.argv := ["seed_postgres.py"];
     SeedPostgres.csv_file := Some [csv_row "a1" "ped" "2024-01-01" "1.0" "2.0" ""];
     SeedPostgres.server := fun _ => Some blank_connection;
     SeedPostgres.stdin_line := "yes" |}.

End Sample.

(** * Properties *)

Import Sample.

(** ** [convert_boolean] and its caller *)

Section ConvertBoolean.
Import SeedPostgres.
Context `{PyBuiltins}.

Lemma if_present_ok {A} (f : option string -> result A) (r : row) k (o : option A) :
  if_present f r k = Ok o ->
  exists w, r !! k = Some w /\
            if truthy w then exists a, f w = Ok a /\ o = Some a else o = None.
Proof.
  unfold if_present, getitem. destruct (r !! k) as [w|] eqn:E; simpl; [|discriminate].
  intros Hk. exists w. split; [done|].
  destruct (truthy w); simpl in Hk.
  - destruct (f w) as [a|e]; simpl in Hk; [|discriminate].
    exists a. split; congruence.
  - congruence.
Qed.

(** C10: [convert_boolean] gives [True] exactly on the lower-cased
    literals true, t, 1, yes, [False] exactly on false, f, 0, no and the
    empty string, and [None] on every other string; [load_csv_data] calls it
    only on a non-empty [with_object] cell, so that an empty or absent cell
    is stored as [None] and never as [False]. *)
Theorem convert_boolean_total_and_guarded :
  (forall value : string,
     (convert_boolean value = Some true <->
        lower value ∈ ["true"; "t"; "1"; "yes"]) /\
     (convert_boolean value = Some false <->
        lower value ∈ ["false"; "f"; "0"; "no"; ""]) /\
     (convert_boolean value = None <->
        (lower value ∉ ["true"; "t"; "1"; "yes"]) /\
        (lower value ∉ ["false"; "f"; "0"; "no"; ""]))) /\
  (forall (r : row) (d : data),
     row_data r = Ok d ->
     exists w : option string,
       r !! "with_object" = Some w /\
       d_with_object d =
         (if truthy w then convert_boolean (default "" w) else None) /\
       (w = None \/ w = Some "" -> d_with_object d = None)).
Proof.
  split.
  - intros value. unfold convert_boolean.
    generalize (lower value) as s. intros s.
    repeat case_bool_decide; set_unfold; intuition (subst; congruence).
  - intros r d Hd. unfold row_data in Hd.
    repeat match type of Hd with
           | (?m ≫= _) = Ok _ =>
               let E := fresh "E" in
               destruct m eqn:E; simpl in Hd; [|discriminate]
           end.
    injection Hd as <-. simpl.
    match goal with
    | E : if_present _ r "with_object" = Ok ?o |- _ =>
        apply if_present_ok in E as (w & Hw & Hcase); revert Hcase;
        generalize o; intros o' Hcase
    end.
    exists w. split; [done|].
    assert (Hfield : mjoin o' =
              (if truthy w then convert_boolean (default "" w) else None)).
    { destruct (truthy w).
      - destruct Hcase as (b & Hb & ->). injection Hb as <-. done.
      - subst. done. }
    split; [done|].
    intros [-> | ->]; rewrite Hfield; done.
Qed.

End ConvertBoolean.

(** ** The connection string of the PostgreSQL script *)

Section DatabaseUrl.
Import SeedPostgres.
Context `{PyBuiltins} `{PgServer}.

Lemma argv_fallback (args : list string) :
  (if (1 <? length args)%nat then args !! 1%nat else None) = args !! 1%nat.
Proof.
  destruct args as [|a0 [|a1 args]]; reflexivity.
Qed.

(** C9, as the script has it: the connection string is the environment
    variable [DATABASE_URL] when that is set and not empty, whatever the
    command line says; the first command-line argument is used only when
    the variable is unset or empty; and when neither gives a non-empty
    string the script exits with status 1 without connecting. *)
Theorem database_url_environment_first (w : world) :
  (truthy (environ_DATABASE_URL w) = true ->
   is_Some (csv_file w) ->
   connected_to (main w) = environ_DATABASE_URL w) /\
  (forall a : string,
     truthy (environ_DATABASE_URL w) = false ->
     argv w !! 1%nat = Some a -> a <> "" ->
     is_Some (csv_file w) ->
     connected_to (main w) = Some a) /\
  (truthy (environ_DATABASE_URL w) = false ->
   argv w !! 1%nat = None \/ argv w !! 1%nat = Some "" ->
   exit_status (main w) = 1%Z /\ connected_to (main w) = None /\
   final (main w) = None).
Proof.
  assert (Hconn : forall url rows, connected_to (import_data w url rows) = Some url).
  { intros url rows. unfold import_data. repeat case_match; done. }
  split; [|split].
  - intros Henv [rows Hcsv]. unfold main. rewrite Henv. simpl. rewrite Henv. simpl.
    rewrite Hcsv. rewrite Hconn.
    destruct (environ_DATABASE_URL w); [done|discriminate].
  - intros a Henv Harg Ha [rows Hcsv]. unfold main. rewrite Henv. simpl.
    assert (Hlen : (1 <? length (argv w))%nat = true).
    { apply Nat.ltb_lt. apply lookup_lt_Some in Harg. lia. }
    rewrite Hlen, Harg. simpl.
    destruct (String.eqb_spec a ""); [done|]. simpl.
    rewrite Hcsv. apply Hconn.
  - intros Henv Harg. unfold main. rewrite Henv. simpl.
    pose proof (argv_fallback (argv w)) as Hfb.
    destruct (1 <? length (argv w))%nat.
    + destruct Harg as [-> | ->]; done.
    + rewrite Henv. done.
Qed.

End DatabaseUrl.

(** ** Column resolution in the SQLite scripts *)

Section ColumnResolver.
Context `{PandasText}.

Lemma first_candidate_same cands df :
  SeedSqliteMin.first_candidate cands df = SeedSqlite.first_candidate cands df.
Proof. induction cands as [|c cands IH]; simpl; [done|]. by rewrite IH. Qed.

Lemma first_candidate_spec cands df :
  match SeedSqlite.first_candidate cands df with
  | Ok c =>
      c ∈ columns df /\
      exists before after,
        cands = before ++ c :: after /\ forall b, b ∈ before -> b ∉ columns df
  | Raise e => e = KeyError /\ forall b, b ∈ cands -> b ∉ columns df
  end.
Proof.
  induction cands as [|cand cands IH]; simpl.
  - split; [done|]. intros b Hb. by apply elem_of_nil in Hb.
  - case_bool_decide as Hin.
    + split; [done|]. exists [], cands. split; [done|].
      intros b Hb. by apply elem_of_nil in Hb.
    + destruct (SeedSqlite.first_candidate cands df) as [c|e].
      * destruct IH as (Hc & before & after & -> & Hbefore).
        split; [done|]. exists (cand :: before), after. split; [done|].
        intros b [-> | Hb]%elem_of_cons; auto.
      * destruct IH as (-> & Hall). split; [done|].
        intros b [-> | Hb]%elem_of_cons; auto.
Qed.

(** C8: both SQLite scripts resolve the timestamp column by scanning
    [t], [timestamp], [time] in this order and taking the first label the
    frame has.  With none of the three the resolver raises [KeyError] and
    the run ends before the database file is touched; with at least one
    of them it returns the first one present. *)
Theorem timestamp_column_first_match (df : DataFrame) :
  SeedSqliteMin.infer_timestamp_col df = SeedSqlite.infer_timestamp_col df /\
  ("t" ∉ columns df -> "timestamp" ∉ columns df -> "time" ∉ columns df ->
   SeedSqlite.infer_timestamp_col df = Raise KeyError /\
   (forall db, SeedSqlite.main (Some df) db = (db, 1%Z)) /\
   (forall db, SeedSqliteMin.main (Some df) db = (db, Raise KeyError))) /\
  ("t" ∈ columns df \/ "timestamp" ∈ columns df \/ "time" ∈ columns df ->
   exists c before after,
     SeedSqlite.infer_timestamp_col df = Ok c /\
     c ∈ columns df /\
     ["t"; "timestamp"; "time"] = before ++ c :: after /\
     forall b, b ∈ before -> b ∉ columns df).
Proof.
  split; [apply first_candidate_same|].
  pose proof (first_candidate_spec ["t"; "timestamp"; "time"] df) as Hspec.
  fold (SeedSqlite.infer_timestamp_col df) in Hspec.
  split.
  - intros Ht Hts Htime.
    assert (Hraise : SeedSqlite.infer_timestamp_col df = Raise KeyError).
    { unfold SeedSqlite.infer_timestamp_col. simpl.
      rewrite !bool_decide_eq_false_2 by done. done. }
    split; [done|]. split; intros db.
    + unfold SeedSqlite.main, SeedSqlite.process_dataframe.
      rewrite Hraise. done.
    + unfold SeedSqliteMin.main, SeedSqliteMin.prepare,
        SeedSqliteMin.infer_timestamp_col.
      rewrite first_candidate_same.
      fold (SeedSqlite.infer_timestamp_col df). rewrite Hraise. done.
  - intros Hsome.
    destruct (SeedSqlite.infer_timestamp_col df) as [c|e].
    + destruct Hspec as (Hc & before & after & Heq & Hbefore).
      exists c, before, after. done.
    + destruct Hspec as (_ & Hnone). exfalso.
      destruct Hsome as [Hin | [Hin | Hin]]; revert Hin; apply Hnone; set_solver.
Qed.

Lemma rename_map_lookup (aliases cols : list string) (m : gmap string string) c :
  foldl (fun (m : gmap string string) c =>
           if bool_decide (lower c ∈ aliases) then <[c := "class"]> m else m)
        m cols !! c
  = if bool_decide (c ∈ cols /\ lower c ∈ aliases) then Some "class" else m !! c.
Proof.
  revert m. induction cols as [|c' cols IH]; intros m.
  - simpl foldl. case_bool_decide as Hin; [|done]. by destruct Hin as [[]%elem_of_nil _].
  - simpl foldl. rewrite IH. clear IH.
    repeat case_bool_decide; try done; try set_solver.
    + destruct (decide (c' = c)) as [->|Hne].
      * by rewrite lookup_insert_eq.
      * rewrite lookup_insert_ne by done. set_solver.
    + destruct (decide (c' = c)) as [->|Hne]; [set_solver|].
      by rewrite lookup_insert_ne.
Qed.

Lemma rename_columns (aliases : list string) (df : DataFrame) :
  columns
    (rename df
       (foldl (fun (m : gmap string string) c =>
                 if bool_decide (lower c ∈ aliases) then <[c := "class"]> m else m)
              ∅ (columns df)))
  = alias_renamed aliases <$> columns df.
Proof.
  unfold columns, rename. rewrite <- !list_fmap_compose.
  apply list_fmap_ext. intros i [c col] Hi. simpl.
  rewrite rename_map_lookup, lookup_empty. unfold alias_renamed.
  assert (Hin : c ∈ df.*1).
  { apply list_elem_of_fmap. exists (c, col). split; [done|].
    by apply list_elem_of_lookup_2 in Hi. }
  repeat case_bool_decide; naive_solver.
Qed.

Lemma rename_empty (df : DataFrame) : rename df ∅ = df.
Proof.
  unfold rename. rewrite <- (list_fmap_id df) at 2.
  apply list_fmap_ext. intros i [c col] _. simpl. by rewrite lookup_empty.
Qed.

Lemma row_data_class `{PyBuiltins} (r : SeedPostgres.row) (d : SeedPostgres.data) :
  SeedPostgres.row_data r = Ok d -> r !! "type" = Some (SeedPostgres.d_class d).
Proof.
  unfold SeedPostgres.row_data, SeedPostgres.getitem. intros Hd.
  destruct (r !! "id"); simpl in Hd; [|discriminate].
  destruct (r !! "type") as [ty|]; simpl in Hd; [|discriminate].
  repeat match type of Hd with
         | (?m ≫= _) = Ok _ => destruct m; simpl in Hd; [|discriminate]
         end.
  by injection Hd as <-.
Qed.

Lemma standardize_columns_labels (df : DataFrame) (log : list SeedSqlite.log_entry) :
  columns (SeedSqlite.standardize_columns df log).1
  = alias_renamed ["class_name"; "label"; "type"] <$> columns df.
Proof.
  unfold SeedSqlite.standardize_columns. case_bool_decide as Hempty; simpl.
  - rewrite <- (rename_empty df) at 1. rewrite <- Hempty. apply rename_columns.
  - apply rename_columns.
Qed.

(** C4, as the scripts have it: [process_dataframe] of the backend SQLite
    script renames every column whose lower-cased label is [class_name],
    [label] or [type] to [class] and leaves the other labels alone; the
    script of the repository root renames the columns whose lower-cased
    label is [class_name] or [label]; the PostgreSQL script renames
    nothing and reads the class from the column labelled exactly [type]. *)
Theorem class_aliases_renamed `{PyBuiltins} (df : DataFrame)
    (log : list SeedSqlite.log_entry) :
  columns (SeedSqlite.standardize_columns df log).1
    = alias_renamed ["class_name"; "label"; "type"] <$> columns df /\
  (forall i c, columns df !! i = Some c ->
     lower c ∈ ["class_name"; "label"; "type"] ->
     columns (SeedSqlite.standardize_columns df log).1 !! i = Some "class") /\
  (forall i c, columns df !! i = Some c ->
     lower c ∈ ["class_name"; "label"] ->
     columns (rename df (SeedSqliteMin.build_rename_map df)) !! i = Some "class") /\
  (forall (r : SeedPostgres.row) (d : SeedPostgres.data),
     SeedPostgres.row_data r = Ok d ->
     r !! "type" = Some (SeedPostgres.d_class d)).
Proof.
  split_and!.
  - apply standardize_columns_labels.
  - intros i c Hi Hc. rewrite standardize_columns_labels, list_lookup_fmap, Hi. simpl.
    unfold alias_renamed. by rewrite bool_decide_eq_true_2.
  - intros i c Hi Hc. unfold SeedSqliteMin.build_rename_map.
    rewrite rename_columns, list_lookup_fmap, Hi. simpl.
    unfold alias_renamed. by rewrite bool_decide_eq_true_2.
  - apply row_data_class.
Qed.

End ColumnResolver.

(** ** The batch loader of the PostgreSQL script *)

Section BatchLoader.
Import SeedPostgres.
Context `{PyBuiltins} `{PgServer}.

Lemma execute_batch_ok (conn : connection) (batch existing : list data) :
  detections (current conn) = Some existing ->
  Forall (fun d => accepts d = true) batch ->
  execute_batch conn batch =
    Ok {| durable := durable conn;
          current := {| detections := Some (existing ++ batch);
                        indexes := indexes (current conn) |};
          tx_rows := tx_rows conn ++ batch;
          commit_log := commit_log conn |}.
Proof.
  intros Hex Hacc. unfold execute_batch. rewrite Hex.
  assert (Hall : forallb accepts batch = true).
  { apply forallb_forall. intros d Hd. rewrite Forall_forall in Hacc.
    apply Hacc. by apply list_elem_of_In. }
  by rewrite Hall.
Qed.

(** The loop commits full batches only and keeps fewer than [n] records
    for the final one. *)
Lemma load_rows_batches (n : nat) (rows : list row) :
  (0 < n)%nat ->
  forall (datas batch : list data) (total : nat) (conn : connection)
         (existing : list data),
    Forall2 (fun r d => row_data r = Ok d) rows datas ->
    Forall (fun d => accepts d = true) (batch ++ datas) ->
    (length batch < n)%nat ->
    detections (current conn) = Some existing ->
    tx_rows conn = [] ->
    exists (conn' : connection) (batches : list (list data)) (rest : list data),
      load_rows n rows batch total conn
        = (conn', Ok (rest, (total + length (concat batches))%nat)) /\
      batch ++ datas = concat batches ++ rest /\
      Forall (fun b => length b = n) batches /\
      (length rest < n)%nat /\
      commit_log conn' = commit_log conn ++ batches /\
      tx_rows conn' = [] /\
      detections (current conn') = Some (existing ++ concat batches) /\
      (batches = [] -> conn' = conn) /\
      (batches <> [] -> durable conn' = current conn').
Proof.
  intros Hn. induction rows as [|r rows IH];
    intros datas batch total conn existing Hrows Hacc Hlen Hex Htx.
  - apply Forall2_nil_inv_l in Hrows as ->.
    exists conn, [], batch. simpl. rewrite !app_nil_r, Nat.add_0_r.
    split_and!; done.
  - apply Forall2_cons_inv_l in Hrows as (d & datas' & Hd & Hrows & ->).
    simpl. rewrite Hd.
    rewrite (assoc_L (++) batch [d] datas' : batch ++ d :: datas' = _) in Hacc.
    apply Forall_app in Hacc as [Hacc1 Hacc2].
    destruct (n <=? length (batch ++ [d]))%nat eqn:Hfull.
    + apply Nat.leb_le in Hfull. rewrite length_app in Hfull. simpl in Hfull.
      assert (Hbatch : length (batch ++ [d]) = n).
      { rewrite length_app. simpl. lia. }
      rewrite (execute_batch_ok conn _ existing Hex Hacc1).
      set (conn0 := commit _).
      destruct (IH datas' [] (total + length (batch ++ [d]))%nat conn0
                   (existing ++ (batch ++ [d])))
        as (conn' & batches & rest & Hrun & Hcat & Hsizes & Hrest & Hlog & Htx'
            & Hcur & Hsame & Hdur);
        [done | done | simpl; lia | done | done |].
      exists conn', ((batch ++ [d]) :: batches), rest.
      rewrite Hrun. simpl in Hlog. rewrite Htx in Hlog. simpl in Hlog, Hcat.
      split_and!.
      * do 3 f_equal. simpl. rewrite (length_app (batch ++ [d])). lia.
      * simpl. rewrite <- !(assoc_L (++)). simpl. by rewrite Hcat.
      * by constructor.
      * done.
      * by rewrite Hlog, <- (assoc_L (++)).
      * done.
      * rewrite Hcur. simpl. by rewrite <- !(assoc_L (++)).
      * discriminate.
      * intros _. destruct batches as [|b batches].
        -- by rewrite Hsame.
        -- by apply Hdur.
    + apply Nat.leb_gt in Hfull. rewrite length_app in Hfull. simpl in Hfull.
      destruct (IH datas' (batch ++ [d]) total conn existing)
        as (conn' & batches & rest & Hrun & Hcat & Hsizes & Hrest & Hlog & Htx'
            & Hcur & Hsame & Hdur);
        [done | by apply Forall_app | rewrite length_app; simpl; lia | done | done |].
      exists conn', batches, rest. rewrite Hrun.
      rewrite <- (assoc_L (++)) in Hcat. done.
Qed.

(** C6: for records that convert and that the table accepts,
    [load_csv_data] takes them in order in consecutive batches of exactly
    1000, the last one possibly smaller; every batch is inserted and
    committed by a commit of its own, and the number of rows it reports
    is the number of input records. *)
Theorem batches_of_one_thousand (conn : connection) (rows : list row)
    (datas existing : list data) :
  Forall2 (fun r d => row_data r = Ok d) rows datas ->
  Forall (fun d => accepts d = true) datas ->
  detections (current conn) = Some existing ->
  tx_rows conn = [] ->
  exists (conn' : connection) (batches : list (list data)),
    load_csv_data conn rows = (conn', Ok (length rows)) /\
    commit_log conn' = commit_log conn ++ batches /\
    concat batches = datas /\
    (forall i b, batches !! i = Some b ->
       (0 < length b <= 1000)%nat /\
       (S i < length batches -> length b = 1000%nat)) /\
    tx_rows conn' = [] /\
    detections (current conn') = Some (existing ++ datas) /\
    (rows <> [] -> durable conn' = current conn').
Proof.
  intros Hrows Hacc Hex Htx.
  destruct (load_rows_batches 1000 rows ltac:(lia) datas [] 0%nat conn existing)
    as (conn1 & batches & rest & Hrun & Hcat & Hsizes & Hrest & Hlog & Htx1
        & Hcur & Hsame & Hdur); [done | done | simpl; lia | done | done |].
  simpl in Hcat.
  assert (Hlen : length rows = (length (concat batches) + length rest)%nat).
  { rewrite (Forall2_length _ _ _ Hrows), Hcat, length_app. done. }
  unfold load_csv_data. rewrite Hrun. clear Hrun.
  destruct rest as [|d rest].
  - exists conn1, batches. rewrite app_nil_r in Hcat. simpl in Hlen.
    split_and!; try done.
    + do 2 f_equal. lia.
    + intros i b Hb. rewrite Forall_forall in Hsizes.
      rewrite (Hsizes b) by (by eapply list_elem_of_lookup_2). lia.
    + by rewrite Hcur, Hcat.
    + intros Hne. apply Hdur. intros ->. simpl in Hcat. subst datas.
      apply Forall2_nil_inv_r in Hrows. done.
  - assert (Haccr : Forall (fun d => accepts d = true) (d :: rest)).
    { rewrite Hcat in Hacc. by apply Forall_app in Hacc as [_ ?]. }
    rewrite (execute_batch_ok conn1 _ _ Hcur Haccr).
    eexists _, (batches ++ [d :: rest]).
    split_and!.
    + do 2 f_equal. lia.
    + simpl. rewrite Htx1, Hlog. simpl. by rewrite <- (assoc_L (++)).
    + rewrite concat_app. simpl. by rewrite app_nil_r.
    + intros i b Hb. apply lookup_app_Some in Hb as [Hb | [Hge Hb]].
      * rewrite Forall_forall in Hsizes.
        rewrite (Hsizes b) by (by eapply list_elem_of_lookup_2). lia.
      * apply list_lookup_singleton_Some in Hb as [Hi <-].
        split; [simpl in *; lia|]. rewrite length_app. simpl. lia.
    + done.
    + simpl. by rewrite Hcat, <- (assoc_L (++)).
    + done.
Qed.

End BatchLoader.

(** ** The epoch scale of a numeric timestamp column *)

Section EpochScale.
Context `{PandasText}.

Lemma foldl_max_spec (l : list Z) (a : Z) :
  foldl Z.max a l ∈ a :: l /\ forall v, v ∈ a :: l -> (v <= foldl Z.max a l)%Z.
Proof.
  revert a. induction l as [|x l IH]; intros a; simpl.
  - split; [set_solver|]. intros v ->%list_elem_of_singleton. lia.
  - destruct (IH (Z.max a x)) as [Hin Hle]. split.
    + apply elem_of_cons in Hin as [Heq | Hin]; [|set_solver].
      rewrite Heq. destruct (Z.max_spec a x) as [[_ ->] | [_ ->]]; set_solver.
    + intros v Hv.
      assert (Hmax : (Z.max a x <= foldl Z.max (Z.max a x) l)%Z) by (apply Hle; set_solver).
      apply elem_of_cons in Hv as [-> | Hv]; [lia|].
      apply elem_of_cons in Hv as [-> | Hv]; [lia|].
      apply Hle. set_solver.
Qed.

Lemma series_max_is_maximum (l : list Z) (m : Z) :
  m ∈ l -> (forall v, v ∈ l -> (v <= m)%Z) -> series_max l = Some m.
Proof.
  intros Hm Hle. destruct l as [|a l]; [by apply elem_of_nil in Hm|].
  simpl. f_equal. destruct (foldl_max_spec l a) as [Hin Hge].
  apply Z.le_antisymm; auto.
Qed.

Lemma trunc_inject_Z (v : Z) : trunc (inject_Z v) = v.
Proof. unfold trunc. simpl. apply Z.quot_1_r. Qed.

Lemma mapM_finite (fs : list float64) (qs : list Q) :
  mapM (fun f => match f with Finite q => Some q | _ => None end) fs = Some qs ->
  fs = Finite <$> qs.
Proof.
  revert qs. induction fs as [|f fs IH]; intros qs Hqs; simpl in Hqs.
  - by injection Hqs as <-.
  - destruct f as [q| |]; simpl in Hqs; try discriminate.
    destruct (mapM _ fs) as [qs'|]; simpl in Hqs; [|discriminate].
    injection Hqs as <-. simpl. f_equal. by apply IH.
Qed.

Lemma astype_int64_numeric (col : column) (qs : list Q) :
  numeric_entries col = Some qs -> astype_int64 col = Ok (trunc <$> qs).
Proof.
  destruct col as [vs|fs|?|?]; simpl; intros Hqs; try discriminate.
  - injection Hqs as <-. f_equal. rewrite <- list_fmap_compose.
    rewrite <- (list_fmap_id vs) at 1. apply list_fmap_ext.
    intros i v _. simpl. by rewrite trunc_inject_Z.
  - apply mapM_finite in Hqs as ->. clear.
    induction qs as [|q qs IH]; csimpl; [done|]. by rewrite IH.
Qed.

Lemma to_datetime_unit_numeric (u : time_unit) (col : column) (qs : list Q) :
  numeric_entries col = Some qs ->
  to_datetime_unit u col = DatetimeCol <$> traverse (instant_of u) qs.
Proof.
  destruct col as [vs|fs|?|?]; simpl; intros Hqs; try discriminate.
  - injection Hqs as <-. f_equal. clear.
    induction vs as [|v vs IH]; csimpl; [done|]. by rewrite IH.
  - apply mapM_finite in Hqs as ->. f_equal. clear.
    induction qs as [|q qs IH]; csimpl; [done|]. by rewrite IH.
Qed.

Lemma numeric_dtype (col : column) (qs : list Q) :
  numeric_entries col = Some qs -> is_integer_dtype col || is_float_dtype col = true.
Proof. by destruct col. Qed.

Lemma traverse_instant_of (u : time_unit) (qs : list Q) (ts : list (option Q)) :
  traverse (instant_of u) qs = Ok ts ->
  ts = (fun q => Some (q * inject_Z (ns_per u))%Q) <$> qs.
Proof.
  revert ts. induction qs as [|q qs IH]; intros ts Hts; csimpl in Hts.
  - by injection Hts as <-.
  - destruct (instant_of u q) as [o|] eqn:Ho; csimpl in Hts; [|discriminate].
    destruct (traverse (instant_of u) qs) as [ts'|]; csimpl in Hts; [|discriminate].
    injection Hts as <-. csimpl. f_equal; [|by apply IH].
    unfold instant_of in Ho. case_match; by simplify_eq.
Qed.

Lemma getitem_setitem (df : DataFrame) (c : string) (col : column) :
  getitem (setitem df c col) c = Ok col.
Proof.
  unfold setitem. case_bool_decide as Hin.
  - induction df as [|[n col'] df IH]; [by apply elem_of_nil in Hin|].
    simpl. case_bool_decide as Hn; simpl.
    + by rewrite bool_decide_eq_true_2.
    + rewrite bool_decide_eq_false_2 by done. apply IH.
      unfold columns in Hin. simpl in Hin. set_solver.
  - induction df as [|[n col'] df IH]; simpl.
    + by rewrite bool_decide_eq_true_2.
    + unfold columns in Hin. simpl in Hin.
      rewrite bool_decide_eq_false_2 by set_solver. apply IH. set_solver.
Qed.

(** C1, as the SQLite scripts have it: when the timestamp column is
    numeric with finite entries, one unit is used for the whole column,
    and it is decided by the maximum [m] of the entries truncated toward
    zero to integers ([astype('int64')]): milliseconds when [m] exceeds
    10^10, seconds otherwise.  Every entry [q] becomes the instant
    [q * ns_per unit]; no row gets another unit.  For an integer column
    [m] is the maximum of the column itself. *)
Theorem epoch_unit_by_truncated_maximum (df : DataFrame) (ts_col : string)
    (col : column) (qs : list Q) (m : Z) :
  getitem df ts_col = Ok col ->
  numeric_entries col = Some qs ->
  (forall v, v ∈ trunc <$> qs ->
     (-9223372036854775808 <= v <= 9223372036854775807)%Z) ->
  m ∈ trunc <$> qs ->
  (forall v, v ∈ trunc <$> qs -> (v <= m)%Z) ->
  let u := if (10000000000 <? m)%Z then Milliseconds else Seconds in
  SeedSqlite.normalize_timestamp df ts_col
    = (ts ← traverse (instant_of u) qs; Ok (setitem df "t" (DatetimeCol ts))) /\
  SeedSqliteMin.normalize_timestamp df ts_col
    = SeedSqlite.normalize_timestamp df ts_col /\
  (forall df', SeedSqlite.normalize_timestamp df ts_col = Ok df' ->
     getitem df' "t"
       = Ok (DatetimeCol ((fun q => Some (q * inject_Z (ns_per u))%Q) <$> qs))) /\
  (forall vs, col = Int64Col vs -> trunc <$> qs = vs).
Proof.
  intros Hcol Hqs _ Hm Hmax u.
  assert (Hnorm : SeedSqlite.normalize_timestamp df ts_col
            = (ts ← traverse (instant_of u) qs; Ok (setitem df "t" (DatetimeCol ts)))).
  { unfold SeedSqlite.normalize_timestamp. rewrite Hcol. simpl.
    rewrite (numeric_dtype _ _ Hqs), (astype_int64_numeric _ _ Hqs). simpl.
    rewrite (series_max_is_maximum _ _ Hm Hmax). simpl.
    rewrite (to_datetime_unit_numeric _ _ _ Hqs). subst u.
    destruct (10000000000 <? m)%Z; simpl;
      destruct (traverse _ qs); done. }
  split_and!.
  - done.
  - reflexivity.
  - intros df' Hdf'. rewrite Hnorm in Hdf'.
    destruct (traverse (instant_of u) qs) as [ts|] eqn:Hts; simpl in Hdf'; [|discriminate].
    injection Hdf' as <-. rewrite getitem_setitem.
    by rewrite (traverse_instant_of _ _ _ Hts).
  - intros vs ->. simpl in Hqs. injection Hqs as <-.
    rewrite <- list_fmap_compose. rewrite <- (list_fmap_id vs) at 2.
    apply list_fmap_ext. intros i v _. simpl. apply trunc_inject_Z.
Qed.

End EpochScale.

(** ** Re-seeding in replace mode *)

Section ReplaceMode.
Import Sqlite.
Context `{PandasText}.

Lemma select_columns (df frame : DataFrame) (labels : list string) :
  select df labels = Ok frame -> forall c, c ∈ labels -> c ∈ columns frame.
Proof.
  revert frame. induction labels as [|l labels IH]; intros frame Hsel c Hc.
  - by apply elem_of_nil in Hc.
  - simpl in Hsel.
    destruct (filter (fun p : string * column => p.1 = l) df) as [|p cols] eqn:Hf;
      [discriminate|].
    destruct (select df labels) as [rest|]; csimpl in Hsel; [|discriminate].
    injection Hsel as <-. unfold columns.
    apply elem_of_cons in Hc as [-> | Hc].
    + apply list_elem_of_fmap. exists p.
      assert (Hp : p ∈ filter (fun p : string * column => p.1 = l) df)
        by (rewrite Hf; set_solver).
      apply list_elem_of_filter in Hp as [-> _]. split; [done|]. set_solver.
    + specialize (IH rest eq_refl c Hc). unfold columns in IH.
      apply list_elem_of_fmap in IH as (q & -> & Hq).
      apply list_elem_of_fmap. exists q. split; [done|]. set_solver.
Qed.

Lemma to_sql_replace_ok (frame : DataFrame) (db db' : database) :
  to_sql_replace frame db = (db', Ok ()) ->
  NoDup (columns frame) /\
  db' = {| detections :=
             Some {| tbl_columns := columns frame;
                     tbl_primary_key := [];
                     tbl_not_null := [];
                     tbl_rows := rows_of (values <$> frame.*2) |};
           indexes := ∅ |}.
Proof.
  unfold to_sql_replace. case_bool_decide; [|discriminate].
  intros [= <-]. done.
Qed.

Lemma create_index_fresh (name col : string) (db : database) (tbl : table) :
  indexes db !! name = None ->
  detections db = Some tbl ->
  col ∈ tbl_columns tbl ->
  create_index name col db
    = Ok {| detections := Some tbl; indexes := <[name := col]> (indexes db) |}.
Proof.
  intros Hfresh Htbl Hcol. unfold create_index.
  rewrite Hfresh, Htbl. by rewrite bool_decide_eq_true_2.
Qed.

Ltac index_step Hcols :=
  erewrite create_index_fresh;
  [ | vm_compute; reflexivity | reflexivity | simpl; apply Hcols; set_solver ].

(** C7: a run of either SQLite script that succeeds leaves a database
    file on which a second run with the same input succeeds and ends with
    the same file: the same [detections] table, hence the same row count,
    number of distinct classes and least and greatest timestamp. *)
Theorem replace_mode_idempotent (df : DataFrame) (db db1 : database) :
  (SeedSqlite.main (Some df) db = (db1, 0%Z) ->
   exists db2,
     SeedSqlite.main (Some df) db1 = (db2, 0%Z) /\
     detections db2 = detections db1 /\ statistics db2 = statistics db1) /\
  (SeedSqliteMin.main (Some df) db = (db1, Ok ()) ->
   exists db2,
     SeedSqliteMin.main (Some df) db1 = (db2, Ok ()) /\
     detections db2 = detections db1 /\ statistics db2 = statistics db1).
Proof.
  assert (Hfull : SeedSqlite.main (Some df) db = (db1, 0%Z) ->
                  SeedSqlite.main (Some df) db1 = (db1, 0%Z)).
  { unfold SeedSqlite.main.
    destruct (SeedSqlite.process_dataframe df) as [[df' log]|]; [|discriminate].
    destruct (SeedSqlite.create_indexes (SeedSqlite.create_schema db)) as [dbi [[]|]];
      [|discriminate].
    destruct (select df' _) as [frame|] eqn:Hsel; [|discriminate].
    destruct (to_sql_replace frame dbi) as [dbf [[]|]] eqn:Hsql; [|discriminate].
    intros [= <-]. apply to_sql_replace_ok in Hsql as [Hnodup ->].
    pose proof (select_columns _ _ _ Hsel) as Hcols.
    unfold SeedSqlite.create_schema, SeedSqlite.create_indexes. simpl.
    index_step Hcols.
    index_step Hcols.
    index_step Hcols.
    index_step Hcols.
    index_step Hcols.
    unfold to_sql_replace. by rewrite bool_decide_eq_true_2. }
  assert (Hmin : SeedSqliteMin.main (Some df) db = (db1, Ok ()) ->
                 SeedSqliteMin.main (Some df) db1 = (db1, Ok ())).
  { unfold SeedSqliteMin.main.
    destruct (SeedSqliteMin.prepare df) as [df'|]; [|discriminate].
    destruct (select df' _) as [frame|] eqn:Hsel; [|discriminate].
    destruct (to_sql_replace frame db) as [dbf [[]|]] eqn:Hsql; [|discriminate].
    apply to_sql_replace_ok in Hsql as [Hnodup ->].
    pose proof (select_columns _ _ _ Hsel) as Hcols.
    index_step Hcols.
    index_step Hcols.
    intros [= <-]. unfold to_sql_replace. rewrite bool_decide_eq_true_2 by done.
    simpl.
    index_step Hcols.
    index_step Hcols.
    done. }
  split; intros Hrun; exists db1; auto.
Qed.

End ReplaceMode.

(** ** Frames: masks, rows and labels *)

Section Frames.

Lemma filter_mask_nil_r {A} (mask : list bool) : filter_mask mask (@nil A) = [].
Proof. by destruct mask. Qed.

Lemma filter_mask_fmap {A B} (f : A -> B) (mask : list bool) (l : list A) :
  filter_mask mask (f <$> l) = f <$> filter_mask mask l.
Proof.
  revert l. induction mask as [|b mask IH]; intros [|x l]; csimpl; try done.
  destruct b; csimpl; by rewrite IH.
Qed.

Lemma values_take_rows (mask : list bool) (c : column) :
  values (take_rows mask c) = filter_mask mask (values c).
Proof. destruct c; simpl; by rewrite filter_mask_fmap. Qed.

Lemma filter_mask_zip_with {A B C} (f : A -> B -> C) (mask : list bool)
    (l : list A) (k : list B) :
  filter_mask mask (zip_with f l k)
  = zip_with f (filter_mask mask l) (filter_mask mask k).
Proof.
  revert l k. induction mask as [|b mask IH]; intros [|x l] [|y k]; simpl; try done.
  - destruct b; [done|]. by rewrite zip_with_nil_r.
  - destruct b; simpl; by rewrite IH.
Qed.

Lemma filter_mask_compose {A B} (f : B -> bool) (mask : list bool)
    (t : list B) (l : list A) :
  filter_mask (f <$> filter_mask mask t) (filter_mask mask l)
  = filter_mask (zip_with andb mask (f <$> t)) l.
Proof.
  revert t l. induction mask as [|b mask IH]; intros [|x t] [|y l]; csimpl; try done.
  - apply filter_mask_nil_r.
  - destruct b; csimpl.
    + destruct (f x); by rewrite IH.
    + apply IH.
Qed.

Lemma length_filter_mask {A} (mask : list bool) (l : list A) :
  length mask = length l ->
  (length (filter_mask mask l) + count_false mask)%nat = length l.
Proof.
  unfold count_false. revert l.
  induction mask as [|b mask IH]; intros [|x l] Hlen; simpl in *; try done.
  injection Hlen as Hlen. specialize (IH l Hlen).
  destruct b.
  - rewrite filter_cons_False by done. simpl. lia.
  - rewrite filter_cons_True by done. simpl. lia.
Qed.

Lemma filter_mask_Forall {A} (P : A -> Prop) (mask : list bool) (l : list A) :
  Forall2 (fun b x => b = true -> P x) mask l -> Forall P (filter_mask mask l).
Proof.
  induction 1 as [|b x mask l Hb _ IH]; simpl; [done|].
  destruct b; [constructor|]; auto.
Qed.

Lemma rows_of_filter_mask (mask : list bool) (cols : list (list value)) :
  rows_of (filter_mask mask <$> cols) = filter_mask mask (rows_of cols).
Proof.
  induction cols as [|c cols IH]; [csimpl; by rewrite filter_mask_nil_r|].
  destruct cols as [|c2 cols].
  - simpl. by rewrite filter_mask_fmap.
  - change (rows_of (filter_mask mask <$> c :: c2 :: cols))
      with (zip_with cons (filter_mask mask c)
              (rows_of (filter_mask mask <$> c2 :: cols))).
    rewrite IH.
    change (rows_of (c :: c2 :: cols)) with (zip_with cons c (rows_of (c2 :: cols))).
    by rewrite filter_mask_zip_with.
Qed.

Lemma rows_of_elem (cols : list (list value)) (row : list value) :
  row ∈ rows_of cols -> Forall2 (fun a c => a ∈ c) row cols.
Proof.
  revert row. induction cols as [|c cols IH]; intros row Hrow.
  - by apply elem_of_nil in Hrow.
  - destruct cols as [|c2 cols].
    + simpl in Hrow. apply list_elem_of_fmap in Hrow as (v & -> & Hv).
      by repeat constructor.
    + change (rows_of (c :: c2 :: cols))
        with (zip_with cons c (rows_of (c2 :: cols))) in Hrow.
      apply list_elem_of_lookup in Hrow as [i Hi].
      apply lookup_zip_with_Some in Hi as (a & row' & -> & Ha & Hrow').
      constructor.
      * by eapply list_elem_of_lookup_2.
      * apply IH. by eapply list_elem_of_lookup_2.
Qed.

Lemma getitem_elem (df : DataFrame) (c : string) (col : column) :
  getitem df c = Ok col -> (c, col) ∈ df.
Proof.
  induction df as [|[n col'] df IH]; simpl; [discriminate|].
  case_bool_decide as Hn.
  - intros [= <-]. subst. set_solver.
  - intros Hg. set_solver.
Qed.

Lemma getitem_present (df : DataFrame) (c : string) :
  c ∈ columns df -> exists col, getitem df c = Ok col.
Proof.
  unfold columns. induction df as [|[n col'] df IH]; csimpl.
  - by intros ?%elem_of_nil.
  - intros Hc. case_bool_decide as Hn; [by eexists|].
    apply IH. set_solver.
Qed.

Lemma getitem_columns (df : DataFrame) (c : string) (col : column) :
  getitem df c = Ok col -> c ∈ columns df.
Proof.
  intros Hg%getitem_elem. unfold columns. apply list_elem_of_fmap.
  by exists (c, col).
Qed.

Lemma getitem_well_formed (n : nat) (df : DataFrame) (c : string) (col : column) :
  well_formed n df -> getitem df c = Ok col -> length (values col) = n.
Proof.
  intros Hwf Hg%getitem_elem. unfold well_formed in Hwf.
  rewrite Forall_forall in Hwf. by apply (Hwf (c, col)).
Qed.

Lemma len_well_formed (n : nat) (df : DataFrame) :
  well_formed n df -> df <> [] -> len df = n.
Proof.
  intros Hwf Hne. destruct df as [|[c col] df]; [done|].
  simpl. by inversion Hwf.
Qed.

Lemma columns_setitem (df : DataFrame) (c : string) (col : column) :
  columns (setitem df c col)
  = if bool_decide (c ∈ columns df) then columns df else columns df ++ [c].
Proof.
  unfold setitem, columns. case_bool_decide.
  - rewrite <- list_fmap_compose. apply list_fmap_ext.
    intros i [n col'] _. simpl. by case_bool_decide.
  - by rewrite fmap_app.
Qed.

Lemma columns_setitem_keeps (df : DataFrame) (c c' : string) (col : column) :
  c' ∈ columns df -> c' ∈ columns (setitem df c col).
Proof.
  rewrite columns_setitem. case_bool_decide; [done|]. set_solver.
Qed.

Lemma setitem_well_formed (n : nat) (df : DataFrame) (c : string) (col : column) :
  well_formed n df -> length (values col) = n -> well_formed n (setitem df c col).
Proof.
  unfold well_formed, setitem. intros Hwf Hlen. case_bool_decide.
  - apply Forall_fmap. eapply Forall_impl; [exact Hwf|].
    intros [n' col'] Hn. simpl in *. by case_bool_decide.
  - apply Forall_app. split; [done|]. by repeat constructor.
Qed.

Lemma setitem_nonempty (df : DataFrame) (c : string) (col : column) :
  df <> [] -> setitem df c col <> [].
Proof.
  unfold setitem. destruct df; [done|]. by case_bool_decide.
Qed.

Lemma getitem_setitem_ne (df : DataFrame) (c c' : string) (col : column) :
  c <> c' -> getitem (setitem df c col) c' = getitem df c'.
Proof.
  intros Hne. unfold setitem. case_bool_decide as Hin.
  - clear Hin. induction df as [|[n col'] df IH]; [done|].
    csimpl. case_bool_decide as Hn; simpl.
    + subst n. rewrite !bool_decide_eq_false_2 by done. apply IH.
    + case_bool_decide; [done|]. apply IH.
  - clear Hin. induction df as [|[n col'] df IH]; simpl.
    + by rewrite bool_decide_eq_false_2.
    + case_bool_decide; [done|]. apply IH.
Qed.

Lemma columns_on_columns (h : column -> column) (df : DataFrame) :
  columns (on_columns h df) = columns df.
Proof.
  unfold columns, on_columns. rewrite <- list_fmap_compose.
  by apply list_fmap_ext.
Qed.

Lemma getitem_on_columns (h : column -> column) (df : DataFrame) (c : string) :
  getitem (on_columns h df) c = h <$> getitem df c.
Proof.
  induction df as [|[n col] df IH]; [done|].
  csimpl. case_bool_decide; [done|]. apply IH.
Qed.

Lemma select_on_columns (h : column -> column) (df : DataFrame) (labels : list string) :
  select (on_columns h df) labels = on_columns h <$> select df labels.
Proof.
  assert (Hfilter : forall l,
            filter (fun p : string * column => p.1 = l) (on_columns h df)
            = on_columns h (filter (fun p : string * column => p.1 = l) df)).
  { intros l. unfold on_columns.
    set (F := fun p : string * column => (p.1, h p.2)).
    induction df as [|[n col] df IH]; [done|].
    rewrite fmap_cons. destruct (decide (n = l)) as [Hn|Hn].
    - rewrite (filter_cons_True _ (F (n, col))) by done.
      rewrite (filter_cons_True _ (n, col)) by done.
      rewrite fmap_cons. f_equal. exact IH.
    - rewrite (filter_cons_False _ (F (n, col))) by done.
      rewrite (filter_cons_False _ (n, col)) by done. done. }
  induction labels as [|l labels IH]; [done|].
  simpl. rewrite IH, Hfilter.
  destruct (filter _ df) as [|p cols]; csimpl; [done|].
  destruct (select df labels) as [rest|]; csimpl; [|done].
  unfold on_columns. by rewrite fmap_app.
Qed.

Lemma select_exact (df frame : DataFrame) (labels : list string) :
  select df labels = Ok frame ->
  NoDup (columns frame) ->
  Forall2 (fun (p : string * column) l => p.1 = l /\ getitem df l = Ok p.2)
          frame labels.
Proof.
  revert frame. induction labels as [|l labels IH]; intros frame Hsel Hnd.
  - injection Hsel as <-. constructor.
  - simpl in Hsel.
    destruct (filter (fun p : string * column => p.1 = l) df) as [|p cols] eqn:Hf;
      [discriminate|].
    destruct (select df labels) as [rest|]; csimpl in Hsel; [|discriminate].
    injection Hsel as <-.
    assert (Hall : forall q, q ∈ p :: cols -> q.1 = l /\ q ∈ df).
    { intros q Hq. rewrite <- Hf in Hq. by apply list_elem_of_filter in Hq. }
    assert (Hhead : getitem df l = Ok p.2).
    { clear -Hf. induction df as [|[n col] df IH]; [done|].
      simpl. case_bool_decide as Hn.
      - rewrite (filter_cons_True _ (n, col)) in Hf by done. by injection Hf as <- _.
      - rewrite (filter_cons_False _ (n, col)) in Hf by done. by apply IH. }
    destruct cols as [|q cols].
    + simpl. constructor.
      * split; [|done]. apply Hall. set_solver.
      * apply IH; [done|]. unfold columns in *. csimpl in Hnd.
        by apply NoDup_cons in Hnd as [_ ?].
    + exfalso. unfold columns in Hnd. csimpl in Hnd.
      apply NoDup_cons in Hnd as [Hnot _]. apply Hnot.
      destruct (Hall p) as [-> _]; [set_solver|].
      destruct (Hall q) as [<- _]; [set_solver|]. set_solver.
Qed.

Lemma traverse_length {A B} (f : A -> result B) (l : list A) (l' : list B) :
  traverse f l = Ok l' -> length l' = length l.
Proof.
  revert l'. induction l as [|a l IH]; intros l' Hl; csimpl in Hl.
  - by injection Hl as <-.
  - destruct (f a); csimpl in Hl; [|discriminate].
    destruct (traverse f l); csimpl in Hl; [|discriminate].
    injection Hl as <-. simpl. f_equal. by apply IH.
Qed.

End Frames.

(** ** The cleaning steps of [process_dataframe] *)

Section Cleaning.
Import SeedSqlite.
Context `{PandasText}.

Lemma to_numeric_length (c : column) :
  length (values (to_numeric c)) = length (values c).
Proof.
  destruct c as [vs|vs|vs|vs]; simpl; try done.
  - destruct (mapM as_int _) as [ints|] eqn:Hints; simpl.
    + apply length_mapM in Hints. rewrite !length_fmap in *. done.
    + by rewrite !length_fmap.
  - by rewrite !length_fmap.
Qed.

Lemma to_datetime_coerce_length (c : column) :
  length (values (to_datetime_coerce c)) = length (values c).
Proof. destruct c; simpl; by rewrite !length_fmap. Qed.

Lemma astype_str_replace_nan_length (c : column) :
  length (values (astype_str_replace_nan c)) = length (values c).
Proof. unfold astype_str_replace_nan. simpl. by rewrite !length_fmap. Qed.

Lemma to_datetime_unit_length (u : time_unit) (c t : column) :
  to_datetime_unit u c = Ok t -> length (values t) = length (values c).
Proof.
  destruct c as [vs|vs|vs|vs]; simpl; try discriminate.
  - destruct (traverse _ vs) as [ts|] eqn:Hts; csimpl; [|discriminate].
    intros [= <-]. simpl. rewrite !length_fmap. by eapply traverse_length.
  - destruct (traverse _ vs) as [ts|] eqn:Hts; csimpl; [|discriminate].
    intros [= <-]. simpl. rewrite !length_fmap. by eapply traverse_length.
Qed.

Lemma normalize_timestamp_well_formed (n : nat) (df df1 : DataFrame) (ts_col : string) :
  well_formed n df ->
  normalize_timestamp df ts_col = Ok df1 ->
  well_formed n df1 /\ (forall c, c ∈ columns df -> c ∈ columns df1) /\
  "t" ∈ columns df1.
Proof.
  intros Hwf. unfold normalize_timestamp.
  destruct (getitem df ts_col) as [col|] eqn:Hcol; csimpl; [|discriminate].
  pose proof (getitem_well_formed _ _ _ _ Hwf Hcol) as Hlen.
  match goal with |- (?m ≫= _) = _ -> _ => destruct m as [t|] eqn:Ht end;
    csimpl; [|discriminate].
  intros [= <-].
  assert (Hlt : length (values t) = n).
  { destruct (is_integer_dtype col || is_float_dtype col).
    - destruct (astype_int64 col); csimpl in Ht; [|discriminate].
      apply to_datetime_unit_length in Ht. congruence.
    - injection Ht as <-. by rewrite to_datetime_coerce_length. }
  split_and!.
  - by apply setitem_well_formed.
  - intros c. apply columns_setitem_keeps.
  - eapply getitem_columns, getitem_setitem.
Qed.

Lemma numeric_casts_ok (n : nat) (labels : list string) (df : DataFrame) :
  well_formed n df ->
  exists df', numeric_casts labels df = Ok df' /\
              well_formed n df' /\ columns df' = columns df.
Proof.
  revert df. induction labels as [|l labels IH]; intros df Hwf; simpl.
  - by exists df.
  - case_bool_decide as Hin; [|by apply IH].
    destruct (getitem_present _ _ Hin) as [col Hcol]. rewrite Hcol. csimpl.
    destruct (IH (setitem df l (to_numeric col))) as (df' & Hdf' & Hwf' & Hcols).
    { apply setitem_well_formed; [done|]. rewrite to_numeric_length.
      by eapply getitem_well_formed. }
    exists df'. split_and!; [done | done |].
    rewrite Hcols, columns_setitem. by rewrite bool_decide_eq_true_2.
Qed.

Lemma handle_area_ok (n : nat) (df : DataFrame) :
  well_formed n df -> df <> [] ->
  exists df', handle_area df = Ok df' /\ well_formed n df' /\
              (forall c, c ∈ columns df -> c ∈ columns df').
Proof.
  intros Hwf Hne. unfold handle_area. case_bool_decide as Hin.
  - destruct (getitem_present _ _ Hin) as [col Hcol]. rewrite Hcol. csimpl.
    eexists. split_and!; [done | |].
    + apply setitem_well_formed; [done|]. rewrite astype_str_replace_nan_length.
      by eapply getitem_well_formed.
    + intros c. apply columns_setitem_keeps.
  - eexists. split_and!; [done | |].
    + apply setitem_well_formed; [done|]. simpl.
      rewrite length_fmap, length_replicate. by apply len_well_formed.
    + intros c. apply columns_setitem_keeps.
Qed.

Lemma rename_well_formed (n : nat) (df : DataFrame) (m : gmap string string) :
  well_formed n df -> well_formed n (rename df m).
Proof.
  unfold well_formed, rename. intros Hwf. apply Forall_fmap.
  eapply Forall_impl; [exact Hwf|]. by intros [c col].
Qed.

Lemma standardize_columns_well_formed (n : nat) (df : DataFrame) (log : list log_entry) :
  well_formed n df -> well_formed n (standardize_columns df log).1.
Proof.
  intros Hwf. unfold standardize_columns. case_bool_decide; simpl; [done|].
  by apply rename_well_formed.
Qed.

(** The cleaning raises only for a missing required column; what the
    cells hold does not matter. *)
Lemma clean_columns_ok (n : nat) (df1 : DataFrame) (log : list log_entry) :
  well_formed n df1 ->
  (forall c, c ∈ ["id"; "class"; "x"; "y"; "t"] ->
             c ∈ columns (standardize_columns df1 log).1) ->
  exists df2,
    clean_columns df1 log = Ok (df2, (standardize_columns df1 log).2) /\
    well_formed n df2 /\
    (forall c, c ∈ ["id"; "class"; "x"; "y"; "t"] -> c ∈ columns df2).
Proof.
  intros Hwf Hreq. unfold clean_columns.
  pose proof (standardize_columns_well_formed n df1 log Hwf) as Hwf'.
  destruct (standardize_columns df1 log) as [df log']. simpl in Hreq, Hwf'.
  cbn beta iota.
  assert (Hnone : filter (fun col => col ∉ columns df) ["id"; "class"; "x"; "y"; "t"] = []).
  { assert (Hno : forall c, c ∈ ["id"; "class"; "x"; "y"; "t"] -> ~ (c ∉ columns df))
      by (intros c Hc Hn; apply Hn, Hreq, Hc).
    rewrite !filter_cons_False by (apply Hno; set_solver). done. }
  rewrite Hnone. rewrite bool_decide_eq_true_2 by done.
  destruct (numeric_casts_ok n ["x"; "y"; "heading"; "speed"; "vest"] df Hwf')
    as (dfa & -> & Hwfa & Hcolsa).
  csimpl.
  assert (Hne : dfa <> []).
  { intros ->. specialize (Hreq "id"). rewrite <- Hcolsa in Hreq.
    apply (elem_of_nil "id"). apply Hreq. set_solver. }
  destruct (handle_area_ok n dfa Hwfa Hne) as (df2 & -> & Hwf2 & Hcols2).
  csimpl. exists df2. split_and!; [done | done |].
  intros c Hc. apply Hcols2. rewrite Hcolsa. by apply Hreq.
Qed.

Lemma clean_columns_inv (n : nat) (df1 df2 : DataFrame) (log log2 : list log_entry) :
  well_formed n df1 ->
  clean_columns df1 log = Ok (df2, log2) ->
  well_formed n df2 /\ log2 = (standardize_columns df1 log).2 /\
  (forall c, c ∈ ["id"; "class"; "x"; "y"; "t"] -> c ∈ columns df2).
Proof.
  intros Hwf Hclean.
  assert (Hreq : forall c, c ∈ ["id"; "class"; "x"; "y"; "t"] ->
                           c ∈ columns (standardize_columns df1 log).1).
  { unfold clean_columns in Hclean.
    destruct (standardize_columns df1 log) as [df log']. cbn beta iota in Hclean.
    simpl. case_bool_decide as Hnone; [|discriminate].
    intros c Hc. destruct (decide (c ∈ columns df)) as [|Hn]; [done|].
    exfalso. eapply filter_nil_not_elem_of; [exact Hnone| exact Hn | exact Hc]. }
  destruct (clean_columns_ok n df1 log Hwf Hreq) as (df2' & Heq & Hwf2 & Hcols).
  rewrite Heq in Hclean. injection Hclean as <- <-. done.
Qed.

Lemma zip_with_andb_true (mask : list bool) (n : nat) :
  length mask = n -> zip_with andb mask (replicate n true) = mask.
Proof.
  revert n. induction mask as [|b mask IH]; intros [|n] Hlen; simpl in *; try done.
  rewrite andb_true_r. f_equal. apply IH. lia.
Qed.

Lemma dropna_xy (n : nat) (df : DataFrame) (cx cy : column) :
  well_formed n df -> df <> [] ->
  getitem df "x" = Ok cx -> getitem df "y" = Ok cy ->
  dropna df ["x"; "y"]
    = Ok (on_columns (take_rows (zip_with andb (notna cx) (notna cy))) df).
Proof.
  intros Hwf Hne Hx Hy. unfold dropna. csimpl. rewrite Hx, Hy. csimpl.
  do 3 f_equal. rewrite (len_well_formed n) by done.
  rewrite zip_with_andb_true; [done|].
  unfold notna. rewrite length_fmap. by eapply getitem_well_formed.
Qed.

Lemma dropna_t (n : nat) (df : DataFrame) (ct : column) :
  well_formed n df -> df <> [] ->
  getitem df "t" = Ok ct ->
  dropna df ["t"] = Ok (on_columns (take_rows (notna ct)) df).
Proof.
  intros Hwf Hne Ht. unfold dropna. csimpl. rewrite Ht. csimpl.
  do 3 f_equal. rewrite (len_well_formed n) by done.
  rewrite zip_with_andb_true; [done|].
  unfold notna. rewrite length_fmap. by eapply getitem_well_formed.
Qed.

Lemma take_rows_well_formed (n : nat) (mask : list bool) (df : DataFrame) :
  well_formed n df -> length mask = n ->
  well_formed (n - count_false mask) (on_columns (take_rows mask) df).
Proof.
  unfold well_formed, on_columns. intros Hwf Hlen. apply Forall_fmap.
  eapply Forall_impl; [exact Hwf|]. intros [c col] Hcol. simpl in *.
  rewrite values_take_rows.
  pose proof (length_filter_mask mask (values col)) as Hcount. lia.
Qed.

Lemma take_rows_compose (xy : list bool) (ct c : column) :
  take_rows (notna (take_rows xy ct)) (take_rows xy c)
  = take_rows (zip_with andb xy (notna ct)) c.
Proof.
  unfold notna. rewrite values_take_rows.
  destruct c; simpl; f_equal; apply filter_mask_compose.
Qed.

Lemma on_columns_nonempty (h : column -> column) (df : DataFrame) :
  df <> [] -> on_columns h df <> [].
Proof. by destruct df. Qed.

Lemma getitem_rename (df : DataFrame) (m : gmap string string) (l : string) :
  (forall c v, m !! c = Some v -> v <> l /\ c <> l) ->
  getitem (rename df m) l = getitem df l.
Proof.
  intros Hm. unfold rename. induction df as [|[n col] df IH]; [done|].
  csimpl. destruct (m !! n) as [v|] eqn:Hn; simpl.
  - destruct (Hm n v Hn) as [Hv Hl].
    rewrite !bool_decide_eq_false_2 by done. apply IH.
  - case_bool_decide; [done|]. apply IH.
Qed.

Lemma getitem_absent (df : DataFrame) (l : string) :
  l ∉ columns df -> getitem df l = Raise KeyError.
Proof.
  intros Hl. destruct (getitem df l) as [col|e] eqn:Hg.
  - by apply getitem_columns in Hg.
  - clear Hl. induction df as [|[n col] df IH]; simpl in Hg.
    + by injection Hg as <-.
    + case_bool_decide; [discriminate|]. by apply IH.
Qed.

Lemma standardize_columns_getitem (df : DataFrame) (log : list log_entry) (l : string) :
  l ∈ ["x"; "y"; "t"] ->
  getitem (standardize_columns df log).1 l = getitem df l.
Proof.
  intros Hl. unfold standardize_columns. case_bool_decide; simpl; [done|].
  apply getitem_rename. intros c v Hcv. unfold build_rename_map in Hcv.
  rewrite rename_map_lookup, lookup_empty in Hcv.
  case_bool_decide as Hc; [|discriminate]. injection Hcv as <-.
  destruct Hc as [_ Hc].
  repeat (apply elem_of_cons in Hl as [-> | Hl]);
    try (by apply elem_of_nil in Hl);
    (split; [done|]; intros ->; vm_compute in Hc; set_solver).
Qed.

Lemma numeric_casts_getitem (labels : list string) (df df' : DataFrame) (l : string) :
  NoDup labels ->
  numeric_casts labels df = Ok df' ->
  getitem df' l
  = if bool_decide (l ∈ labels) then to_numeric <$> getitem df l else getitem df l.
Proof.
  revert df. induction labels as [|c labels IH]; intros df Hnd Hcast.
  - injection Hcast as <-. by rewrite bool_decide_eq_false_2 by apply not_elem_of_nil.
  - apply NoDup_cons in Hnd as [Hc Hnd]. simpl in Hcast.
    case_bool_decide as Hin.
    + destruct (getitem df c) as [col|] eqn:Hcol; csimpl in Hcast; [|discriminate].
      rewrite (IH _ Hnd Hcast). destruct (decide (l = c)) as [->|Hne].
      * rewrite (bool_decide_eq_false_2 (c ∈ labels)) by done.
        rewrite (bool_decide_eq_true_2 (c ∈ c :: labels)) by set_solver.
        by rewrite getitem_setitem, Hcol.
      * rewrite getitem_setitem_ne by done.
        repeat case_bool_decide; set_solver.
    + rewrite (IH _ Hnd Hcast). destruct (decide (l = c)) as [->|Hne].
      * rewrite (bool_decide_eq_false_2 (c ∈ labels)) by done.
        rewrite (bool_decide_eq_true_2 (c ∈ c :: labels)) by set_solver.
        by rewrite getitem_absent.
      * repeat case_bool_decide; set_solver.
Qed.

Lemma handle_area_getitem (df df' : DataFrame) (l : string) :
  l <> "area" -> handle_area df = Ok df' -> getitem df' l = getitem df l.
Proof.
  intros Hl. unfold handle_area. case_bool_decide.
  - destruct (getitem df "area"); csimpl; [|discriminate].
    intros [= <-]. by apply getitem_setitem_ne.
  - intros [= <-]. by apply getitem_setitem_ne.
Qed.

(** After the cleaning, [x] and [y] are the input columns passed through
    [to_numeric], and [t] is the column the normalizer made. *)
Lemma clean_columns_getitem (df1 df2 : DataFrame) (log log2 : list log_entry) :
  clean_columns df1 log = Ok (df2, log2) ->
  getitem df2 "x" = to_numeric <$> getitem df1 "x" /\
  getitem df2 "y" = to_numeric <$> getitem df1 "y" /\
  getitem df2 "t" = getitem df1 "t".
Proof.
  unfold clean_columns.
  pose proof (standardize_columns_getitem df1 log) as Hstd.
  destruct (standardize_columns df1 log) as [df log']. simpl in Hstd. cbn beta iota.
  case_bool_decide; [|discriminate].
  destruct (numeric_casts _ df) as [dfa|] eqn:Hcast; csimpl; [|discriminate].
  destruct (handle_area dfa) as [dfb|] eqn:Harea; csimpl; [|discriminate].
  intros [= <- <-].
  assert (Hnd : NoDup ["x"; "y"; "heading"; "speed"; "vest"]).
  { apply (bool_decide_unpack _). vm_compute. exact I. }
  rewrite !(handle_area_getitem dfa dfb) by done.
  rewrite !(numeric_casts_getitem _ _ _ _ Hnd Hcast).
  rewrite !Hstd by set_solver.
  split_and!; reflexivity.
Qed.

(** A cell of an object column that is missing or is not a number is
    missing after [to_numeric]. *)
Lemma to_numeric_coerce_missing (cells : list (option string)) (i : nat)
    (cell : option string) :
  cells !! i = Some cell ->
  cell ≫= parse_number = None ->
  notna (to_numeric (ObjectCol cells)) !! i = Some false.
Proof.
  intros Hi Hcell. unfold notna, to_numeric.
  destruct (mapM as_int _) as [ints|] eqn:Hints.
  - exfalso. apply mapM_Some_1 in Hints.
    assert (Hn : ((fun o : option string => o ≫= parse_number) <$> cells) !! i = Some None)
      by (by rewrite list_lookup_fmap, Hi; simpl; rewrite Hcell).
    destruct (Forall2_lookup_l _ _ _ _ _ Hints Hn) as (v & _ & Hv). discriminate.
  - simpl. rewrite !list_lookup_fmap, Hi. simpl. by rewrite Hcell.
Qed.

Lemma normalize_timestamp_getitem (df df1 : DataFrame) (ts_col l : string) :
  normalize_timestamp df ts_col = Ok df1 -> l <> "t" -> getitem df1 l = getitem df l.
Proof.
  unfold normalize_timestamp.
  destruct (getitem df ts_col) as [col|]; csimpl; [|discriminate].
  match goal with |- (?m ≫= _) = _ -> _ => destruct m as [t|] end;
    csimpl; [|discriminate].
  intros [= <-] Hl. by apply getitem_setitem_ne.
Qed.

Lemma cleaned_coordinates (df df1 df2 : DataFrame) (ts_col : string)
    (log log2 : list log_entry) (cx cy ct : column) :
  normalize_timestamp df ts_col = Ok df1 ->
  clean_columns df1 log = Ok (df2, log2) ->
  getitem df2 "x" = Ok cx -> getitem df2 "y" = Ok cy -> getitem df2 "t" = Ok ct ->
  exists cx0 cy0,
    getitem df "x" = Ok cx0 /\ getitem df "y" = Ok cy0 /\
    cx = to_numeric cx0 /\ cy = to_numeric cy0 /\ getitem df1 "t" = Ok ct.
Proof.
  intros Hnorm Hclean Hx Hy Ht.
  destruct (clean_columns_getitem _ _ _ _ Hclean) as (Hx2 & Hy2 & Ht2).
  rewrite Hx in Hx2. rewrite Hy in Hy2. rewrite Ht in Ht2.
  rewrite (normalize_timestamp_getitem _ _ _ "x" Hnorm) in Hx2 by done.
  rewrite (normalize_timestamp_getitem _ _ _ "y" Hnorm) in Hy2 by done.
  destruct (getitem df "x") as [cx0|]; csimpl in Hx2; [|discriminate].
  destruct (getitem df "y") as [cy0|]; csimpl in Hy2; [|discriminate].
  injection Hx2 as ->. injection Hy2 as ->.
  exists cx0, cy0. done.
Qed.

(** The two [dropna] steps keep exactly the rows of the valid mask and
    report how many rows each step removed. *)
Lemma drop_invalid_spec (n : nat) (df2 : DataFrame) (log : list log_entry)
    (cx cy ct : column) :
  well_formed n df2 -> df2 <> [] ->
  getitem df2 "x" = Ok cx -> getitem df2 "y" = Ok cy -> getitem df2 "t" = Ok ct ->
  let xy := zip_with andb (notna cx) (notna cy) in
  let bad_xy := count_false xy in
  let bad_t := count_false (notna (take_rows xy ct)) in
  drop_invalid df2 log
  = Ok (on_columns (take_rows (valid_mask cx cy ct)) df2,
        (log ++ (if bool_decide (bad_xy <> 0%nat)
                 then [RemovedInvalidCoordinates bad_xy] else []))
        ++ (if bool_decide (bad_t <> 0%nat)
            then [RemovedInvalidTimestamps bad_t] else [])).
Proof.
  intros Hwf Hne Hx Hy Ht xy bad_xy bad_t. unfold drop_invalid.
  rewrite (dropna_xy n df2 cx cy) by done. csimpl. fold xy.
  assert (Hxy : length xy = n).
  { unfold xy, notna. rewrite length_zip_with, !length_fmap.
    rewrite (getitem_well_formed _ _ _ _ Hwf Hx), (getitem_well_formed _ _ _ _ Hwf Hy).
    lia. }
  pose proof (take_rows_well_formed n xy df2 Hwf Hxy) as HwfA. fold bad_xy in HwfA.
  pose proof (on_columns_nonempty (take_rows xy) df2 Hne) as HneA.
  assert (HtA : getitem (on_columns (take_rows xy) df2) "t" = Ok (take_rows xy ct))
    by (by rewrite getitem_on_columns, Ht).
  rewrite (dropna_t _ _ _ HwfA HneA HtA). csimpl.
  assert (Ht2 : length (notna (take_rows xy ct)) = (n - bad_xy)%nat).
  { unfold notna. rewrite length_fmap. by eapply getitem_well_formed. }
  pose proof (take_rows_well_formed _ _ _ HwfA Ht2) as HwfB. fold bad_t in HwfB.
  rewrite (len_well_formed _ _ Hwf Hne).
  rewrite (len_well_formed _ _ HwfA HneA).
  rewrite (len_well_formed _ _ HwfB (on_columns_nonempty _ _ HneA)).
  assert (Hbxy : (bad_xy <= n)%nat).
  { pose proof (length_filter_mask xy xy eq_refl). unfold bad_xy. lia. }
  assert (Hbt : (bad_t <= n - bad_xy)%nat).
  { pose proof (length_filter_mask (notna (take_rows xy ct))
                  (notna (take_rows xy ct)) eq_refl). unfold bad_t. lia. }
  f_equal. f_equal.
  - unfold on_columns. rewrite <- list_fmap_compose. apply list_fmap_ext.
    intros i [c col] _. simpl. f_equal. apply take_rows_compose.
  - replace (n - (n - bad_xy))%nat with bad_xy by lia.
    replace (n - bad_xy - (n - bad_xy - bad_t))%nat with bad_t by lia.
    repeat case_bool_decide; try lia; by rewrite ?app_nil_r.
Qed.

End Cleaning.

(** ** Rows with missing coordinates or timestamps *)

Section RowValidation.
Import Sqlite SeedSqlite.
Context `{PandasText}.

Lemma filter_mask_sound {A} (p : A -> bool) (mask : list bool) (l : list A) :
  (forall i b x, mask !! i = Some b -> l !! i = Some x -> b = true -> p x = true) ->
  Forall (fun x => p x = true) (filter_mask mask l).
Proof.
  revert l. induction mask as [|b mask IH]; intros [|x l] Hp; simpl; try done.
  assert (Htail : Forall (fun x => p x = true) (filter_mask mask l)).
  { apply IH. intros i b' x' Hb Hx. by apply (Hp (S i)). }
  destruct b; [|done]. constructor; [|done]. by apply (Hp 0%nat true x).
Qed.

Lemma valid_mask_lookup (cx cy ct : column) (i : nat) :
  valid_mask cx cy ct !! i = Some true ->
  exists vx vy vt,
    values cx !! i = Some vx /\ values cy !! i = Some vy /\ values ct !! i = Some vt /\
    isna vx = false /\ isna vy = false /\ isna vt = false.
Proof.
  unfold valid_mask, notna. intros Hi.
  apply lookup_zip_with_Some in Hi as (bxy & bt & Hand & Hxy & Hbt).
  apply lookup_zip_with_Some in Hxy as (bx & by' & -> & Hbx & Hby).
  apply list_lookup_fmap_Some in Hbx as (vx & -> & Hvx).
  apply list_lookup_fmap_Some in Hby as (vy & -> & Hvy).
  apply list_lookup_fmap_Some in Hbt as (vt & -> & Hvt).
  exists vx, vy, vt.
  destruct (isna vx), (isna vy), (isna vt); simpl in Hand; try discriminate.
  split_and!; done.
Qed.

Lemma valid_rows_present (cx cy ct : column) :
  let mask := valid_mask cx cy ct in
  Forall (fun v => negb (isna v) = true) (filter_mask mask (values cx)) /\
  Forall (fun v => negb (isna v) = true) (filter_mask mask (values cy)) /\
  Forall (fun v => negb (isna v) = true) (filter_mask mask (values ct)).
Proof.
  intros mask. split_and!; apply filter_mask_sound; intros i b v Hb Hv ->;
    apply valid_mask_lookup in Hb as (vx & vy & vt & Hx & Hy & Ht & Hnx & Hny & Hnt);
    simplify_eq; by apply negb_true_iff.
Qed.

(** What [process_dataframe] returns, in terms of the cleaned frame. *)
Lemma process_dataframe_inv (n : nat) (df df' : DataFrame) (log : list log_entry) :
  well_formed n df ->
  process_dataframe df = Ok (df', log) ->
  exists ts_col df1 df2 log2 cx cy ct,
    infer_timestamp_col df = Ok ts_col /\
    normalize_timestamp df ts_col = Ok df1 /\
    clean_columns df1 [Processing (len df); UsingTimestampColumn ts_col]
      = Ok (df2, log2) /\
    getitem df2 "x" = Ok cx /\ getitem df2 "y" = Ok cy /\ getitem df2 "t" = Ok ct /\
    df' = on_columns (take_rows (valid_mask cx cy ct)) df2 /\
    log = (log2 ++ (if bool_decide (count_false (zip_with andb (notna cx) (notna cy)) <> 0%nat)
                    then [RemovedInvalidCoordinates
                            (count_false (zip_with andb (notna cx) (notna cy)))]
                    else []))
          ++ (if bool_decide
                   (count_false
                      (notna (take_rows (zip_with andb (notna cx) (notna cy)) ct))
                    <> 0%nat)
              then [RemovedInvalidTimestamps
                      (count_false
                         (notna (take_rows (zip_with andb (notna cx) (notna cy)) ct)))]
              else []).
Proof.
  intros Hwf. unfold process_dataframe.
  destruct (infer_timestamp_col df) as [ts_col|]; csimpl; [|discriminate].
  destruct (normalize_timestamp df ts_col) as [df1|] eqn:Hnorm; csimpl; [|discriminate].
  destruct (clean_columns df1 _) as [[df2 log2]|] eqn:Hclean; csimpl; [|discriminate].
  intros Hdrop.
  destruct (normalize_timestamp_well_formed _ _ _ _ Hwf Hnorm) as (Hwf1 & _ & _).
  destruct (clean_columns_inv _ _ _ _ _ Hwf1 Hclean) as (Hwf2 & _ & Hreq).
  destruct (getitem_present df2 "x") as [cx Hx]; [apply Hreq; set_solver|].
  destruct (getitem_present df2 "y") as [cy Hy]; [apply Hreq; set_solver|].
  destruct (getitem_present df2 "t") as [ct Ht]; [apply Hreq; set_solver|].
  assert (Hne : df2 <> []) by (by intros ->).
  rewrite (drop_invalid_spec n df2 log2 cx cy ct Hwf2 Hne Hx Hy Ht) in Hdrop.
  injection Hdrop as <- <-.
  exists ts_col, df1, df2, log2, cx, cy, ct. done.
Qed.

Lemma alias_renamed_required (c : string) :
  c ∈ ["id"; "class"; "x"; "y"; "t"] ->
  alias_renamed ["class_name"; "label"; "type"] c = c.
Proof.
  intros Hc. repeat (apply elem_of_cons in Hc as [-> | Hc]; [reflexivity|]).
  by apply elem_of_nil in Hc.
Qed.

(** C5, as the backend SQLite script has it: a frame whose timestamp
    column normalises (a textual column always does: a text that is not a
    date becomes a missing value, nothing raises) and that has the
    columns [id], [x], [y] and a class column is processed to the end
    whatever its cells hold.  A cell of [x] or [y] that is missing or not a
    number is missing after coercion; the rows whose [x] or [y] is missing
    are dropped and counted in one message, then the rows whose timestamp
    is missing are dropped and counted in another; the result is the
    cleaned frame restricted to the rows with all three present. *)
Theorem invalid_rows_dropped_and_counted (n : nat) (df : DataFrame) (ts_col : string) :
  well_formed n df ->
  infer_timestamp_col df = Ok ts_col ->
  (forall texts,
     getitem df ts_col = Ok (ObjectCol texts) ->
     normalize_timestamp df ts_col
       = Ok (setitem df "t"
               (DatetimeCol ((fun o : option string => o ≫= parse_datetime texts)
                               <$> texts)))) /\
  (forall cells i cell,
     cells !! i = Some cell -> cell ≫= parse_number = None ->
     notna (to_numeric (ObjectCol cells)) !! i = Some false) /\
  (forall df1,
     normalize_timestamp df ts_col = Ok df1 ->
     (forall c, c ∈ ["id"; "class"; "x"; "y"] ->
        c ∈ alias_renamed ["class_name"; "label"; "type"] <$> columns df) ->
     exists df2 log2 cx0 cy0 ct,
       clean_columns df1 [Processing (len df); UsingTimestampColumn ts_col]
         = Ok (df2, log2) /\
       getitem df "x" = Ok cx0 /\ getitem df "y" = Ok cy0 /\
       getitem df1 "t" = Ok ct /\
       let cx := to_numeric cx0 in
       let cy := to_numeric cy0 in
       let xy := zip_with andb (notna cx) (notna cy) in
       let bad_xy := count_false xy in
       let bad_t := count_false (notna (take_rows xy ct)) in
       process_dataframe df
         = Ok (on_columns (take_rows (valid_mask cx cy ct)) df2,
               (log2 ++ (if bool_decide (bad_xy <> 0%nat)
                         then [RemovedInvalidCoordinates bad_xy] else []))
               ++ (if bool_decide (bad_t <> 0%nat)
                   then [RemovedInvalidTimestamps bad_t] else []))).
Proof.
  intros Hwf Hinfer. split_and!.
  - intros texts Hcol. unfold normalize_timestamp. by rewrite Hcol.
  - apply to_numeric_coerce_missing.
  - intros df1 Hnorm Hlabels.
    destruct (normalize_timestamp_well_formed _ _ _ _ Hwf Hnorm) as (Hwf1 & Hkeep & Ht1).
    set (log := [Processing (len df); UsingTimestampColumn ts_col]).
    assert (Hreq : forall c, c ∈ ["id"; "class"; "x"; "y"; "t"] ->
                             c ∈ columns (standardize_columns df1 log).1).
    { intros c Hc. rewrite standardize_columns_labels.
      destruct (decide (c = "t")) as [-> | Hnt].
      - apply list_elem_of_fmap. exists "t". done.
      - assert (Hc' : c ∈ ["id"; "class"; "x"; "y"]) by set_solver.
        apply Hlabels, list_elem_of_fmap in Hc' as (c0 & -> & Hc0).
        apply list_elem_of_fmap. exists c0. split; [done|]. by apply Hkeep. }
    destruct (clean_columns_ok n df1 log Hwf1 Hreq) as (df2 & Hclean & Hwf2 & Hreq2).
    destruct (getitem_present df2 "x") as [cx Hx]; [apply Hreq2; set_solver|].
    destruct (getitem_present df2 "y") as [cy Hy]; [apply Hreq2; set_solver|].
    destruct (getitem_present df2 "t") as [ct Ht]; [apply Hreq2; set_solver|].
    assert (Hne : df2 <> []) by (by intros ->).
    destruct (cleaned_coordinates _ _ _ _ _ _ _ _ _ Hnorm Hclean Hx Hy Ht)
      as (cx0 & cy0 & Hx0 & Hy0 & -> & -> & Ht0).
    exists df2, (standardize_columns df1 log).2, cx0, cy0, ct.
    split_and!; try done.
    unfold process_dataframe. rewrite Hinfer. csimpl. rewrite Hnorm. csimpl.
    fold log. rewrite Hclean. csimpl.
    by apply (drop_invalid_spec n).
Qed.

(** C2, as the backend SQLite script has it: after a run that ends with
    status 0 the [detections] table holds exactly the rows of the cleaned
    frame whose [x], [y] (the input columns after numeric coercion) and
    normalised timestamp are all present, in their order; a row with any
    of the three missing is left out, and no stored row has a null [x],
    [y] or [t]. *)
Theorem invalid_rows_not_persisted (n : nat) (df : DataFrame) (db db' : database) :
  well_formed n df ->
  main (Some df) db = (db', 0%Z) ->
  exists ts_col df1 df2 log2 cx0 cy0 ct frame2 tbl,
    infer_timestamp_col df = Ok ts_col /\
    normalize_timestamp df ts_col = Ok df1 /\
    clean_columns df1 [Processing (len df); UsingTimestampColumn ts_col]
      = Ok (df2, log2) /\
    getitem df "x" = Ok cx0 /\ getitem df "y" = Ok cy0 /\ getitem df1 "t" = Ok ct /\
    select df2 ["id"; "class"; "t"; "x"; "y"; "heading"; "vest"; "speed"; "area"]
      = Ok frame2 /\
    detections db' = Some tbl /\
    tbl_rows tbl
      = filter_mask (valid_mask (to_numeric cx0) (to_numeric cy0) ct)
          (rows_of (values <$> frame2.*2)) /\
    (forall row, row ∈ tbl_rows tbl ->
       isna (cell tbl "x" row) = false /\
       isna (cell tbl "y" row) = false /\
       isna (cell tbl "t" row) = false).
Proof.
  intros Hwf. unfold main.
  destruct (process_dataframe df) as [[df' log]|] eqn:Hproc; [|discriminate].
  destruct (create_indexes (create_schema db)) as [dbi [[]|]]; [|discriminate].
  destruct (select df' _) as [frame|] eqn:Hsel; [|discriminate].
  destruct (to_sql_replace frame dbi) as [dbf [[]|]] eqn:Hsql; [|discriminate].
  intros [= <-]. apply to_sql_replace_ok in Hsql as [Hnodup ->].
  apply (process_dataframe_inv n) in Hproc
    as (ts_col & df1 & df2 & log2 & cx & cy & ct & Hinfer & Hnorm & Hclean
        & Hx & Hy & Ht & -> & _); [|done].
  destruct (cleaned_coordinates _ _ _ _ _ _ _ _ _ Hnorm Hclean Hx Hy Ht)
    as (cx0 & cy0 & Hx0 & Hy0 & Hcx & Hcy & Ht0).
  set (mask := valid_mask cx cy ct) in *.
  pose proof (select_exact _ _ _ Hsel Hnodup) as Hshape.
  rewrite select_on_columns in Hsel.
  destruct (select df2 _) as [frame2|] eqn:Hsel2; csimpl in Hsel; [|discriminate].
  injection Hsel as <-.
  exists ts_col, df1, df2, log2, cx0, cy0, ct, frame2. eexists.
  rewrite <- Hcx, <- Hcy. fold mask.
  split_and!; try done.
  - simpl. rewrite <- rows_of_filter_mask. f_equal.
    unfold on_columns. rewrite <- !list_fmap_compose. apply list_fmap_ext.
    intros i [c col] _. simpl. apply values_take_rows.
  - simpl. intros row Hrow.
    destruct (valid_rows_present cx cy ct) as (Hpx & Hpy & Hpt). fold mask in Hpx, Hpy, Hpt.
    apply rows_of_elem in Hrow.
    repeat match type of Hshape with
           | Forall2 _ _ (_ :: _) =>
               let p := fresh "p" in
               let Hp := fresh "Hp" in
               apply Forall2_cons_inv_r in Hshape as ([? p] & ? & [? Hp] & Hshape & ?);
               simpl in Hp
           | Forall2 _ _ [] => apply Forall2_nil_inv_r in Hshape
           end.
    clear Hcx Hcy. simpl in * |-. subst.
    match goal with Hf : on_columns _ frame2 = _ |- _ => rewrite Hf in Hrow |- *; clear Hf end.
    rewrite getitem_on_columns, Ht in Hp1. injection Hp1 as <-.
    rewrite getitem_on_columns, Hx in Hp2. injection Hp2 as <-.
    rewrite getitem_on_columns, Hy in Hp3. injection Hp3 as <-.
    csimpl in Hrow.
    repeat match type of Hrow with
           | Forall2 _ _ (_ :: _) =>
               let Ha := fresh "Ha" in
               apply Forall2_cons_inv_r in Hrow as (? & ? & Ha & Hrow & ->)
           | Forall2 _ _ [] => apply Forall2_nil_inv_r in Hrow as ->
           end.
    rewrite values_take_rows in *.
    rewrite Forall_forall in Hpx, Hpy, Hpt.
    split_and!; apply negb_true_iff.
    + apply Hpx. assumption.
    + apply Hpy. assumption.
    + apply Hpt. assumption.
Qed.

End RowValidation.

(** ** The scripts on concrete inputs *)

Section Runs.
Import Sqlite.

Lemma convert_boolean_total_and_guarded_witness :
  exists d, SeedPostgres.row_data (csv_row "a1" "ped" "2024-01-01" "1.0" "2.0" "") = Ok d /\
            SeedPostgres.d_with_object d = None.
Proof.
  pose proof (proj2 convert_boolean_total_and_guarded
                (csv_row "a1" "ped" "2024-01-01" "1.0" "2.0" "")) as Hcaller.
  destruct (SeedPostgres.row_data _) as [d|] eqn:Hd; [|vm_compute in Hd; discriminate].
  exists d. split; [reflexivity|].
  destruct (Hcaller d eq_refl) as (w & Hw & _ & Hnone).
  vm_compute in Hw. injection Hw as <-. apply Hnone. by right.
Defined.

(** The three detections of [frame_three]: one is loaded, one is counted
    for its coordinates and one for its timestamp. *)
Example three_rows_one_loaded :
  exists df' log,
    SeedSqlite.process_dataframe frame_three = Ok (df', log) /\
    len df' = 1%nat /\
    SeedSqlite.RemovedInvalidCoordinates 1 ∈ log /\
    SeedSqlite.RemovedInvalidTimestamps 1 ∈ log.
Proof.
  eexists _, _. split_and!; [vm_compute; reflexivity | reflexivity | set_solver ..].
Qed.

(** An empty cell in a numeric timestamp column is not recovered: the
    cast [astype('int64')] raises and the backend run ends with status 1. *)
Example numeric_timestamp_gap_raises :
  SeedSqlite.process_dataframe frame_gap = Raise ValueError /\
  SeedSqlite.main (Some frame_gap) empty_db = (empty_db, 1%Z).
Proof. split; vm_compute; reflexivity. Qed.

Ltac compute_in_list H :=
  vm_compute in H;
  repeat (apply elem_of_cons in H as [-> | H]); [.. | by apply elem_of_nil in H].

Lemma epoch_unit_by_truncated_maximum_witness :
  SeedSqlite.normalize_timestamp frame_millis "t"
  = (ts ← traverse (instant_of Milliseconds)
            (inject_Z <$> [1700000000000; 1700000001000]%Z);
     Ok (setitem frame_millis "t" (DatetimeCol ts))).
Proof.
  refine (proj1 (epoch_unit_by_truncated_maximum frame_millis "t"
                   (Int64Col [1700000000000; 1700000001000]%Z)
                   (inject_Z <$> [1700000000000; 1700000001000]%Z)
                   1700000001000%Z eq_refl eq_refl _ _ _)).
  - intros v Hv. compute_in_list Hv; lia.
  - apply elem_of_cons. right. apply elem_of_cons. left. reflexivity.
  - intros v Hv. compute_in_list Hv; lia.
Defined.

(** C1 as stated fails on a float column: the greatest entry is
    10^10 + 1/2, above 10^10, but its truncation is not, and the column
    is converted as seconds (which here leaves the nanosecond range), not
    as milliseconds. *)
Lemma epoch_unit_not_by_maximum :
  let col := Float64Col [Finite 1700000000; Finite (20000000001 # 2)] in
  getitem frame_half_second "t" = Ok col /\
  (10000000000 < 20000000001 # 2)%Q /\
  SeedSqlite.normalize_timestamp frame_half_second "t"
    = (t ← to_datetime_unit Seconds col; Ok (setitem frame_half_second "t" t)) /\
  SeedSqlite.normalize_timestamp frame_half_second "t"
    <> (t ← to_datetime_unit Milliseconds col; Ok (setitem frame_half_second "t" t)).
Proof.
  split_and!.
  - reflexivity.
  - unfold Qlt. simpl. lia.
  - vm_compute. reflexivity.
  - vm_compute. discriminate.
Qed.

Lemma invalid_rows_not_persisted_witness :
  exists tbl,
    detections (SeedSqlite.main (Some frame_three) empty_db).1 = Some tbl /\
    forall row, row ∈ tbl_rows tbl -> isna (cell tbl "x" row) = false.
Proof.
  destruct (invalid_rows_not_persisted 3 frame_three empty_db
              (SeedSqlite.main (Some frame_three) empty_db).1)
    as (ts_col & df1 & df2 & log2 & cx & cy & ct & frame2 & tbl & _ & _ & _ & _ & _ & _
        & _ & Htbl & _ & Hrows).
  - repeat constructor.
  - vm_compute. reflexivity.
  - exists tbl. split; [exact Htbl|]. intros row Hrow. by apply Hrows.
Defined.

(** C2 as stated fails for the script of the repository root: it has no
    [dropna] step, and a row without [x] is stored with a null [x]. *)
Lemma root_script_stores_missing_x :
  let out := SeedSqliteMin.main (Some frame_no_x) empty_db in
  out.2 = Ok () /\
  exists tbl row,
    detections out.1 = Some tbl /\ row ∈ tbl_rows tbl /\
    isna (cell tbl "x" row) = true.
Proof.
  split; [vm_compute; reflexivity|].
  eexists _, _. split_and!.
  - vm_compute. reflexivity.
  - simpl. apply elem_of_cons. left. reflexivity.
  - reflexivity.
Qed.

(** C3 on a file that records one detection twice: the run succeeds, the
    table that [create_schema] made with [PRIMARY KEY (id, t)] has been
    replaced by one without a key, and both rows are stored. *)
Theorem primary_key_lost_on_replace :
  let out := SeedSqlite.main (Some frame_twice) empty_db in
  out.2 = 0%Z /\
  tbl_primary_key <$> detections (SeedSqlite.create_schema empty_db)
    = Some ["id"; "t"] /\
  exists tbl r1 r2,
    detections out.1 = Some tbl /\
    tbl_primary_key tbl = [] /\
    tbl_rows tbl = [r1; r2] /\
    cell tbl "id" r1 = cell tbl "id" r2 /\
    cell tbl "t" r1 = cell tbl "t" r2.
Proof.
  split_and!; [vm_compute; reflexivity | reflexivity |].
  eexists _, _, _. split_and!; [vm_compute; reflexivity | reflexivity ..].
Qed.

Lemma class_aliases_renamed_witness :
  csv_row "a1" "ped" "2024-01-01" "1.0" "2.0" "" !! "type" = Some (Some "ped").
Proof.
  pose proof (proj2 (proj2 (proj2 (class_aliases_renamed frame_type [])))
                (csv_row "a1" "ped" "2024-01-01" "1.0" "2.0" "")) as Hclass.
  destruct (SeedPostgres.row_data _) as [d|] eqn:Hd; [|vm_compute in Hd; discriminate].
  rewrite (Hclass d eq_refl). vm_compute in Hd. by injection Hd as <-.
Defined.

(** C4 as stated fails for the script of the repository root: a column
    labelled [type] is not renamed, and the run stops for want of a
    [class] column. *)
Lemma root_script_keeps_type :
  lower "type" ∈ ["class_name"; "label"; "type"] /\
  "type" ∈ columns frame_type /\
  columns (rename frame_type (SeedSqliteMin.build_rename_map frame_type))
    = ["id"; "type"; "t"; "x"; "y"] /\
  SeedSqliteMin.main (Some frame_type) empty_db = (empty_db, Raise KeyError).
Proof.
  split_and!.
  - vm_compute. set_solver.
  - vm_compute. set_solver.
  - vm_compute. reflexivity.
  - vm_compute. reflexivity.
Qed.

Lemma invalid_rows_dropped_and_counted_witness :
  exists df' log, SeedSqlite.process_dataframe frame_three = Ok (df', log).
Proof.
  assert (Hwf : well_formed 3 frame_three) by repeat constructor.
  destruct (SeedSqlite.normalize_timestamp frame_three "timestamp") as [df1|] eqn:Hnorm;
    [|vm_compute in Hnorm; discriminate].
  destruct (proj2 (proj2 (invalid_rows_dropped_and_counted 3 frame_three "timestamp"
                            Hwf eq_refl))
              df1 Hnorm)
    as (df2 & log2 & cx0 & cy0 & ct & _ & _ & _ & _ & Hproc).
  - intros c Hc. compute_in_list Hc; vm_compute; set_solver.
  - eexists _, _. exact Hproc.
Defined.

(** C5 as stated fails for the PostgreSQL script: a malformed [x] in the
    second line raises [ValueError] in [load_csv_data], and [main] ends
    with status 1 with nothing stored. *)
Lemma postgres_script_aborts_on_bad_x :
  (SeedPostgres.load_csv_data (SeedPostgres.create_table fresh_connection)
     [csv_row "a1" "ped" "2024-01-01" "1.0" "2.0" "";
      csv_row "a2" "veh" "2024-01-02" "bad" "3.0" ""]).2 = Raise ValueError /\
  SeedPostgres.exit_status (SeedPostgres.main world_bad_x) = 1%Z /\
  (SeedPostgres.detections ∘ SeedPostgres.durable)
    <$> SeedPostgres.final (SeedPostgres.main world_bad_x) = Some (Some []).
Proof. split_and!; vm_compute; reflexivity. Qed.

Lemma batches_of_one_thousand_witness :
  (SeedPostgres.load_csv_data fresh_connection
     [csv_row "a1" "ped" "2024-01-01" "1.0" "2.0" "";
      csv_row "a2" "veh" "2024-01-02" "2.5" "3.0" "yes"]).2 = Ok 2%nat.
Proof.
  destruct (SeedPostgres.row_data (csv_row "a1" "ped" "2024-01-01" "1.0" "2.0" ""))
    as [d1|] eqn:Hd1; [|vm_compute in Hd1; discriminate].
  destruct (SeedPostgres.row_data (csv_row "a2" "veh" "2024-01-02" "2.5" "3.0" "yes"))
    as [d2|] eqn:Hd2; [|vm_compute in Hd2; discriminate].
  destruct (batches_of_one_thousand fresh_connection
              [csv_row "a1" "ped" "2024-01-01" "1.0" "2.0" "";
               csv_row "a2" "veh" "2024-01-02" "2.5" "3.0" "yes"]
              [d1; d2] [])
    as (conn' & batches & Hrun & _).
  - repeat constructor; assumption.
  - vm_compute in Hd1, Hd2. injection Hd1 as <-. injection Hd2 as <-.
    repeat constructor.
  - reflexivity.
  - reflexivity.
  - by rewrite Hrun.
Defined.

Lemma replace_mode_idempotent_witness :
  (exists db2,
     SeedSqlite.main (Some frame_three) (SeedSqlite.main (Some frame_three) empty_db).1
       = (db2, 0%Z) /\
     statistics db2 = statistics (SeedSqlite.main (Some frame_three) empty_db).1) /\
  (exists db2,
     SeedSqliteMin.main (Some frame_twice) (SeedSqliteMin.main (Some frame_twice) empty_db).1
       = (db2, Ok ()) /\
     statistics db2 = statistics (SeedSqliteMin.main (Some frame_twice) empty_db).1).
Proof.
  split.
  - destruct (proj1 (replace_mode_idempotent frame_three empty_db
                       (SeedSqlite.main (Some frame_three) empty_db).1))
      as (db2 & Hrun & _ & Hstats); [vm_compute; reflexivity|].
    exists db2. by split.
  - destruct (proj2 (replace_mode_idempotent frame_twice empty_db
                       (SeedSqliteMin.main (Some frame_twice) empty_db).1))
      as (db2 & Hrun & _ & Hstats); [vm_compute; reflexivity|].
    exists db2. by split.
Defined.

Lemma timestamp_column_first_match_witness :
  SeedSqlite.infer_timestamp_col frame_three = Ok "timestamp" /\
  SeedSqlite.main (Some frame_no_time) empty_db = (empty_db, 1%Z).
Proof.
  split.
  - destruct (proj2 (proj2 (timestamp_column_first_match frame_three)))
      as (c & before & after & Hc & _).
    + right. left. vm_compute. set_solver.
    + rewrite Hc. vm_compute in Hc. by injection Hc as <-.
  - destruct (proj1 (proj2 (timestamp_column_first_match frame_no_time)))
      as (_ & Hmain & _).
    + vm_compute. set_solver.
    + vm_compute. set_solver.
    + vm_compute. set_solver.
    + apply Hmain.
Defined.

Lemma database_url_environment_first_witness :
  SeedPostgres.connected_to (SeedPostgres.main world_both)
  = SeedPostgres.environ_DATABASE_URL world_both.
Proof.
  apply (proj1 (database_url_environment_first world_both)).
  - reflexivity.
  - eexists. reflexivity.
Defined.

(** C9 as stated fails when both are given: the script connects with
    the environment variable, not with the command-line argument. *)
Lemma argument_does_not_override_environment :
  SeedPostgres.environ_DATABASE_URL world_both = Some "postgresql://env/kpi" /\
  SeedPostgres.argv world_both !! 1%nat = Some "postgresql://arg/kpi" /\
  SeedPostgres.connected_to (SeedPostgres.main world_both)
    = Some "postgresql://env/kpi" /\
  SeedPostgres.connected_to (SeedPostgres.main world_both)
    <> SeedPostgres.argv world_both !! 1%nat.
Proof.
  split_and!; [reflexivity | reflexivity | vm_compute; reflexivity |].
  vm_compute. discriminate.
Qed.

End Runs.

(** * Further properties of the scripts *)

(** ** Schema and indexes of the SQLite scripts *)

Section SqliteSchema.
Import Sqlite.
Context `{PandasText}.

Lemma create_index_inv (name col : string) (db db' : database) :
  create_index name col db = Ok db' ->
  detections db' = detections db /\
  indexes db ⊆ indexes db' /\
  is_Some (indexes db' !! name).
Proof.
  unfold create_index. destruct (indexes db !! name) as [c|] eqn:Hname.
  - intros [= <-]. rewrite Hname. split_and!; [done | done | by eexists].
  - destruct (detections db) as [tbl|]; [|discriminate].
    case_bool_decide; [|discriminate]. intros [= <-]. simpl.
    split_and!; [done | by apply insert_subseteq | ].
    rewrite lookup_insert_eq. by eexists.
Qed.

Lemma create_each_inv (ixs : list (string * string)) (db db' : database)
    (r : result unit) :
  SeedSqlite.create_each ixs db = (db', r) ->
  detections db' = detections db /\
  indexes db ⊆ indexes db' /\
  (r = Ok () -> forall p, p ∈ ixs -> is_Some (indexes db' !! p.1)).
Proof.
  revert db. induction ixs as [|[name col] ixs IH]; intros db; simpl.
  - intros [= <- <-]. split_and!; [done | done |].
    intros _ p Hp. by apply elem_of_nil in Hp.
  - destruct (create_index name col db) as [db1|e] eqn:Hix.
    + intros Hrest. apply create_index_inv in Hix as (Htbl & Hsub & Hname).
      destruct (IH _ Hrest) as (Htbl' & Hsub' & Hall).
      split_and!.
      * congruence.
      * by etrans.
      * intros Hr p [-> | Hp]%elem_of_cons; [|by apply Hall].
        simpl. destruct Hname as [c Hc]. exists c.
        by eapply lookup_weaken.
    + intros [= <- <-]. split_and!; [done | done | discriminate].
Qed.

Lemma create_each_present (ixs : list (string * string)) (db : database) :
  (forall p, p ∈ ixs -> is_Some (indexes db !! p.1)) ->
  SeedSqlite.create_each ixs db = (db, Ok ()).
Proof.
  induction ixs as [|[name col] ixs IH]; intros Hall; simpl; [done|].
  destruct (Hall (name, col)) as [c Hc]; [set_solver|]. simpl in Hc.
  unfold create_index. rewrite Hc. apply IH. intros p Hp. apply Hall. set_solver.
Qed.

Lemma create_each_columns (ixs : list (string * string)) (db : database) (tbl : table) :
  detections db = Some tbl ->
  (forall p, p ∈ ixs -> p.2 ∈ tbl_columns tbl) ->
  exists db', SeedSqlite.create_each ixs db = (db', Ok ()).
Proof.
  revert db. induction ixs as [|[name col] ixs IH]; intros db Htbl Hcols; simpl.
  - by eexists.
  - unfold create_index. destruct (indexes db !! name).
    + apply IH; [done|]. intros p Hp. apply Hcols. set_solver.
    + rewrite Htbl. rewrite bool_decide_eq_true_2 by (apply (Hcols (name, col)); set_solver).
      apply IH; [done|]. intros p Hp. apply Hcols. set_solver.
Qed.

(** On a file without a [detections] table, [create_schema] followed by
    [create_indexes] succeeds; wherever the two succeed, doing them again
    changes nothing.  They keep an existing table with its rows and every
    existing index. *)
Theorem schema_setup_idempotent (db db1 : database) (r : result unit) :
  SeedSqlite.create_indexes (SeedSqlite.create_schema db) = (db1, r) ->
  (detections db = None -> r = Ok ()) /\
  (forall tbl, detections db = Some tbl -> detections db1 = Some tbl) /\
  indexes db ⊆ indexes db1 /\
  (r = Ok () ->
   SeedSqlite.create_indexes (SeedSqlite.create_schema db1) = (db1, Ok ())).
Proof.
  intros Hrun. unfold SeedSqlite.create_indexes in *.
  destruct (create_each_inv _ _ _ _ Hrun) as (Htbl & Hsub & Hall).
  split_and!.
  - intros Hnone. unfold SeedSqlite.create_schema in Hrun. rewrite Hnone in Hrun.
    match type of Hrun with
    | SeedSqlite.create_each ?ixs ?db0 = _ =>
        destruct (create_each_columns ixs db0 _ eq_refl) as [db2 Hok]
    end.
    + intros p Hp. simpl. set_unfold. naive_solver.
    + rewrite Hok in Hrun. by injection Hrun as _ <-.
  - intros tbl Hsome. rewrite Htbl. unfold SeedSqlite.create_schema.
    by rewrite Hsome.
  - etrans; [|exact Hsub]. unfold SeedSqlite.create_schema.
    destruct (detections db); simpl; reflexivity.
  - intros Hr.
    assert (Hsame : SeedSqlite.create_schema db1 = db1).
    { unfold SeedSqlite.create_schema at 1. rewrite Htbl.
      unfold SeedSqlite.create_schema.
      destruct (detections db) eqn:Hdb; [by rewrite Hdb | done]. }
    rewrite Hsame. apply create_each_present. by apply Hall.
Qed.

Lemma select_labels (df frame : DataFrame) (labels : list string) :
  select df labels = Ok frame -> NoDup (columns frame) -> columns frame = labels.
Proof.
  intros Hsel Hnd. pose proof (select_exact _ _ _ Hsel Hnd) as Hshape.
  unfold columns. clear Hsel Hnd.
  induction Hshape as [|p l frame labels [Hp _] _ IH]; csimpl; [done|].
  by rewrite Hp, IH.
Qed.

Lemma rows_of_width (cols : list (list value)) (row : list value) :
  row ∈ rows_of cols -> length row = length cols.
Proof. intros Hrow%rows_of_elem. by eapply Forall2_length. Qed.

(** After a run of the backend script that ends with status 0 the
    [detections] table has the nine columns [id], [class], [t], [x], [y],
    [heading], [vest], [speed], [area] in this order and every row has
    nine cells; the table carries no key and no [NOT NULL] column, and
    the file has no index: what [create_schema] and [create_indexes] made
    is gone with the table that [to_sql] replaced. *)
Theorem backend_output_schema (df : DataFrame) (db db' : database) :
  SeedSqlite.main (Some df) db = (db', 0%Z) ->
  indexes db' = ∅ /\
  exists tbl,
    detections db' = Some tbl /\
    tbl_columns tbl
      = ["id"; "class"; "t"; "x"; "y"; "heading"; "vest"; "speed"; "area"] /\
    tbl_primary_key tbl = [] /\ tbl_not_null tbl = [] /\
    forall row, row ∈ tbl_rows tbl -> length row = 9%nat.
Proof.
  unfold SeedSqlite.main.
  destruct (SeedSqlite.process_dataframe df) as [[df' log]|]; [|discriminate].
  destruct (SeedSqlite.create_indexes _) as [dbi [[]|]]; [|discriminate].
  destruct (select df' _) as [frame|] eqn:Hsel; [|discriminate].
  destruct (to_sql_replace frame dbi) as [dbf [[]|]] eqn:Hsql; [|discriminate].
  intros [= <-]. apply to_sql_replace_ok in Hsql as [Hnodup ->].
  pose proof (select_labels _ _ _ Hsel Hnodup) as Hlabels.
  split; [done|]. eexists. split_and!; try done.
  simpl. intros row Hrow%rows_of_width.
  rewrite Hrow, !length_fmap.
  change (length frame) with (length (A := string * column) frame).
  rewrite <- (length_fmap fst frame). fold (columns frame). by rewrite Hlabels.
Qed.

(** After a run of the root script that succeeds the [detections] table
    has the eight columns [id], [class], [t], [x], [y], [heading], [vest],
    [speed] in this order (no [area]) and every row has eight cells; the
    table carries no key, and the file has exactly the two indexes on [t]
    and on [class]. *)
Theorem root_output_schema (df : DataFrame) (db db' : database) :
  SeedSqliteMin.main (Some df) db = (db', Ok ()) ->
  indexes db'
    = <["idx_detections_class" := "class"]> (<["idx_detections_t" := "t"]> ∅) /\
  exists tbl,
    detections db' = Some tbl /\
    tbl_columns tbl = ["id"; "class"; "t"; "x"; "y"; "heading"; "vest"; "speed"] /\
    tbl_primary_key tbl = [] /\ tbl_not_null tbl = [] /\
    forall row, row ∈ tbl_rows tbl -> length row = 8%nat.
Proof.
  unfold SeedSqliteMin.main.
  destruct (SeedSqliteMin.prepare df) as [df'|]; [|discriminate].
  destruct (select df' _) as [frame|] eqn:Hsel; [|discriminate].
  destruct (to_sql_replace frame db) as [dbf [[]|]] eqn:Hsql; [|discriminate].
  apply to_sql_replace_ok in Hsql as [Hnodup ->].
  pose proof (select_labels _ _ _ Hsel Hnodup) as Hlabels.
  erewrite create_index_fresh;
    [ | vm_compute; reflexivity | reflexivity | simpl; rewrite Hlabels; set_solver ].
  erewrite create_index_fresh;
    [ | vm_compute; reflexivity | reflexivity | simpl; rewrite Hlabels; set_solver ].
  intros [= <-]. simpl. split; [done|]. eexists. split_and!; try done.
  simpl. intros row Hrow%rows_of_width.
  rewrite Hrow, !length_fmap.
  rewrite <- (length_fmap fst frame). fold (columns frame). by rewrite Hlabels.
Qed.

End SqliteSchema.

(** ** The frame [process_dataframe] returns *)

Section ProcessedFrame.
Import Sqlite SeedSqlite.
Context `{PandasText}.

Lemma normalize_timestamp_columns (df df1 : DataFrame) (ts_col : string) :
  normalize_timestamp df ts_col = Ok df1 ->
  columns df1 = if bool_decide ("t" ∈ columns df) then columns df else columns df ++ ["t"].
Proof.
  unfold normalize_timestamp.
  destruct (getitem df ts_col) as [col|]; csimpl; [|discriminate].
  match goal with |- (?m ≫= _) = _ -> _ => destruct m as [t|] end;
    csimpl; [|discriminate].
  intros [= <-]. apply columns_setitem.
Qed.

Lemma numeric_casts_columns (labels : list string) (df df' : DataFrame) :
  numeric_casts labels df = Ok df' -> columns df' = columns df.
Proof.
  revert df. induction labels as [|l labels IH]; intros df; simpl.
  - by intros [= <-].
  - case_bool_decide as Hin; [|apply IH].
    destruct (getitem df l) as [col|]; csimpl; [|discriminate].
    intros Hrest%IH. rewrite Hrest, columns_setitem.
    by rewrite bool_decide_eq_true_2.
Qed.

Lemma handle_area_columns (df df' : DataFrame) :
  handle_area df = Ok df' ->
  columns df'
  = if bool_decide ("area" ∈ columns df) then columns df else columns df ++ ["area"].
Proof.
  unfold handle_area. case_bool_decide as Hin.
  - destruct (getitem df "area"); csimpl; [|discriminate].
    intros [= <-]. rewrite columns_setitem. by rewrite bool_decide_eq_true_2.
  - intros [= <-]. rewrite columns_setitem. by rewrite bool_decide_eq_false_2.
Qed.

Lemma dropna_columns (df df' : DataFrame) (subset : list string) :
  dropna df subset = Ok df' -> columns df' = columns df.
Proof.
  unfold dropna. destruct (traverse _ subset); csimpl; [|discriminate].
  intros [= <-]. apply columns_on_columns.
Qed.

Lemma drop_invalid_columns (df df' : DataFrame) (log log' : list log_entry) :
  drop_invalid df log = Ok (df', log') -> columns df' = columns df.
Proof.
  unfold drop_invalid.
  destruct (dropna df ["x"; "y"]) as [dfa|] eqn:Ha; csimpl; [|discriminate].
  destruct (dropna dfa ["t"]) as [dfb|] eqn:Hb; csimpl; [|discriminate].
  intros [= <- _]. apply dropna_columns in Ha, Hb. congruence.
Qed.

Lemma clean_columns_labels (df1 df2 : DataFrame) (log log2 : list log_entry) :
  clean_columns df1 log = Ok (df2, log2) ->
  let renamed := alias_renamed ["class_name"; "label"; "type"] <$> columns df1 in
  columns df2 = (if bool_decide ("area" ∈ renamed) then renamed else renamed ++ ["area"]) /\
  (forall c, c ∈ ["id"; "class"; "x"; "y"; "t"] -> c ∈ renamed).
Proof.
  unfold clean_columns.
  pose proof (standardize_columns_labels df1 log) as Hstd.
  destruct (standardize_columns df1 log) as [df log']. simpl in Hstd. cbn beta iota.
  case_bool_decide as Hnone; [|discriminate].
  destruct (numeric_casts _ df) as [dfa|] eqn:Hcast; csimpl; [|discriminate].
  destruct (handle_area dfa) as [dfb|] eqn:Harea; csimpl; [|discriminate].
  intros [= <- <-]. simpl.
  apply numeric_casts_columns in Hcast. apply handle_area_columns in Harea.
  rewrite Harea, Hcast, Hstd. split; [done|].
  intros c Hc. rewrite <- Hstd.
  destruct (decide (c ∈ columns df)) as [|Hn]; [done|].
  exfalso. eapply filter_nil_not_elem_of; [exact Hnone | exact Hn | exact Hc].
Qed.

(** The labels of the processed frame, and that the required ones are
    among them. *)
Lemma process_dataframe_labels (df df' : DataFrame) (log : list log_entry) :
  process_dataframe df = Ok (df', log) ->
  columns df' = processed_labels (columns df) /\
  (forall c, c ∈ ["id"; "class"; "x"; "y"; "t"] -> c ∈ columns df').
Proof.
  unfold process_dataframe.
  destruct (infer_timestamp_col df) as [ts_col|]; csimpl; [|discriminate].
  destruct (normalize_timestamp df ts_col) as [df1|] eqn:Hnorm; csimpl; [|discriminate].
  destruct (clean_columns df1 _) as [[df2 log2]|] eqn:Hclean; csimpl; [|discriminate].
  intros Hdrop%drop_invalid_columns.
  apply normalize_timestamp_columns in Hnorm.
  apply clean_columns_labels in Hclean as [Hcols Hreq].
  rewrite Hdrop, Hcols. unfold processed_labels. rewrite <- Hnorm.
  split; [done|]. intros c Hc. specialize (Hreq c Hc).
  case_bool_decide; [done|]. set_solver.
Qed.

Lemma alias_renamed_inv (aliases : list string) (c0 c : string) :
  alias_renamed aliases c0 = c -> c = "class" \/ c0 = c.
Proof. unfold alias_renamed. case_bool_decide; auto. Qed.

Lemma processed_labels_inv (labels : list string) (c : string) :
  c ∈ processed_labels labels ->
  c = "area" \/ c = "t" \/
  exists c0, c0 ∈ labels /\ alias_renamed ["class_name"; "label"; "type"] c0 = c.
Proof.
  unfold processed_labels. intros Hc.
  assert (Hren : c = "area" \/
                 c ∈ alias_renamed ["class_name"; "label"; "type"]
                       <$> (if bool_decide ("t" ∈ labels) then labels else labels ++ ["t"])).
  { case_bool_decide; [by right|]. set_solver. }
  destruct Hren as [-> | Hren]; [by left|].
  apply list_elem_of_fmap in Hren as (c0 & -> & Hc0).
  case_bool_decide.
  - right. right. by exists c0.
  - apply elem_of_app in Hc0 as [Hc0 | ->%list_elem_of_singleton].
    + right. right. by exists c0.
    + right. left. reflexivity.
Qed.

Lemma processed_labels_lookup (labels : list string) (i : nat) (c : string) :
  labels !! i = Some c ->
  processed_labels labels !! i
  = Some (alias_renamed ["class_name"; "label"; "type"] c).
Proof.
  intros Hi. unfold processed_labels.
  set (renamed := alias_renamed ["class_name"; "label"; "type"] <$> _).
  assert (Hren : renamed !! i
                 = Some (alias_renamed ["class_name"; "label"; "type"] c)).
  { subst renamed. rewrite list_lookup_fmap. case_bool_decide.
    - by rewrite Hi.
    - rewrite lookup_app_l by (by eapply lookup_lt_Some). by rewrite Hi. }
  clearbody renamed. cbv zeta. case_bool_decide; [done|].
  rewrite lookup_app_l; [done|]. by eapply lookup_lt_Some.
Qed.

Lemma select_present (df frame : DataFrame) (labels : list string) (l : string) :
  select df labels = Ok frame -> l ∈ labels -> l ∈ columns df.
Proof.
  revert frame. induction labels as [|l' labels IH]; intros frame Hsel Hl.
  - by apply elem_of_nil in Hl.
  - simpl in Hsel.
    destruct (filter (fun p : string * column => p.1 = l') df) as [|p cols] eqn:Hf;
      [discriminate|].
    destruct (select df labels) as [rest|]; csimpl in Hsel; [|discriminate].
    apply elem_of_cons in Hl as [-> | Hl]; [|by eapply IH].
    assert (Hp : p ∈ filter (fun p : string * column => p.1 = l') df)
      by (rewrite Hf; set_solver).
    apply list_elem_of_filter in Hp as [<- Hp].
    unfold columns. apply list_elem_of_fmap. by exists p.
Qed.

Lemma kept_label_is_input (labels : list string) (c : string) :
  c ∈ processed_labels labels ->
  c <> "area" -> c <> "t" -> c <> "class" -> c ∈ labels.
Proof.
  intros Hc Harea Ht Hclass.
  apply processed_labels_inv in Hc as [-> | [-> | (c0 & Hc0 & Hren)]]; try done.
  by apply alias_renamed_inv in Hren as [-> | ->].
Qed.

(** The input columns a backend run needs.  Without [id], [x] or [y], or
    without a column whose lower-cased label is [class], [class_name],
    [label] or [type] spelt as the resolver expects, the run ends with
    status 1 and the database file is as before.  The columns [heading],
    [vest] and [speed], which the cleaning treats as optional, are needed
    too: without one of them the run ends with status 1. *)
Theorem backend_required_columns (df : DataFrame) (db : database) :
  (forall c, c ∈ ["id"; "x"; "y"] -> c ∉ columns df ->
     main (Some df) db = (db, 1%Z)) /\
  ((forall c, c ∈ columns df ->
      alias_renamed ["class_name"; "label"; "type"] c <> "class") ->
   main (Some df) db = (db, 1%Z)) /\
  (forall c, c ∈ ["heading"; "vest"; "speed"] -> c ∉ columns df ->
     (main (Some df) db).2 = 1%Z).
Proof.
  split_and!.
  - intros c Hc Hmissing. unfold main.
    destruct (process_dataframe df) as [[df' log]|] eqn:Hproc; [|done].
    exfalso. apply process_dataframe_labels in Hproc as [Hcols Hreq].
    apply Hmissing. apply (kept_label_is_input _ c).
    + rewrite <- Hcols. apply Hreq. set_solver.
    + intros ->. set_solver.
    + intros ->. set_solver.
    + intros ->. set_solver.
  - intros Hnone. unfold main.
    destruct (process_dataframe df) as [[df' log]|] eqn:Hproc; [|done].
    exfalso. apply process_dataframe_labels in Hproc as [Hcols Hreq].
    assert (Hclass : "class" ∈ processed_labels (columns df))
      by (rewrite <- Hcols; apply Hreq; set_solver).
    apply processed_labels_inv in Hclass as [? | [? | (c0 & Hc0 & Hren)]];
      [done | done |].
    by apply (Hnone c0).
  - intros c Hc Hmissing. unfold main.
    destruct (process_dataframe df) as [[df' log]|] eqn:Hproc; [|done].
    destruct (create_indexes _) as [dbi [[]|]]; [|done].
    destruct (select df' _) as [frame|] eqn:Hsel; [|done].
    exfalso. apply process_dataframe_labels in Hproc as [Hcols _].
    apply Hmissing. apply (kept_label_is_input _ c).
    + rewrite <- Hcols. eapply select_present; [exact Hsel|]. set_solver.
    + intros ->. set_solver.
    + intros ->. set_solver.
    + intros ->. set_solver.
Qed.

Lemma labelled_nonempty (l : string) (df : DataFrame) (p : string * column) :
  p ∈ df -> p.1 = l ->
  (1 <= length (filter (fun p : string * column => p.1 = l) df))%nat.
Proof.
  intros Hp Hl.
  assert (Hin : p ∈ filter (fun p : string * column => p.1 = l) df)
    by (by apply list_elem_of_filter).
  destruct (filter _ df); [by apply elem_of_nil in Hin | simpl; lia].
Qed.

Lemma labelled_twice (l : string) (df : DataFrame) (i j : nat)
    (p q : string * column) :
  df !! i = Some p -> df !! j = Some q -> i <> j -> p.1 = l -> q.1 = l ->
  (2 <= length (filter (fun p : string * column => p.1 = l) df))%nat.
Proof.
  revert i j. induction df as [|a df IH]; intros i j Hi Hj Hne Hp Hq; [done|].
  destruct i as [|i], j as [|j]; simpl in Hi, Hj; try done.
  - injection Hi as ->. rewrite (filter_cons_True _ p) by done. cbn [length].
    apply le_n_S, (labelled_nonempty l df q); [|done].
    by eapply list_elem_of_lookup_2.
  - injection Hj as ->. rewrite (filter_cons_True _ q) by done. cbn [length].
    apply le_n_S, (labelled_nonempty l df p); [|done].
    by eapply list_elem_of_lookup_2.
  - assert (Hrec : (2 <= length (filter (fun p : string * column => p.1 = l) df))%nat)
      by (apply (IH i j); auto).
    destruct (decide (a.1 = l)).
    + rewrite (filter_cons_True _ a) by done. cbn [length].
      apply Nat.le_le_succ_r. exact Hrec.
    + rewrite (filter_cons_False _ a) by done. exact Hrec.
Qed.

Lemma select_single (df frame : DataFrame) (labels : list string) (l : string) :
  select df labels = Ok frame -> NoDup (columns frame) -> l ∈ labels ->
  length (filter (fun p : string * column => p.1 = l) df) = 1%nat.
Proof.
  revert frame. induction labels as [|l' labels IH]; intros frame Hsel Hnd Hl.
  - by apply elem_of_nil in Hl.
  - simpl in Hsel.
    destruct (filter (fun p : string * column => p.1 = l') df) as [|p cols] eqn:Hf;
      [discriminate|].
    destruct (select df labels) as [rest|] eqn:Hrest; csimpl in Hsel; [|discriminate].
    injection Hsel as <-. unfold columns in Hnd. csimpl in Hnd.
    apply NoDup_cons in Hnd as [Hnot Hnd].
    apply elem_of_cons in Hl as [-> | Hl].
    + rewrite Hf. destruct cols as [|q cols]; [done|]. exfalso. apply Hnot.
      assert (Hall : forall r, r ∈ p :: q :: cols -> r.1 = l').
      { intros r Hr. rewrite <- Hf in Hr. by apply list_elem_of_filter in Hr as [? _]. }
      rewrite (Hall p) by set_solver. csimpl. rewrite (Hall q) by set_solver.
      set_solver.
    + apply (IH rest); [done | | done].
      unfold columns. rewrite fmap_app in Hnd. by apply NoDup_app in Hnd as (_ & _ & ?).
Qed.

(** Two columns that both resolve to [class] (two aliases, or [class]
    itself beside an alias) are both renamed, no priority is applied, and
    the backend run ends with status 1. *)
Theorem class_alias_collision (df : DataFrame) (db : database)
    (i j : nat) (c1 c2 : string) :
  columns df !! i = Some c1 ->
  columns df !! j = Some c2 ->
  i <> j ->
  alias_renamed ["class_name"; "label"; "type"] c1 = "class" ->
  alias_renamed ["class_name"; "label"; "type"] c2 = "class" ->
  (forall df' log, process_dataframe df = Ok (df', log) ->
     columns df' !! i = Some "class" /\ columns df' !! j = Some "class") /\
  (main (Some df) db).2 = 1%Z.
Proof.
  intros Hi Hj Hne Hc1 Hc2.
  assert (Hboth : forall df' log, process_dataframe df = Ok (df', log) ->
            columns df' !! i = Some "class" /\ columns df' !! j = Some "class").
  { intros df' log [Hcols _]%process_dataframe_labels. rewrite Hcols.
    rewrite (processed_labels_lookup _ _ _ Hi), (processed_labels_lookup _ _ _ Hj).
    by rewrite Hc1, Hc2. }
  split; [done|]. unfold main.
  destruct (process_dataframe df) as [[df' log]|] eqn:Hproc; [|done].
  destruct (create_indexes _) as [dbi [[]|]]; [|done].
  destruct (select df' _) as [frame|] eqn:Hsel; [|done].
  destruct (to_sql_replace frame dbi) as [dbf [[]|]] eqn:Hsql; [|done].
  exfalso. apply to_sql_replace_ok in Hsql as [Hnodup _].
  destruct (Hboth df' log eq_refl) as [Hi' Hj'].
  unfold columns in Hi', Hj'.
  apply list_lookup_fmap_Some in Hi' as (p & Hp1 & Hp).
  apply list_lookup_fmap_Some in Hj' as (q & Hq1 & Hq).
  pose proof (labelled_twice "class" df' i j p q
                Hp Hq Hne (eq_sym Hp1) (eq_sym Hq1)) as Htwo.
  rewrite (select_single _ _ _ "class" Hsel Hnodup) in Htwo by set_solver. lia.
Qed.

End ProcessedFrame.

(** ** Rows read, rows stored and rows reported *)

Section RowAccounting.
Import Sqlite.
Context `{PandasText}.

Lemma count_false_and (xy m : list bool) :
  length xy = length m ->
  count_false (zip_with andb xy m)
  = (count_false xy + count_false (filter_mask xy m))%nat.
Proof.
  unfold count_false. revert m.
  induction xy as [|b xy IH]; intros [|c m] Hlen; simpl in Hlen; try done.
  injection Hlen as Hlen. specialize (IH m Hlen). cbn [zip_with filter_mask].
  destruct b, c; simpl;
    rewrite ?(filter_cons_True _ false) by done;
    rewrite ?(filter_cons_False _ true) by done;
    cbn [length]; lia.
Qed.

Lemma count_false_le (mask : list bool) : (count_false mask <= length mask)%nat.
Proof. unfold count_false. apply length_filter. Qed.

Lemma rows_of_length (n : nat) (cols : list (list value)) :
  cols <> [] -> Forall (fun c => length c = n) cols -> length (rows_of cols) = n.
Proof.
  induction cols as [|c cols IH]; intros Hne Hall; [done|].
  apply Forall_cons in Hall as [Hc Hall].
  destruct cols as [|c2 cols].
  - simpl. by rewrite length_fmap.
  - change (rows_of (c :: c2 :: cols)) with (zip_with cons c (rows_of (c2 :: cols))).
    rewrite length_zip_with, Hc, IH by done. lia.
Qed.

Lemma select_subset (df frame : DataFrame) (labels : list string) :
  select df labels = Ok frame -> forall p, p ∈ frame -> p ∈ df.
Proof.
  revert frame. induction labels as [|l labels IH]; intros frame Hsel p Hp.
  - injection Hsel as <-. by apply elem_of_nil in Hp.
  - simpl in Hsel.
    destruct (filter (fun p : string * column => p.1 = l) df) as [|q cols] eqn:Hf;
      [discriminate|].
    destruct (select df labels) as [rest|]; csimpl in Hsel; [|discriminate].
    injection Hsel as <-.
    change (q :: cols ++ rest) with ((q :: cols) ++ rest) in Hp.
    apply elem_of_app in Hp as [Hp | Hp]; [|by eapply IH].
    rewrite <- Hf in Hp. by apply list_elem_of_filter in Hp as [_ ?].
Qed.

(** The rows [to_sql] stores are as many as the frame has. *)
Lemma stored_rows_length (n : nat) (df frame : DataFrame) (labels : list string) :
  well_formed n df -> labels <> [] ->
  select df labels = Ok frame ->
  length (rows_of (values <$> frame.*2)) = n.
Proof.
  intros Hwf Hne Hsel. apply rows_of_length.
  - destruct labels as [|l labels]; [done|]. simpl in Hsel.
    destruct (filter _ df) as [|q cols]; [discriminate|].
    destruct (select df labels); csimpl in Hsel; [|discriminate].
    by injection Hsel as <-.
  - apply Forall_fmap, Forall_fmap, Forall_forall. intros p Hp.
    unfold well_formed in Hwf. rewrite Forall_forall in Hwf.
    apply (Hwf p). by eapply select_subset.
Qed.

Lemma removed_rows_app (log1 log2 : list SeedSqlite.log_entry) :
  SeedSqlite.removed_rows (log1 ++ log2)
  = (SeedSqlite.removed_rows log1 + SeedSqlite.removed_rows log2)%nat.
Proof.
  induction log1 as [|entry log1 IH]; [done|].
  simpl. rewrite IH. destruct entry; lia.
Qed.

(** The processed frame is well formed and accounts for every input row:
    its rows and the rows the two messages report add up to the rows
    read. *)
Lemma process_dataframe_rows (n : nat) (df df' : DataFrame)
    (log : list SeedSqlite.log_entry) :
  well_formed n df ->
  SeedSqlite.process_dataframe df = Ok (df', log) ->
  well_formed (len df') df' /\ df' <> [] /\
  (len df' + SeedSqlite.removed_rows log = n)%nat.
Proof.
  intros Hwf Hproc.
  destruct (process_dataframe_inv n df df' log Hwf Hproc)
    as (ts_col & df1 & df2 & log2 & cx & cy & ct & Hinfer & Hnorm & Hclean
        & Hx & Hy & Ht & -> & ->).
  clear Hproc.
  destruct (normalize_timestamp_well_formed _ _ _ _ Hwf Hnorm) as (Hwf1 & _ & _).
  destruct (clean_columns_inv _ _ _ _ _ Hwf1 Hclean) as (Hwf2 & -> & _).
  assert (Hne : df2 <> []) by (by intros ->).
  clear Hclean.
  set (xy := zip_with andb (notna cx) (notna cy)).
  assert (Hlx : length (notna cx) = n)
    by (unfold notna; rewrite length_fmap; by eapply getitem_well_formed).
  assert (Hly : length (notna cy) = n)
    by (unfold notna; rewrite length_fmap; by eapply getitem_well_formed).
  assert (Hlt : length (notna ct) = n)
    by (unfold notna; rewrite length_fmap; by eapply getitem_well_formed).
  assert (Hxy : length xy = n) by (unfold xy; rewrite length_zip_with; lia).
  assert (Hmask : length (valid_mask cx cy ct) = n).
  { unfold valid_mask. fold xy. rewrite length_zip_with. lia. }
  pose proof (take_rows_well_formed n _ df2 Hwf2 Hmask) as Hwf'.
  pose proof (on_columns_nonempty (take_rows (valid_mask cx cy ct)) df2 Hne) as Hne'.
  rewrite (len_well_formed _ _ Hwf' Hne').
  split_and!; [done | done |].
  assert (Hcount : count_false (valid_mask cx cy ct)
                   = (count_false xy + count_false (notna (take_rows xy ct)))%nat).
  { unfold valid_mask. fold xy. rewrite count_false_and by lia.
    unfold notna. by rewrite values_take_rows, filter_mask_fmap. }
  pose proof (count_false_le (valid_mask cx cy ct)) as Hle.
  rewrite !removed_rows_app.
  assert (Hlog2 : SeedSqlite.removed_rows
                    (SeedSqlite.standardize_columns df1
                       [SeedSqlite.Processing (len df);
                        SeedSqlite.UsingTimestampColumn ts_col]).2 = 0%nat).
  { unfold SeedSqlite.standardize_columns. case_bool_decide; reflexivity. }
  rewrite Hlog2. fold xy.
  generalize dependent (count_false (notna (take_rows xy ct))).
  generalize dependent (count_false xy).
  generalize dependent (count_false (valid_mask cx cy ct)).
  intros total Hwf' Hle bad_xy bad_t Htotal.
  unfold SeedSqlite.removed_rows.
  repeat case_bool_decide; cbn [foldr]; lia.
Qed.

(** Every row the backend script reads is either stored or reported:
    after a run that ends with status 0 the rows of [detections] and the
    rows the two messages of [process_dataframe] count as removed add up
    to the rows of the input. *)
Theorem backend_rows_accounted (n : nat) (df : DataFrame) (db db' : database) :
  well_formed n df ->
  SeedSqlite.main (Some df) db = (db', 0%Z) ->
  exists df' log tbl,
    SeedSqlite.process_dataframe df = Ok (df', log) /\
    detections db' = Some tbl /\
    length (tbl_rows tbl) = len df' /\
    (length (tbl_rows tbl) + SeedSqlite.removed_rows log = n)%nat.
Proof.
  intros Hwf. unfold SeedSqlite.main.
  destruct (SeedSqlite.process_dataframe df) as [[df' log]|] eqn:Hproc; [|discriminate].
  destruct (SeedSqlite.create_indexes _) as [dbi [[]|]]; [|discriminate].
  destruct (select df' _) as [frame|] eqn:Hsel; [|discriminate].
  destruct (to_sql_replace frame dbi) as [dbf [[]|]] eqn:Hsql; [|discriminate].
  intros [= <-]. apply to_sql_replace_ok in Hsql as [Hnodup ->].
  destruct (process_dataframe_rows n df df' log Hwf Hproc) as (Hwf' & Hne' & Hsum).
  assert (Hrows : length (rows_of (values <$> frame.*2)) = len df').
  { eapply stored_rows_length; [exact Hwf' | | exact Hsel]. discriminate. }
  exists df', log. eexists. split_and!; [done | done | exact Hrows |].
  simpl. by rewrite Hrows.
Qed.

Lemma root_numeric_casts_same (labels : list string) (df : DataFrame) :
  SeedSqliteMin.numeric_casts labels df = SeedSqlite.numeric_casts labels df.
Proof.
  revert df. induction labels as [|l labels IH]; intros df; simpl; [done|].
  case_bool_decide; [|apply IH].
  destruct (getitem df l); csimpl; [apply IH | done].
Qed.

Lemma root_prepare_well_formed (n : nat) (df df' : DataFrame) :
  well_formed n df -> SeedSqliteMin.prepare df = Ok df' -> well_formed n df'.
Proof.
  intros Hwf Hprep. unfold SeedSqliteMin.prepare in Hprep.
  destruct (SeedSqliteMin.infer_timestamp_col df) as [ts_col|];
    cbn [mbind result_bind] in Hprep; [|discriminate].
  change (SeedSqliteMin.normalize_timestamp df ts_col)
    with (SeedSqlite.normalize_timestamp df ts_col) in Hprep.
  destruct (SeedSqlite.normalize_timestamp df ts_col) as [df1|] eqn:Hnorm;
    cbn [mbind result_bind] in Hprep; [|discriminate].
  destruct (SeedSqliteMin.check_required _ _);
    cbn [mbind result_bind] in Hprep; [|discriminate].
  rewrite root_numeric_casts_same in Hprep.
  destruct (normalize_timestamp_well_formed _ _ _ _ Hwf Hnorm) as (Hwf1 & _ & _).
  destruct (numeric_casts_ok n ["x"; "y"; "heading"; "speed"; "vest"]
              (rename df1 (SeedSqliteMin.build_rename_map df1)))
    as (df2 & Hdf2 & Hwf2 & _); [by apply rename_well_formed|].
  rewrite Hdf2 in Hprep. by injection Hprep as <-.
Qed.

(** The root script drops nothing: after a run that succeeds the
    [detections] table has as many rows as the input, whatever the cells
    hold. *)
Theorem root_stores_every_row (n : nat) (df : DataFrame) (db db' : database) :
  well_formed n df ->
  SeedSqliteMin.main (Some df) db = (db', Ok ()) ->
  exists tbl, detections db' = Some tbl /\ length (tbl_rows tbl) = n.
Proof.
  intros Hwf. unfold SeedSqliteMin.main.
  destruct (SeedSqliteMin.prepare df) as [df'|] eqn:Hprep; [|discriminate].
  destruct (select df' _) as [frame|] eqn:Hsel; [|discriminate].
  destruct (to_sql_replace frame db) as [dbf [[]|]] eqn:Hsql; [|discriminate].
  apply to_sql_replace_ok in Hsql as [Hnodup ->].
  pose proof (select_columns _ _ _ Hsel) as Hcols.
  erewrite create_index_fresh;
    [ | vm_compute; reflexivity | reflexivity | simpl; apply Hcols; set_solver ].
  erewrite create_index_fresh;
    [ | vm_compute; reflexivity | reflexivity | simpl; apply Hcols; set_solver ].
  intros [= <-]. eexists. split; [done|]. simpl.
  eapply stored_rows_length; [by eapply root_prepare_well_formed | | exact Hsel].
  discriminate.
Qed.

Lemma astype_int64_non_finite (fs : list float64) (f : float64) :
  f ∈ fs -> (forall q, f <> Finite q) ->
  astype_int64 (Float64Col fs) = Raise ValueError.
Proof.
  intros Hf Hnon. simpl. induction fs as [|g fs IH]; [by apply elem_of_nil in Hf|].
  csimpl. destruct g as [q| |]; csimpl; try done.
  apply elem_of_cons in Hf as [-> | Hf]; [by destruct (Hnon q)|].
  by rewrite IH.
Qed.

(** A [NaN] (an empty cell) or an infinity in a float timestamp column is
    not recovered row by row: the cast to integers raises [ValueError],
    and both SQLite scripts stop without touching the database file. *)
Theorem non_finite_timestamp_aborts (df : DataFrame) (ts_col : string)
    (fs : list float64) (f : float64) (db : database) :
  SeedSqlite.infer_timestamp_col df = Ok ts_col ->
  getitem df ts_col = Ok (Float64Col fs) ->
  f ∈ fs -> (forall q, f <> Finite q) ->
  SeedSqlite.process_dataframe df = Raise ValueError /\
  SeedSqlite.main (Some df) db = (db, 1%Z) /\
  SeedSqliteMin.main (Some df) db = (db, Raise ValueError).
Proof.
  intros Hinfer Hcol Hf Hnon.
  assert (Hnorm : SeedSqlite.normalize_timestamp df ts_col = Raise ValueError).
  { unfold SeedSqlite.normalize_timestamp. rewrite Hcol.
    cbn [mbind result_bind is_integer_dtype is_float_dtype orb].
    by rewrite (astype_int64_non_finite fs f Hf Hnon). }
  assert (Hproc : SeedSqlite.process_dataframe df = Raise ValueError).
  { unfold SeedSqlite.process_dataframe. rewrite Hinfer. csimpl. by rewrite Hnorm. }
  split_and!; [done | |].
  - unfold SeedSqlite.main. by rewrite Hproc.
  - unfold SeedSqliteMin.main, SeedSqliteMin.prepare, SeedSqliteMin.infer_timestamp_col.
    rewrite first_candidate_same. fold (SeedSqlite.infer_timestamp_col df).
    rewrite Hinfer. csimpl.
    change (SeedSqliteMin.normalize_timestamp df ts_col)
      with (SeedSqlite.normalize_timestamp df ts_col).
    by rewrite Hnorm.
Qed.

End RowAccounting.

(** ** The PostgreSQL script beyond the batches *)

Section PostgresRuns.
Import SeedPostgres.
Context `{PyBuiltins} `{PgServer}.

Lemma add_indexes_spec (names ixs : list string) :
  let added :=
    foldl (fun ixs name => if bool_decide (name ∈ ixs) then ixs else ixs ++ [name])
          ixs names in
  (forall x, x ∈ added <-> x ∈ ixs \/ x ∈ names) /\
  ((forall x, x ∈ names -> x ∈ ixs) -> added = ixs).
Proof.
  revert ixs. induction names as [|name names IH]; intros ixs; simpl.
  - split; [|done]. intros x. set_solver.
  - destruct (IH (if bool_decide (name ∈ ixs) then ixs else ixs ++ [name]))
      as [Hin Hsame].
    split.
    + intros x. rewrite Hin. case_bool_decide; set_solver.
    + intros Hall. rewrite Hsame.
      * rewrite bool_decide_eq_true_2; [done|]. apply Hall. set_solver.
      * intros x Hx. rewrite bool_decide_eq_true_2 by (apply Hall; set_solver).
        apply Hall. set_solver.
Qed.

Lemma create_table_state (conn : connection) :
  detections (current (create_table conn))
    = Some (default [] (detections (current conn))) /\
  (forall name,
     name ∈ indexes (current (create_table conn)) <->
     name ∈ indexes (current conn) \/
     name ∈ ["idx_detections_t"; "idx_detections_class";
             "idx_detections_id_t"; "idx_detections_area"]) /\
  durable (create_table conn) = current (create_table conn) /\
  tx_rows (create_table conn) = [].
Proof.
  split_and!; [|  |done..].
  - unfold create_table. simpl. by destruct (detections (current conn)).
  - intros name. unfold create_table. cbn [current commit indexes].
    apply (add_indexes_spec _ (indexes (current conn))).
Qed.

(** [create_table] keeps the rows of an existing table and makes an empty
    table otherwise; afterwards the four indexes exist beside the ones that
    were there, everything is committed (the rows pending in the open
    transaction included), and a second call changes no state. *)
Theorem create_table_idempotent (conn : connection) :
  detections (current (create_table conn))
    = Some (default [] (detections (current conn))) /\
  (forall name,
     name ∈ indexes (current (create_table conn)) <->
     name ∈ indexes (current conn) \/
     name ∈ ["idx_detections_t"; "idx_detections_class";
             "idx_detections_id_t"; "idx_detections_area"]) /\
  durable (create_table conn) = current (create_table conn) /\
  tx_rows (create_table conn) = [] /\
  commit_log (create_table conn) = commit_log conn ++ [tx_rows conn] /\
  current (create_table (create_table conn)) = current (create_table conn).
Proof.
  destruct (create_table_state conn) as (Htbl & Hix & Hdur & Htx).
  split_and!; [done..|].
  unfold create_table at 1. cbn [current commit].
  set (conn1 := create_table conn) in *. clearbody conn1.
  destruct (add_indexes_spec
              ["idx_detections_t"; "idx_detections_class";
               "idx_detections_id_t"; "idx_detections_area"]
              (indexes (current conn1))) as [_ Hsame].
  cbv zeta in Hsame. rewrite Hsame.
  - destruct (current conn1) as [tbl ixs]. simpl in *. by subst tbl.
  - intros x Hx. apply Hix. by right.
Qed.

Lemma load_rows_app (n : nat) (rows1 rows2 : list row) :
  forall (batch : list data) (total : nat) (conn : connection),
    load_rows n (rows1 ++ rows2) batch total conn =
      match load_rows n rows1 batch total conn with
      | (conn1, Ok (batch1, total1)) => load_rows n rows2 batch1 total1 conn1
      | (conn1, Raise e) => (conn1, Raise e)
      end.
Proof.
  induction rows1 as [|r rows1 IH]; intros batch total conn; [done|].
  simpl. destruct (row_data r) as [d|e]; [|done].
  destruct (n <=? length (batch ++ [d]))%nat; [|apply IH].
  destruct (execute_batch conn (batch ++ [d])) as [c|e]; [apply IH|done].
Qed.

Lemma length_concat_uniform {A} (n : nat) (batches : list (list A)) :
  Forall (fun b => length b = n) batches ->
  length (concat batches) = (n * length batches)%nat.
Proof.
  induction 1 as [|b batches Hb _ IH]; simpl; [lia|].
  rewrite length_app, IH, Hb. lia.
Qed.

(** When a row fails to convert, [load_csv_data] raises the row's
    exception whatever follows it in the file.  Of the rows before it the
    table keeps the longest prefix whose length is a multiple of 1000, all
    of it committed; the fewer than 1000 rows read since the last full
    batch are not stored. *)
Theorem failed_row_keeps_committed_batches (conn : connection)
    (good : list row) (bad : row) (later : list row)
    (datas existing : list data) (e : exn) :
  Forall2 (fun r d => row_data r = Ok d) good datas ->
  Forall (fun d => accepts d = true) datas ->
  row_data bad = Raise e ->
  detections (current conn) = Some existing ->
  tx_rows conn = [] ->
  exists conn' : connection,
    load_csv_data conn (good ++ bad :: later) = (conn', Raise e) /\
    detections (current conn')
      = Some (existing ++ take (1000 * (length good / 1000)) datas) /\
    tx_rows conn' = [] /\
    ((length good < 1000)%nat -> conn' = conn) /\
    ((1000 <= length good)%nat -> durable conn' = current conn').
Proof.
  intros Hrows Hacc Hbad Hex Htx.
  destruct (load_rows_batches 1000 good ltac:(lia) datas [] 0%nat conn existing)
    as (conn1 & batches & rest & Hrun & Hcat & Hsizes & Hrest & Hlog & Htx1
        & Hcur & Hsame & Hdur); [done | done | simpl; lia | done | done |].
  simpl in Hcat.
  pose proof (length_concat_uniform _ _ Hsizes) as Hfull.
  assert (Hlen : length good = (1000 * length batches + length rest)%nat).
  { rewrite (Forall2_length _ _ _ Hrows), Hcat, length_app, Hfull. done. }
  assert (Hdiv : (length good / 1000 = length batches)%nat).
  { symmetry. apply (Nat.div_unique _ _ _ (length rest)); [done|lia]. }
  exists conn1. unfold load_csv_data. rewrite load_rows_app, Hrun.
  cbn [load_rows]. rewrite Hbad. split_and!.
  - done.
  - rewrite Hcur, Hdiv, <- Hfull, Hcat. by rewrite take_app_length.
  - done.
  - intros Hshort. apply Hsame. destruct batches; [done|]. simpl in Hlen. lia.
  - intros Hlong. apply Hdur. intros ->. simpl in Hlen. lia.
Qed.

Lemma execute_batch_rejected (conn : connection) (batch : list data) :
  Exists (fun d => accepts d = false) batch ->
  execute_batch conn batch = Raise DatabaseError.
Proof.
  intros Hbad. unfold execute_batch.
  destruct (detections (current conn)) as [old|]; [|done].
  assert (Hall : forallb accepts batch = false).
  { induction Hbad as [d batch Hd | d batch _ IH]; simpl.
    - by rewrite Hd.
    - rewrite IH. apply andb_false_r. }
  by rewrite Hall.
Qed.

Lemma load_rows_rejected (n : nat) (rows : list row) :
  forall (datas batch : list data) (total : nat) (conn : connection),
    Forall2 (fun r d => row_data r = Ok d) rows datas ->
    Exists (fun d => accepts d = false) batch ->
    load_rows n rows batch total conn = (conn, Raise DatabaseError) \/
    exists batch',
      load_rows n rows batch total conn = (conn, Ok (batch', total)) /\
      Exists (fun d => accepts d = false) batch'.
Proof.
  induction rows as [|r rows IH]; intros datas batch total conn Hrows Hbad.
  - right. by exists batch.
  - apply Forall2_cons_inv_l in Hrows as (d & datas' & Hd & Hrows & ->).
    cbn [load_rows]. rewrite Hd.
    assert (Hbad' : Exists (fun d => accepts d = false) (batch ++ [d])).
    { apply Exists_app. by left. }
    destruct (n <=? length (batch ++ [d]))%nat.
    + left. by rewrite execute_batch_rejected.
    + by apply (IH datas').
Qed.

(** A record the table rejects takes its whole batch with it:
    [load_csv_data] raises the database error, the table keeps only the
    full batches of 1000 committed before, and the accepted records read
    since then are not stored, nor is anything after them. *)
Theorem rejected_record_loses_its_batch (conn : connection) (rows : list row)
    (accepted : list data) (d : data) (later existing : list data) :
  Forall2 (fun r d => row_data r = Ok d) rows (accepted ++ d :: later) ->
  Forall (fun d => accepts d = true) accepted ->
  accepts d = false ->
  detections (current conn) = Some existing ->
  tx_rows conn = [] ->
  exists conn' : connection,
    load_csv_data conn rows = (conn', Raise DatabaseError) /\
    detections (current conn')
      = Some (existing ++ take (1000 * (length accepted / 1000)) accepted) /\
    tx_rows conn' = [] /\
    ((length accepted < 1000)%nat -> conn' = conn) /\
    ((1000 <= length accepted)%nat -> durable conn' = current conn').
Proof.
  intros Hrows Hacc Hd Hex Htx.
  apply Forall2_app_inv_r in Hrows as (rows1 & rows2 & Hrows1 & Hrows2 & ->).
  apply Forall2_cons_inv_r in Hrows2 as (r & rows2' & Hr & Hrows2 & ->).
  destruct (load_rows_batches 1000 rows1 ltac:(lia) accepted [] 0%nat conn existing)
    as (conn1 & batches & rest & Hrun & Hcat & Hsizes & Hrest & Hlog & Htx1
        & Hcur & Hsame & Hdur); [done | done | simpl; lia | done | done |].
  simpl in Hcat.
  pose proof (length_concat_uniform _ _ Hsizes) as Hfull.
  assert (Hlen : length accepted = (1000 * length batches + length rest)%nat).
  { rewrite Hcat, length_app, Hfull. done. }
  assert (Hdiv : (length accepted / 1000 = length batches)%nat).
  { symmetry. apply (Nat.div_unique _ _ _ (length rest)); [done|lia]. }
  assert (Hbad : Exists (fun d => accepts d = false) (rest ++ [d])).
  { apply Exists_app. right. by constructor. }
  assert (Hraise : load_csv_data conn (rows1 ++ r :: rows2')
                   = (conn1, Raise DatabaseError)).
  { unfold load_csv_data. rewrite load_rows_app, Hrun.
    cbn [load_rows]. rewrite Hr.
    destruct (1000 <=? length (rest ++ [d]))%nat.
    - by rewrite execute_batch_rejected.
    - destruct (load_rows_rejected 1000 rows2' later (rest ++ [d])
                  (0 + length (concat batches)) conn1 Hrows2 Hbad)
        as [-> | (batch' & -> & Hbad')]; [done|].
      destruct batch' as [|d' batch']; [by apply Exists_nil in Hbad'|].
      by rewrite execute_batch_rejected. }
  exists conn1. split_and!.
  - done.
  - rewrite Hcur, Hdiv, <- Hfull, Hcat. by rewrite take_app_length.
  - done.
  - intros Hshort. apply Hsame. destruct batches; [done|]. simpl in Hlen. lia.
  - intros Hlong. apply Hdur. intros ->. simpl in Hlen. lia.
Qed.

Lemma import_data_connected (w : world) (url : string) (rows : list row) :
  connected_to (import_data w url rows) = Some url.
Proof.
  unfold import_data. destruct (server w url) as [conn|]; [|done].
  destruct (detections (current conn)) as [existing|]; [|done].
  destruct (0 <? length existing)%nat.
  - case_bool_decide; [|done].
    by destruct (load_csv_data _ rows) as [? [?|?]].
  - by destruct (load_csv_data _ rows) as [? [?|?]].
Qed.

Lemma main_connected (w : world) (url : string) :
  connected_to (main w) = Some url ->
  exists rows, csv_file w = Some rows /\ main w = import_data w url rows.
Proof.
  unfold main.
  set (database_url :=
         if negb (truthy (environ_DATABASE_URL w)) && (1 <? length (argv w))%nat
         then argv w !! 1%nat else environ_DATABASE_URL w).
  destruct (negb (truthy database_url)); [done|].
  destruct (csv_file w) as [rows|]; [|done].
  rewrite import_data_connected. intros [= <-]. by exists rows.
Qed.

(** A database in which the table [detections] does not exist yet is never
    seeded: [main] counts the rows of the table before it calls
    [create_table], so the run ends with status 1 and the connection is
    left as it was, whatever the file holds and whatever is answered. *)
Theorem missing_table_aborts (w : world) (url : string) (conn : connection) :
  connected_to (main w) = Some url ->
  server w url = Some conn ->
  detections (current conn) = None ->
  exit_status (main w) = 1%Z /\ final (main w) = Some conn.
Proof.
  intros Hurl Hconn Hnone.
  apply main_connected in Hurl as (rows & _ & ->).
  unfold import_data. by rewrite Hconn, Hnone.
Qed.

Lemma load_csv_data_all (conn : connection) (rows : list row)
    (datas existing : list data) :
  Forall2 (fun r d => row_data r = Ok d) rows datas ->
  Forall (fun d => accepts d = true) datas ->
  detections (current conn) = Some existing ->
  tx_rows conn = [] ->
  exists conn' : connection,
    load_csv_data conn rows = (conn', Ok (length rows)) /\
    detections (current conn') = Some (existing ++ datas) /\
    indexes (current conn') = indexes (current conn) /\
    (durable conn = current conn -> durable conn' = current conn').
Proof.
  intros Hrows Hacc Hex Htx.
  assert (Hindexes : forall (n : nat) rows batch total c c' res,
            load_rows n rows batch total c = (c', res) ->
            indexes (current c') = indexes (current c)).
  { clear. intros n rows. induction rows as [|r rows IH];
      intros batch total c c' res; simpl.
    - by intros [= <- _].
    - destruct (row_data r) as [d|e]; [|by intros [= <- _]].
      destruct (n <=? length (batch ++ [d]))%nat; [|apply IH].
      unfold execute_batch.
      destruct (detections (current c)) as [old|]; [|by intros [= <- _]].
      destruct (forallb accepts (batch ++ [d])); [|by intros [= <- _]].
      intros Hrun. by apply IH in Hrun. }
  destruct (load_rows_batches 1000 rows ltac:(lia) datas [] 0%nat conn existing)
    as (conn1 & batches & rest & Hrun & Hcat & Hsizes & Hrest & Hlog & Htx1
        & Hcur & Hsame & Hdur); [done | done | simpl; lia | done | done |].
  simpl in Hcat.
  assert (Hlen : length rows = (length (concat batches) + length rest)%nat).
  { rewrite (Forall2_length _ _ _ Hrows), Hcat, length_app. done. }
  pose proof (Hindexes _ _ _ _ _ _ _ Hrun) as Hix.
  unfold load_csv_data. rewrite Hrun. clear Hrun.
  destruct rest as [|d rest].
  - exists conn1. rewrite app_nil_r in Hcat. simpl in Hlen.
    split_and!.
    + do 2 f_equal. lia.
    + by rewrite Hcur, Hcat.
    + done.
    + intros Hcommitted. destruct batches as [|b batches].
      * by rewrite Hsame.
      * by apply Hdur.
  - assert (Haccr : Forall (fun d => accepts d = true) (d :: rest)).
    { rewrite Hcat in Hacc. by apply Forall_app in Hacc as [_ ?]. }
    rewrite (execute_batch_ok conn1 _ _ Hcur Haccr).
    eexists. split_and!.
    + do 2 f_equal. lia.
    + simpl. by rewrite Hcat, <- (assoc_L (++)).
    + done.
    + done.
Qed.

(** When [detections] exists, rows already in it are either kept or
    replaced, never mixed with the file's: an answer other than yes or y
    ends the run with status 0 and nothing changed; with that answer, or
    with an empty table, and a file whose rows all convert and are
    accepted, the run ends with status 0 and the committed table holds
    exactly the records of the file, in order, beside the four indexes. *)
Theorem existing_rows_kept_or_replaced (w : world) (url : string)
    (conn : connection) (existing : list data) :
  connected_to (main w) = Some url ->
  server w url = Some conn ->
  detections (current conn) = Some existing ->
  (existing <> [] -> lower (stdin_line w) ∉ ["yes"; "y"] ->
   exit_status (main w) = 0%Z /\ final (main w) = Some conn) /\
  (existing = [] \/ lower (stdin_line w) ∈ ["yes"; "y"] ->
   forall (rows : list row) (datas : list data),
     csv_file w = Some rows ->
     Forall2 (fun r d => row_data r = Ok d) rows datas ->
     Forall (fun d => accepts d = true) datas ->
     exists conn' : connection,
       exit_status (main w) = 0%Z /\ final (main w) = Some conn' /\
       detections (durable conn') = Some datas /\
       current conn' = durable conn' /\
       (forall name,
          name ∈ ["idx_detections_t"; "idx_detections_class";
                  "idx_detections_id_t"; "idx_detections_area"] ->
          name ∈ indexes (durable conn'))).
Proof.
  intros Hurl Hconn Hex.
  apply main_connected in Hurl as (rows0 & Hfile & Hmain).
  assert (Hload : forall (c : connection) (rows : list row) (datas : list data),
            detections (current c) = Some [] ->
            Forall2 (fun r d => row_data r = Ok d) rows datas ->
            Forall (fun d => accepts d = true) datas ->
            exists conn' : connection,
              load_csv_data (create_table c) rows = (conn', Ok (length rows)) /\
              detections (durable conn') = Some datas /\
              current conn' = durable conn' /\
              (forall name,
                 name ∈ ["idx_detections_t"; "idx_detections_class";
                         "idx_detections_id_t"; "idx_detections_area"] ->
                 name ∈ indexes (durable conn'))).
  { intros c rows datas Hempty Hrows Hacc.
    destruct (create_table_state c) as (Htbl & Hix & Hdur & Htx).
    rewrite Hempty in Htbl. simpl in Htbl.
    destruct (load_csv_data_all (create_table c) rows datas [] Hrows Hacc Htbl Htx)
      as (conn' & Hrun & Hcur & Hixs & Hcommitted).
    specialize (Hcommitted Hdur).
    exists conn'. rewrite Hcommitted. split_and!; [done..|].
    intros name Hname. rewrite Hixs. apply Hix. by right. }
  rewrite Hmain. unfold import_data. rewrite Hconn, Hex. split.
  - intros Hne Hanswer. destruct existing as [|d existing]; [done|]. simpl.
    by rewrite bool_decide_eq_false_2.
  - intros Hcase rows datas Hrows0 Hrows Hacc.
    rewrite Hfile in Hrows0. injection Hrows0 as ->.
    destruct (0 <? length existing)%nat eqn:Hcount.
    + destruct Hcase as [-> | Hanswer]; [done|].
      rewrite bool_decide_eq_true_2 by done.
      edestruct (Hload (commit {| durable := durable conn;
                                  current := {| detections := Some [];
                                                indexes := indexes (current conn) |};
                                  tx_rows := tx_rows conn;
                                  commit_log := commit_log conn |}) rows datas)
        as (conn' & Hrun & Hrest); [done..|].
      rewrite Hrun. by exists conn'.
    + apply Nat.ltb_ge in Hcount. destruct existing; [|simpl in Hcount; lia].
      destruct (Hload conn rows datas) as (conn' & Hrun & Hrest); [done..|].
      rewrite Hrun. by exists conn'.
Qed.




End PostgresRuns.

(** ** Runs of the further properties *)

Section FurtherRuns.
Import Sqlite.

Lemma schema_setup_idempotent_witness :
  exists db1,
    SeedSqlite.create_indexes (SeedSqlite.create_schema empty_db) = (db1, Ok ()) /\
    SeedSqlite.create_indexes (SeedSqlite.create_schema db1) = (db1, Ok ()).
Proof.
  destruct (SeedSqlite.create_indexes (SeedSqlite.create_schema empty_db))
    as [db1 r] eqn:Hrun.
  destruct (schema_setup_idempotent empty_db db1 r Hrun) as (Hok & _ & _ & Hagain).
  specialize (Hok eq_refl). subst r.
  exists db1. split; [reflexivity | by apply Hagain].
Defined.

Lemma backend_output_schema_witness :
  indexes (SeedSqlite.main (Some frame_three) empty_db).1 = ∅.
Proof.
  destruct (SeedSqlite.main (Some frame_three) empty_db) as [db' status] eqn:Hrun.
  assert (Hstatus : status = 0%Z) by (vm_compute in Hrun; congruence).
  subst status.
  exact (proj1 (backend_output_schema frame_three empty_db db' Hrun)).
Defined.

Lemma root_output_schema_witness :
  exists tbl,
    detections (SeedSqliteMin.main (Some frame_twice) empty_db).1 = Some tbl /\
    tbl_columns tbl = ["id"; "class"; "t"; "x"; "y"; "heading"; "vest"; "speed"].
Proof.
  destruct (SeedSqliteMin.main (Some frame_twice) empty_db) as [db' r] eqn:Hrun.
  assert (Hr : r = Ok ()) by (vm_compute in Hrun; congruence).
  subst r.
  destruct (root_output_schema frame_twice empty_db db' Hrun)
    as (_ & tbl & Htbl & Hcols & _).
  exists tbl. split; [exact Htbl | exact Hcols].
Defined.

Lemma backend_required_columns_witness :
  SeedSqlite.main (Some frame_no_time) empty_db = (empty_db, 1%Z).
Proof.
  apply (proj1 (backend_required_columns frame_no_time empty_db) "y").
  - set_solver.
  - vm_compute. set_solver.
Defined.

Lemma class_alias_collision_witness :
  (SeedSqlite.main (Some frame_two_aliases) empty_db).2 = 1%Z.
Proof.
  apply (class_alias_collision frame_two_aliases empty_db 1 2 "class_name" "label");
    [reflexivity | reflexivity | lia | vm_compute; reflexivity
     | vm_compute; reflexivity].
Defined.

Lemma backend_rows_accounted_witness :
  exists df' log tbl,
    SeedSqlite.process_dataframe frame_three = Ok (df', log) /\
    detections (SeedSqlite.main (Some frame_three) empty_db).1 = Some tbl /\
    (length (tbl_rows tbl) + SeedSqlite.removed_rows log = 3)%nat.
Proof.
  assert (Hwf : well_formed 3 frame_three) by repeat constructor.
  destruct (SeedSqlite.main (Some frame_three) empty_db) as [db' status] eqn:Hrun.
  assert (Hstatus : status = 0%Z) by (vm_compute in Hrun; congruence).
  subst status.
  destruct (backend_rows_accounted 3 frame_three empty_db db' Hwf Hrun)
    as (df' & log & tbl & Hproc & Htbl & _ & Hsum).
  exists df', log, tbl. split; [exact Hproc | split; [exact Htbl | exact Hsum]].
Defined.

Lemma root_stores_every_row_witness :
  exists tbl,
    detections (SeedSqliteMin.main (Some frame_no_x) empty_db).1 = Some tbl /\
    length (tbl_rows tbl) = 1%nat.
Proof.
  assert (Hwf : well_formed 1 frame_no_x) by repeat constructor.
  destruct (SeedSqliteMin.main (Some frame_no_x) empty_db) as [db' r] eqn:Hrun.
  assert (Hr : r = Ok ()) by (vm_compute in Hrun; congruence).
  subst r.
  exact (root_stores_every_row 1 frame_no_x empty_db db' Hwf Hrun).
Defined.

Lemma non_finite_timestamp_aborts_witness :
  SeedSqlite.main (Some frame_gap) empty_db = (empty_db, 1%Z).
Proof.
  apply (non_finite_timestamp_aborts frame_gap "t"
           [Finite 1700000000; NaN] NaN empty_db);
    [reflexivity | reflexivity | set_solver | discriminate].
Defined.

Lemma failed_row_keeps_committed_batches_witness :
  exists conn',
    SeedPostgres.load_csv_data fresh_connection
      ([csv_row "a1" "ped" "2024-01-01" "1.0" "2.0" ""]
       ++ csv_row "a2" "veh" "2024-01-02" "bad" "3.0" ""
       :: [csv_row "a3" "ped" "2024-01-03" "4.0" "5.0" ""])
      = (conn', Raise ValueError) /\
    conn' = fresh_connection.
Proof.
  destruct (SeedPostgres.row_data (csv_row "a1" "ped" "2024-01-01" "1.0" "2.0" ""))
    as [d1|] eqn:Hd1; [|vm_compute in Hd1; discriminate].
  destruct (failed_row_keeps_committed_batches fresh_connection
              [csv_row "a1" "ped" "2024-01-01" "1.0" "2.0" ""]
              (csv_row "a2" "veh" "2024-01-02" "bad" "3.0" "")
              [csv_row "a3" "ped" "2024-01-03" "4.0" "5.0" ""]
              [d1] [] ValueError)
    as (conn' & Hrun & _ & _ & Hsame & _).
  - repeat constructor; assumption.
  - vm_compute in Hd1. injection Hd1 as <-. repeat constructor.
  - vm_compute. reflexivity.
  - reflexivity.
  - reflexivity.
  - exists conn'. split; [exact Hrun|]. apply Hsame. simpl. lia.
Defined.

Lemma rejected_record_loses_its_batch_witness :
  exists conn',
    SeedPostgres.load_csv_data fresh_connection
      [csv_row "a1" "ped" "2024-01-01" "1.0" "2.0" "";
       csv_row "a2" "veh" "yesterday" "2.5" "3.0" ""]
      = (conn', Raise DatabaseError) /\
    conn' = fresh_connection.
Proof.
  destruct (SeedPostgres.row_data (csv_row "a1" "ped" "2024-01-01" "1.0" "2.0" ""))
    as [d1|] eqn:Hd1; [|vm_compute in Hd1; discriminate].
  destruct (SeedPostgres.row_data (csv_row "a2" "veh" "yesterday" "2.5" "3.0" ""))
    as [d2|] eqn:Hd2; [|vm_compute in Hd2; discriminate].
  destruct (rejected_record_loses_its_batch fresh_connection
              [csv_row "a1" "ped" "2024-01-01" "1.0" "2.0" "";
               csv_row "a2" "veh" "yesterday" "2.5" "3.0" ""]
              [d1] d2 [] [])
    as (conn' & Hrun & _ & _ & Hsame & _).
  - repeat constructor; assumption.
  - vm_compute in Hd1. injection Hd1 as <-. repeat constructor.
  - vm_compute in Hd2. injection Hd2 as <-. reflexivity.
  - reflexivity.
  - reflexivity.
  - exists conn'. split; [exact Hrun|]. apply Hsame. simpl. lia.
Defined.

Lemma missing_table_aborts_witness :
  SeedPostgres.exit_status (SeedPostgres.main world_blank) = 1%Z /\
  SeedPostgres.final (SeedPostgres.main world_blank) = Some blank_connection.
Proof.
  apply (missing_table_aborts world_blank "postgresql://env/kpi" blank_connection);
    [vm_compute; reflexivity | reflexivity | reflexivity].
Defined.

Lemma existing_rows_kept_or_replaced_witness :
  exists conn' d,
    SeedPostgres.final (SeedPostgres.main world_both) = Some conn' /\
    SeedPostgres.detections (SeedPostgres.durable conn') = Some [d].
Proof.
  destruct (SeedPostgres.row_data (csv_row "a1" "ped" "2024-01-01" "1.0" "2.0" ""))
    as [d1|] eqn:Hd1; [|vm_compute in Hd1; discriminate].
  assert (Hurl : SeedPostgres.connected_to (SeedPostgres.main world_both)
                 = Some "postgresql://env/kpi").
  { apply import_data_connected. }
  assert (Hserver : SeedPostgres.server world_both "postgresql://env/kpi"
                    = Some fresh_connection) by reflexivity.
  assert (Htable0 : SeedPostgres.detections (SeedPostgres.current fresh_connection)
                    = Some []) by reflexivity.
  pose proof (existing_rows_kept_or_replaced world_both "postgresql://env/kpi"
                fresh_connection [] Hurl Hserver Htable0) as [_ Hreload].
  assert (Hfile : SeedPostgres.csv_file world_both
                  = Some [csv_row "a1" "ped" "2024-01-01" "1.0" "2.0" ""])
    by reflexivity.
  assert (Hrows : Forall2 (fun r d => SeedPostgres.row_data r = Ok d)
                    [csv_row "a1" "ped" "2024-01-01" "1.0" "2.0" ""] [d1]).
  { repeat constructor. exact Hd1. }
  assert (Hacc : Forall (fun d => SeedPostgres.accepts d = true) [d1]).
  { vm_compute in Hd1. injection Hd1 as <-. repeat constructor. }
  destruct (Hreload (or_introl eq_refl) _ _ Hfile Hrows Hacc)
    as (conn' & _ & Hfinal & Htable & _).
  exists conn', d1. split; [exact Hfinal | exact Htable].
Defined.


End FurtherRuns.
